(** * Multi-Wallet CLI Manager: vault unlock, trash restore and the
      WalletConnect session handlers

    A shallow embedding of the parts of [core.js], [cli.js] and the headless
    [wallet.js] prototype that decide the vault and session properties:
    [unlockWallets], [initializeWallets], [restoreWallet], [transferAsset],
    [swapToken] and the [session_proposal] / [session_request] handlers of
    [connectWallet], and of the functions of [cli.js] that write the wallet
    file: [deleteWallet], [saveEncryptedWallet], [createNewWallet],
    [importWallet] and [renameWallet].

    Asynchronous functions are written in a small monad that threads the
    process state (the module-level [let] variables and the two JSON files),
    consumes the answers typed at the inquirer prompts and records, in order,
    every prompt and every call made to an outside party (the WalletConnect
    client, the chain RPC, the signer).  A JavaScript exception is the
    outcome [Threw]; [process.exit] is the outcome [Exited]. *)

From Stdlib Require Import ZArith String Ascii List Bool Lia Permutation DecimalString.
From stdpp Require Import base option list strings gmap.

Local Open Scope string_scope.
Local Open Scope list_scope.

(** ** JavaScript values that cross the wire *)

(** The JSON values found in [request.params].  Numbers, booleans and arrays
    never reach a branch of the handlers on their own, so they are folded
    into [JOther]. *)
#[local] Set Warnings "-register-all".
Inductive jsval : Type :=
| JUndefined
| JNull
| JString (s : string)
| JObject (fields : list (string * jsval))
| JOther.

(** [v.field]: a property read.  Reading a property of [undefined] or [null]
    throws a TypeError ([None]); a missing property is [undefined]. *)
Definition js_get (v : jsval) (field : string) : option jsval :=
  match v with
  | JUndefined | JNull => None
  | JObject fields =>
      Some (match List.find (fun kv => String.eqb (fst kv) field) fields with
            | Some kv => snd kv
            | None => JUndefined
            end)
  | JString _ | JOther => Some JUndefined
  end.

(** [`${v}`] for the values modelled here. *)
Definition js_to_string (v : jsval) : string :=
  match v with
  | JUndefined => "undefined"
  | JNull => "null"
  | JString s => s
  | JObject _ => "[object Object]"
  | JOther => "[value]"
  end.

(** [arr[i]] on [request.params]: out of range is [undefined]. *)
Definition js_nth (params : list jsval) (i : nat) : jsval :=
  nth i params JUndefined.

(** JavaScript truthiness of a string: only the empty string is falsy. *)
Definition truthy (s : string) : bool := negb (String.eqb s "").

(** The double quote character, for template literals that print one. *)
Definition dquote : string := String (ascii_of_nat 34) EmptyString.

(** ** Wallets and records *)

(** An [ethers.Wallet]. *)
Record Wallet : Type := mkWallet {
  address : string;
  privateKey : string
}.

(** One element of [DECRYPTED_WALLETS]: [{ name, wallet }]. *)
Record Entry : Type := mkEntry {
  name : string;
  wallet : Wallet
}.

(** One element of [my_wallets.json] / [trash_wallets.json]:
    [{ name, data }] when encrypted, [{ name, privateKey }] when plain. *)
Record RawWallet : Type := mkRaw {
  rw_name : string;
  rw_data : option string;
  rw_privateKey : option string
}.

(** ** Session proposals *)

(** One namespace of a proposal.  Each field may be absent, which is what
    the handler's [|| default] tests. *)
Record Namespace : Type := mkNamespace {
  chains : option (list string);
  methods : option (list string);
  events : option (list string)
}.

(** One namespace of the approval sent back. *)
Record ApprovedNamespace : Type := mkApproved {
  accounts : list string;
  a_methods : list string;
  a_events : list string
}.

Record Proposal : Type := mkProposal {
  proposal_id : Z;
  proposer_name : string;
  requiredNamespaces : option (gmap string Namespace);
  optionalNamespaces : option (gmap string Namespace)
}.

(** ** Session requests *)

Record Request : Type := mkRequest {
  method : string;
  params : list jsval
}.

(** A [session_request] event: [{ topic, params: { request, chainId }, id }]. *)
Record RequestEvent : Type := mkRequestEvent {
  topic : string;
  request_id : Z;
  request_chainId : string;
  request : Request
}.

(** A transaction request handed to [sendTransaction]. *)
Record Tx : Type := mkTx {
  tx_to : jsval;
  tx_value : jsval;
  tx_data : jsval;
  tx_gasLimit : jsval
}.

(** The transaction built from [request.params[0]]; reading a property of
    [undefined] throws. *)
Definition tx_of (txParams : jsval) : option Tx :=
  to ← js_get txParams "to";
  value ← js_get txParams "value";
  data ← js_get txParams "data";
  gas ← js_get txParams "gas";
  Some (mkTx to value data gas).

(** What [signMessage] receives: the decoded bytes, or the message as is. *)
Inductive SignInput : Type :=
| SignBytes (bytes : list Z)
| SignText (text : string)
| SignOther (v : jsval).

(** The [response] object of [client.respond]. *)
Inductive Response : Type :=
| RespResult (id : Z) (result : string)
| RespError (id : Z) (code : Z) (message : string).

Definition response_id (r : Response) : Z :=
  match r with
  | RespResult id _ => id
  | RespError id _ _ => id
  end.

(** ** The trace *)

(** Everything a run shows to the user or sends outside, in program order. *)
Inductive event : Type :=
| Picked (message : string) (offered : list string) (label : string)
| Entered (message : string) (text : string)
| Logged (line : string)
| SignedMessage (signer : string) (input : SignInput)
| SignedTypedData (signer : string) (domain types message : jsval)
| SentTransaction (rpc : string) (signer : string) (tx : Tx)
| TokenTransfer (rpc : string) (signer : string) (token recipient : string) (amount : Z)
| NativeTransfer (rpc : string) (signer : string) (recipient : string) (amount : Z)
            (gasLimit : option Z)
| TokenApprove (rpc : string) (signer : string) (token spender : string)
| RouterSwap (rpc : string) (signer : string) (router : string) (amountIn : Z)
            (path : list string) (recipient : jsval)
| ClientApprove (id : Z) (namespaces : gmap string ApprovedNamespace)
| ClientRespond (topic : string) (response : Response)
| Revealed (address : string) (key : string)
| Resolved
| Backup.

(** ** Process state *)

(** What the user types: a pick in a [rawlist] prompt (index of the choice)
    or a line entered in an [input] / [password] prompt. *)
Inductive input : Type :=
| Pick (n : nat)
| Line (s : string).

(** A token: an entry of [PREDEFINED_TOKENS] (with a [coingeckoId]) or of
    [USER_SETTINGS.savedTokens] (with a [network]). *)
Record Token : Type := mkToken {
  symbol : string;
  token_address : string;
  decimals : Z;
  token_network : option string;
  token_coingeckoId : option string
}.

Record State : Type := mkState {
  stdin : list input;
  DECRYPTED_WALLETS : list Entry;
  SESSION_PASSWORD : option string;
  WALLETS_FILE : option (list RawWallet);
  TRASH_FILE : option (list RawWallet);
  defaultNetwork : string;
  gasLimitBuffer : string;
  savedTokens : list Token
}.

Definition set_stdin (st : State) (ins : list input) : State :=
  mkState ins (DECRYPTED_WALLETS st) (SESSION_PASSWORD st) (WALLETS_FILE st)
          (TRASH_FILE st) (defaultNetwork st) (gasLimitBuffer st) (savedTokens st).

Definition set_wallets (st : State) (ws : list Entry) : State :=
  mkState (stdin st) ws (SESSION_PASSWORD st) (WALLETS_FILE st)
          (TRASH_FILE st) (defaultNetwork st) (gasLimitBuffer st) (savedTokens st).

Definition set_password (st : State) (p : option string) : State :=
  mkState (stdin st) (DECRYPTED_WALLETS st) p (WALLETS_FILE st)
          (TRASH_FILE st) (defaultNetwork st) (gasLimitBuffer st) (savedTokens st).

Definition set_wallets_file (st : State) (f : option (list RawWallet)) : State :=
  mkState (stdin st) (DECRYPTED_WALLETS st) (SESSION_PASSWORD st) f
          (TRASH_FILE st) (defaultNetwork st) (gasLimitBuffer st) (savedTokens st).

Definition set_trash_file (st : State) (f : option (list RawWallet)) : State :=
  mkState (stdin st) (DECRYPTED_WALLETS st) (SESSION_PASSWORD st) (WALLETS_FILE st)
          f (defaultNetwork st) (gasLimitBuffer st) (savedTokens st).

(** ** The monad of asynchronous functions *)

Inductive Outcome (A : Type) : Type :=
| Done (a : A)
| Threw (msg : string)
| Exited (code : Z)
| Waiting.
Arguments Done {A} a.
Arguments Threw {A} msg.
Arguments Exited {A} code.
Arguments Waiting {A}.

Record Result (A : Type) : Type := mkResult {
  outcome : Outcome A;
  emitted : list event;
  final : State
}.
Arguments mkResult {A} _ _ _.
Arguments outcome {A} _.
Arguments emitted {A} _.
Arguments final {A} _.

Definition M (A : Type) : Type := State -> Result A.

Definition ret {A} (a : A) : M A := fun st => mkResult (Done a) [] st.

(** The events of [r] after [evs]. *)
Definition after {A} (evs : list event) (r : Result A) : Result A :=
  match r with
  | mkResult o evs' st => mkResult o (evs ++ evs') st
  end.

Definition bind {A B} (m : M A) (k : A -> M B) : M B :=
  fun st =>
    match m st with
    | mkResult (Done a) evs st' => after evs (k a st')
    | mkResult (Threw msg) evs st' => mkResult (Threw msg) evs st'
    | mkResult (Exited c) evs st' => mkResult (Exited c) evs st'
    | mkResult Waiting evs st' => mkResult Waiting evs st'
    end.

#[global] Instance M_ret : MRet M := @ret.
#[global] Instance M_bind : MBind M := fun A B k m => bind m k.
#[global] Instance M_fmap : FMap M := fun A B f m => bind m (fun a => ret (f a)).

Definition throw {A} (msg : string) : M A := fun st => mkResult (Threw msg) [] st.
Definition exit {A} (code : Z) : M A := fun st => mkResult (Exited code) [] st.
Definition emit (e : event) : M unit := fun st => mkResult (Done tt) [e] st.
Definition get : M State := fun st => mkResult (Done st) [] st.
Definition put (st : State) : M unit := fun _ => mkResult (Done tt) [] st.

(** [try { body } catch (e) { handler(e) }] *)
Definition try_catch {A} (body : M A) (handler : string -> M A) : M A :=
  fun st =>
    match body st with
    | mkResult (Threw msg) evs st' => after evs (handler msg st')
    | r => r
    end.

(** A collaborator call that either returns or throws. *)
Definition lift_option {A} (o : option A) (msg : string) : M A :=
  match o with
  | Some a => ret a
  | None => throw msg
  end.

(** ** inquirer prompts *)

(** [type: 'rawlist']: the user picks one of the offered choices and the
    prompt returns the value of that choice.  An entry that is not one of the
    offered numbers is not accepted, and the run waits there. *)
Definition rawlist {V} (message : string) (choices : list (string * V)) : M V :=
  fun st =>
    match stdin st with
    | Pick n :: rest =>
        match choices !! n with
        | Some (label, v) =>
            mkResult (Done v) [Picked message (map fst choices) label] (set_stdin st rest)
        | None => mkResult Waiting [] st
        end
    | _ => mkResult Waiting [] st
    end.

(** [type: 'input'] and [type: 'password']. *)
Definition input_line (message : string) : M string :=
  fun st =>
    match stdin st with
    | Line s :: rest => mkResult (Done s) [Entered message s] (set_stdin st rest)
    | _ => mkResult Waiting [] st
    end.

(** The two-way [choices: ['Yes', 'No']] prompt used before every approval. *)
Definition yes_no (message : string) : M string :=
  rawlist message [("Yes", "Yes"); ("No", "No")].

(** ** ethers byte utilities

    [ethers.isHexString], [ethers.getBytes] and [ethers.toUtf8String] are
    library code; they are modelled here after ethers v6 so that the
    [personal_sign] branch can be evaluated on concrete payloads.  A
    JavaScript string is represented by its UTF-8 bytes. *)

Definition hex_digit (c : ascii) : option Z :=
  let n := Z.of_nat (nat_of_ascii c) in
  if ((48 <=? n) && (n <=? 57))%Z then Some (n - 48)%Z
  else if ((97 <=? n) && (n <=? 102))%Z then Some (n - 87)%Z
  else if ((65 <=? n) && (n <=? 70))%Z then Some (n - 55)%Z
  else None.

Definition strip_0x (s : string) : option string :=
  match s with
  | String a (String b rest) =>
      if Ascii.eqb a "0" && Ascii.eqb b "x" then Some rest else None
  | _ => None
  end.

Fixpoint all_hex (s : string) : bool :=
  match s with
  | EmptyString => true
  | String c rest => match hex_digit c with Some _ => all_hex rest | None => false end
  end.

(** [/^0x[0-9A-Fa-f]*$/] on a string; anything that is not a string is not
    a hex string. *)
Definition isHexString (v : jsval) : bool :=
  match v with
  | JString s => match strip_0x s with Some digits => all_hex digits | None => false end
  | _ => false
  end.

Fixpoint hex_pairs (s : string) : option (list Z) :=
  match s with
  | EmptyString => Some []
  | String _ EmptyString => None
  | String hi (String lo rest) =>
      match hex_digit hi, hex_digit lo, hex_pairs rest with
      | Some h, Some l, Some bytes => Some ((16 * h + l)%Z :: bytes)
      | _, _, _ => None
      end
  end.

(** [getBytes] of a string: [/^0x(?:[0-9a-f][0-9a-f])*$/i], else it throws. *)
Definition getBytes (v : jsval) : option (list Z) :=
  match v with
  | JString s => match strip_0x s with Some digits => hex_pairs digits | None => None end
  | _ => None
  end.

Definition is_continuation (b : Z) : bool := (Z.land b 192 =? 128)%Z.

(** The checks ethers applies to a decoded code point: maximum code point,
    UTF-16 surrogate halves, overlong sequences.  The default error handler
    throws on each of them. *)
Definition codepoint_ok (res overlongMask : Z) : bool :=
  (negb (1114111 <? res) && negb ((55296 <=? res) && (res <=? 57343))
   && negb (res <=? overlongMask))%Z.

Fixpoint utf8_codepoints (bytes : list Z) : option (list Z) :=
  match bytes with
  | [] => Some []
  | c :: rest =>
      if (Z.shiftr c 7 =? 0)%Z then cons c <$> utf8_codepoints rest
      else if (Z.land c 224 =? 192)%Z then
        match rest with
        | b1 :: rest1 =>
            if is_continuation b1 then
              let res := Z.lor (Z.shiftl (Z.land c 63) 6) (Z.land b1 63) in
              if codepoint_ok res 127 then cons res <$> utf8_codepoints rest1 else None
            else None
        | _ => None
        end
      else if (Z.land c 240 =? 224)%Z then
        match rest with
        | b1 :: b2 :: rest2 =>
            if is_continuation b1 && is_continuation b2 then
              let res := Z.lor (Z.shiftl (Z.lor (Z.shiftl (Z.land c 31) 6)
                                                (Z.land b1 63)) 6) (Z.land b2 63) in
              if codepoint_ok res 2047 then cons res <$> utf8_codepoints rest2 else None
            else None
        | _ => None
        end
      else if (Z.land c 248 =? 240)%Z then
        match rest with
        | b1 :: b2 :: b3 :: rest3 =>
            if is_continuation b1 && is_continuation b2 && is_continuation b3 then
              let res := Z.lor (Z.shiftl (Z.lor (Z.shiftl
                            (Z.lor (Z.shiftl (Z.land c 15) 6) (Z.land b1 63)) 6)
                            (Z.land b2 63)) 6) (Z.land b3 63) in
              if codepoint_ok res 65535 then cons res <$> utf8_codepoints rest3 else None
            else None
        | _ => None
        end
      else None
  end.

Definition string_of_bytes (bytes : list Z) : string :=
  fold_right (fun b s => String (ascii_of_nat (Z.to_nat b)) s) EmptyString bytes.

(** [toUtf8String(message)]: [getBytes], then the strict UTF-8 decoder. *)
Definition toUtf8String (v : jsval) : option string :=
  match getBytes v with
  | Some bytes =>
      match utf8_codepoints bytes with
      | Some _ => Some (string_of_bytes bytes)
      | None => None
      end
  | None => None
  end.

(** ** Collaborators

    The cryptographic library, the chain and the WalletConnect client are
    outside the program.  [None] (or [false]) stands for a call that
    throws. *)
Class Collaborators : Type := {
  fromEncryptedJson : string -> string -> option Wallet;
  new_Wallet : string -> option Wallet;
  encrypt : Wallet -> string -> string;
  signMessage : Wallet -> SignInput -> option string;
  signTypedData : Wallet -> jsval -> jsval -> jsval -> option string;
  JSON_parse : string -> option jsval;
  sendTransaction : string -> Wallet -> Tx -> option string;
  parseUnits : string -> Z -> option Z;
  BigInt : string -> option Z;
  estimateGas : string -> Wallet -> string -> Z -> option Z;
  sendNative : string -> Wallet -> string -> Z -> option Z -> option string;
  contract_decimals : string -> string -> option Z;
  contract_symbol : string -> string -> option string;
  contract_transfer : string -> Wallet -> string -> string -> Z -> option string;
  contract_allowance : string -> string -> string -> string -> option Z;
  contract_approve : string -> Wallet -> string -> string -> option string;
  tx_wait : string -> bool;
  router_swap : string -> Wallet -> string -> Z -> list string -> jsval -> option string;
  client_approve : Z -> gmap string ApprovedNamespace -> option string;
  client_acknowledged : string -> bool;
  client_respond : string -> Response -> bool
}.

(** ** The session_proposal namespaces

    The body of the [session_proposal] handler between the confirmation and
    [client.approve]; [cli.js] and the headless [wallet.js] share it word for
    word.  [{ ...required, ...optional }] keeps, for a key present in both,
    the entry of [optional]: the union of the two maps with [optional] on the
    left.  [Object.keys(allNamespaces).forEach] then fills [namespaces] key
    by key, which is the map of the entries. *)

Definition DEFAULT_CHAINS : list string := ["eip155:1"].

Definition account_of (signer_address chain : string) : string :=
  chain +:+ ":" +:+ signer_address.

Definition allNamespaces (p : Proposal) : gmap string Namespace :=
  let required := default ∅ (requiredNamespaces p) in
  let optional := default ∅ (optionalNamespaces p) in
  optional ∪ required.

Definition approve_namespace (signer_address : string) (ns : Namespace)
  : ApprovedNamespace :=
  let chains := default DEFAULT_CHAINS (chains ns) in
  {| accounts := map (account_of signer_address) chains;
     a_methods := default [] (methods ns);
     a_events := default [] (events ns) |}.

Definition approved_namespaces (signer_address : string) (p : Proposal)
  : gmap string ApprovedNamespace :=
  approve_namespace signer_address <$> allNamespaces p.

(** What the peer asked for under one key, in the words of the
    specification: everything listed in the required entry and in the
    optional entry of that key. *)
Definition listed {A} (field : Namespace -> option (list A))
    (o : option (gmap string Namespace)) (key : string) : list A :=
  match default ∅ o !! key with
  | Some ns => default [] (field ns)
  | None => []
  end.

Definition requested {A} (field : Namespace -> option (list A))
    (p : Proposal) (key : string) : list A :=
  listed field (requiredNamespaces p) key ++ listed field (optionalNamespaces p) key.

Definition RPC_URL : string := "https://eth.llamarpc.com".

Definition BACK : string := "BACK".

(** The label of the [Back] choice (the arrow emoji of the source is left
    out of the label). *)
Definition back_label : string := "Back".

Module Cli.
Section WithCollaborators.
Context `{Collaborators}.

(** [listWallets] *)
Definition listWallets : M (list Entry) :=
  st ← get;
  match DECRYPTED_WALLETS st with
  | [] => emit (Logged "No wallets unlocked. Create one first!");; mret []
  | ws => mret ws
  end.

(** The choices built from [listWallets]:
    [{ name: `${w.name} (${w.address})`, value: w.address }] and [Back]. *)
Definition wallet_choices (ws : list Entry) : list (string * string) :=
  map (fun w => (name w +:+ " (" +:+ address (wallet w) +:+ ")", address (wallet w))) ws
  ++ [(back_label, BACK)].

(** [DECRYPTED_WALLETS.find(w => w.wallet.address === a)] *)
Definition find_wallet (ws : list Entry) (a : string) : option Entry :=
  List.find (fun w => String.eqb (address (wallet w)) a) ws.

(** The head of [connectWallet]: the choice of the wallet that the session
    is bound to.  [None] is the early [return]. *)
Definition connectWallet_select : M (option Entry) :=
  wallets ← listWallets;
  match wallets with
  | [] => mret None
  | _ =>
      walletAddress ← rawlist "Select wallet to connect:" (wallet_choices wallets);
      if String.eqb walletAddress BACK then mret None
      else
        st ← get;
        selectedWalletData ← lift_option (find_wallet (DECRYPTED_WALLETS st) walletAddress)
                               "Cannot read properties of undefined (reading 'wallet')";
        mret (Some selectedWalletData)
  end.

Definition connect_message (selected : Entry) (p : Proposal) : string :=
  "Do you want to connect " +:+ name selected +:+ " to " +:+ proposer_name p +:+ "?".

(** [client.on("session_proposal", ...)] *)
Definition on_session_proposal (selectedWalletData : Entry) (p : Proposal) : M unit :=
  let signer := wallet selectedWalletData in
  emit (Logged ("Session Proposal from: " +:+ proposer_name p));;
  emit (Logged "   Required Chains: ...");;
  approve ← yes_no (connect_message selectedWalletData p);
  if String.eqb approve "No" then
    emit (Logged "Connection rejected.");;
    emit Resolved
  else
    let namespaces := approved_namespaces (address signer) p in
    emit (ClientApprove (proposal_id p) namespaces);;
    topic ← lift_option (client_approve (proposal_id p) namespaces) "approve failed";
    emit (Logged ("Connected! Session Topic: " +:+ topic));;
    (if client_acknowledged topic then mret tt else throw "acknowledge failed");;
    emit (Logged "Session Acknowledged. Waiting for requests...").

Definition approve_message (ev : RequestEvent) : string :=
  "Approve " +:+ method (request ev) +:+ " request?".

Definition send_message (tx : Tx) : string :=
  "Send transaction to " +:+ js_to_string (tx_to tx) +:+ " with value "
  +:+ js_to_string (tx_value tx) +:+ "?".

Definition signing_line (readable : string) : string :=
  "Signing: " +:+ dquote +:+ readable +:+ dquote.

Definition sign_input (data : jsval) : SignInput :=
  match data with
  | JString s => SignText s
  | v => SignOther v
  end.

(** The [personal_sign] branch: [data], then [readable], then the log line,
    then [signer.signMessage(data)]. *)
Definition personal_sign (signer : Wallet) (req : Request) : M (option string) :=
  let message := js_nth (params req) 0 in
  data ← (if isHexString message
          then SignBytes <$> lift_option (getBytes message) "invalid BytesLike value"
          else mret (sign_input message));
  readable ← (if isHexString message
              then lift_option (toUtf8String message) "invalid codepoint"
              else mret (js_to_string message));
  emit (Logged (signing_line readable));;
  emit (SignedMessage (address signer) data);;
  Some <$> lift_option (signMessage signer data) "signMessage failed".

(** The [eth_signTypedData*] branch: [const [_, data] = request.params]. *)
Definition sign_typed_data (signer : Wallet) (req : Request) : M (option string) :=
  let data := js_nth (params req) 1 in
  parsedData ← match data with
               | JString s => lift_option (JSON_parse s) "Unexpected token in JSON"
               | v => mret v
               end;
  domain ← lift_option (js_get parsedData "domain") "Cannot read properties of undefined";
  types ← lift_option (js_get parsedData "types") "Cannot read properties of undefined";
  message ← lift_option (js_get parsedData "message") "Cannot read properties of undefined";
  emit (SignedTypedData (address signer) domain types message);;
  Some <$> lift_option (signTypedData signer domain types message) "signTypedData failed".

(** The [eth_sendTransaction] branch.  The [return] after a refused
    transaction leaves the handler; nothing follows the [try] block, so it is
    the same as leaving [result] undefined. *)
Definition send_transaction (signer : Wallet) (req : Request) : M (option string) :=
  let txParams := js_nth (params req) 0 in
  emit (Logged "Processing Transaction:");;
  to ← lift_option (js_get txParams "to") "Cannot read properties of undefined";
  value ← lift_option (js_get txParams "value") "Cannot read properties of undefined";
  data ← lift_option (js_get txParams "data") "Cannot read properties of undefined";
  gas ← lift_option (js_get txParams "gas") "Cannot read properties of undefined";
  let tx := mkTx to value data gas in
  send ← yes_no (send_message tx);
  if String.eqb send "No" then
    emit (Logged "Transaction cancelled.");;
    mret None
  else
    emit (Logged "Sending transaction...");;
    emit (SentTransaction RPC_URL (address signer) tx);;
    hash ← lift_option (sendTransaction RPC_URL signer tx) "sendTransaction failed";
    emit (Logged ("Sent! Hash: " +:+ hash));;
    mret (Some hash).

Definition dispatch (signer : Wallet) (req : Request) : M (option string) :=
  if String.eqb (method req) "personal_sign" then personal_sign signer req
  else if String.prefix "eth_signTypedData" (method req) then sign_typed_data signer req
  else if String.eqb (method req) "eth_sendTransaction" then send_transaction signer req
  else mret None.

(** [if (result) { await client.respond(...) }] *)
Definition respond_result (ev : RequestEvent) (result : option string) : M unit :=
  match result with
  | Some r =>
      if truthy r then
        emit (ClientRespond (topic ev) (RespResult (request_id ev) r));;
        (if client_respond (topic ev) (RespResult (request_id ev) r)
         then mret tt else throw "respond failed");;
        emit (Logged "Signed & Sent!")
      else mret tt
  | None => mret tt
  end.

(** The [try { ... } catch (error) { ... }] of the handler. *)
Definition execute (signer : Wallet) (ev : RequestEvent) : M unit :=
  try_catch
    (result ← dispatch signer (request ev);
     respond_result ev result)
    (fun msg => emit (Logged ("Error signing: " +:+ msg))).

(** [client.on("session_request", ...)] *)
Definition on_session_request (signer : Wallet) (ev : RequestEvent) : M unit :=
  emit (Logged ("New Request: " +:+ method (request ev)));;
  sign ← yes_no (approve_message ev);
  if String.eqb sign "No" then
    emit (Logged "Request rejected locally.")
  else
    execute signer ev.

(** Requests handled one after the other, in the order of their delivery. *)
Fixpoint deliver (signer : Wallet) (evs : list RequestEvent) : M unit :=
  match evs with
  | [] => mret tt
  | ev :: rest => on_session_request signer ev;; deliver signer rest
  end.

End WithCollaborators.
End Cli.

(** ** The headless wallet ([wallet.js]) *)
Module Headless.
Section WithCollaborators.
Context `{Collaborators}.

(** [client.on("session_proposal", ...)]: approved without a question. *)
Definition on_session_proposal (wallet : Wallet) (p : Proposal) : M unit :=
  emit (Logged ("Received Session Proposal: " +:+ proposer_name p));;
  let namespaces := approved_namespaces (address wallet) p in
  emit (ClientApprove (proposal_id p) namespaces);;
  topic ← lift_option (client_approve (proposal_id p) namespaces) "approve failed";
  emit (Logged ("Session Approved! Topic: " +:+ topic));;
  (if client_acknowledged topic then mret tt else throw "acknowledge failed");;
  emit (Logged "Session Acknowledged").

Definition personal_sign (wallet : Wallet) (req : Request) : M string :=
  let message := js_nth (params req) 0 in
  data ← (if isHexString message
          then SignBytes <$> lift_option (getBytes message) "invalid BytesLike value"
          else mret (Cli.sign_input message));
  readable ← (if isHexString message
              then lift_option (toUtf8String message) "invalid codepoint"
              else mret (js_to_string message));
  emit (Logged ("Signing Message: " +:+ readable));;
  emit (SignedMessage (address wallet) data);;
  lift_option (signMessage wallet data) "signMessage failed".

Definition sign_typed_data (wallet : Wallet) (req : Request) : M string :=
  let data := js_nth (params req) 1 in
  parsedData ← match data with
               | JString s => lift_option (JSON_parse s) "Unexpected token in JSON"
               | v => mret v
               end;
  domain ← lift_option (js_get parsedData "domain") "Cannot read properties of undefined";
  types ← lift_option (js_get parsedData "types") "Cannot read properties of undefined";
  message ← lift_option (js_get parsedData "message") "Cannot read properties of undefined";
  emit (SignedTypedData (address wallet) domain types message);;
  lift_option (signTypedData wallet domain types message) "signTypedData failed".

Definition dispatch (wallet : Wallet) (req : Request) : M string :=
  if String.eqb (method req) "personal_sign" then personal_sign wallet req
  else if String.eqb (method req) "eth_signTypedData"
          || String.eqb (method req) "eth_signTypedData_v4"
       then sign_typed_data wallet req
  else throw ("Method " +:+ method req +:+ " not supported").

Definition ERROR_CODE : Z := 5000.

(** [client.on("session_request", ...)] *)
Definition on_session_request (wallet : Wallet) (ev : RequestEvent) : M unit :=
  emit (Logged ("Received Request: " +:+ method (request ev)));;
  try_catch
    (result ← dispatch wallet (request ev);
     emit (ClientRespond (topic ev) (RespResult (request_id ev) result));;
     (if client_respond (topic ev) (RespResult (request_id ev) result)
      then mret tt else throw "respond failed");;
     emit (Logged "Response sent"))
    (fun msg =>
       emit (Logged ("Signing failed: " +:+ msg));;
       emit (ClientRespond (topic ev) (RespError (request_id ev) ERROR_CODE msg));;
       (if client_respond (topic ev) (RespError (request_id ev) ERROR_CODE msg)
        then mret tt else throw "respond failed")).

End WithCollaborators.
End Headless.

(** ** Unlocking the vault *)

(** [if (w.privateKey)]: the property is present and not the empty string. *)
Definition has_privateKey (w : RawWallet) : bool :=
  match rw_privateKey w with
  | Some k => truthy k
  | None => false
  end.

(** [DECRYPTED_WALLETS.push(e)] *)
Definition push_wallet (e : Entry) : M unit :=
  st ← get;
  put (set_wallets st (DECRYPTED_WALLETS st ++ [e])).

Module Core.
Section WithCollaborators.
Context `{Collaborators}.

(** [ethers.Wallet.fromEncryptedJson(w.data, password)] *)
Definition decrypt (w : RawWallet) (password : string) : M Wallet :=
  match rw_data w with
  | Some json => lift_option (fromEncryptedJson json password) "incorrect password"
  | None => throw "invalid JSON wallet"
  end.

(** The [for (const w of rawWallets)] loop of [unlockWallets]. *)
Fixpoint unlock_loop (rawWallets : list RawWallet) (password : string) : M unit :=
  match rawWallets with
  | [] => mret tt
  | w :: rest =>
      (if has_privateKey w
       then throw "Legacy plain-text wallets found. Please run CLI to migrate."
       else mret tt);;
      wallet ← decrypt w password;
      push_wallet (mkEntry (rw_name w) wallet);;
      unlock_loop rest password
  end.

(** [unlockWallets(password)] of [core.js]. *)
Definition unlockWallets (password : string) : M (list Entry) :=
  st ← get;
  match WALLETS_FILE st with
  | None => mret []
  | Some rawWallets =>
      put (set_wallets st []);;
      unlock_loop rawWallets password;;
      st' ← get;
      mret (DECRYPTED_WALLETS st')
  end.

End WithCollaborators.
End Core.

Module Vault.
Section WithCollaborators.
Context `{Collaborators}.

Definition password_message : string := "Enter your wallet vault password:".
Definition confirm_message : string := "Confirm password:".

(** The prompt of [getPassword(true)]: asked again, by the recursive call,
    until both entries agree. *)
Fixpoint ask_twice (ins : list input) : Outcome string * list event * list input :=
  match ins with
  | Line p :: Line c :: rest =>
      if String.eqb p c
      then (Done p, [Entered password_message p; Entered confirm_message c], rest)
      else
        let '(o, evs, rest') := ask_twice rest in
        (o, Entered password_message p :: Entered confirm_message c
            :: Logged "Passwords do not match. Try again." :: evs, rest')
  | _ => (Waiting, [], ins)
  end.

(** The questions of [getPassword], and [SESSION_PASSWORD = answers.password]. *)
Definition ask_password (confirm : bool) : M string :=
  password ← (if confirm
              then (fun st => let '(o, evs, rest) := ask_twice (stdin st) in
                              mkResult o evs (set_stdin st rest))
              else input_line password_message);
  st ← get;
  put (set_password st (Some password));;
  mret password.

(** [getPassword(confirm)]: [if (SESSION_PASSWORD) return SESSION_PASSWORD]
    lets a password that is the empty string be asked again. *)
Definition getPassword (confirm : bool) : M string :=
  st ← get;
  match SESSION_PASSWORD st with
  | Some p => if truthy p then mret p else ask_password confirm
  | None => ask_password confirm
  end.

(** [loadWalletsRaw] *)
Definition loadWalletsRaw : M (list RawWallet) :=
  st ← get;
  mret (default [] (WALLETS_FILE st)).

(** The decryption loop inside the [try] of [initializeWallets]. *)
Fixpoint decrypt_all (rawWallets : list RawWallet) (password : string) : M unit :=
  match rawWallets with
  | [] => mret tt
  | w :: rest =>
      wallet ← Core.decrypt w password;
      push_wallet (mkEntry (rw_name w) wallet);;
      decrypt_all rest password
  end.

(** One turn of the [while (attempts > 0)] loop; [true] is the [break]. *)
Definition attempt (rawWallets : list RawWallet) : M bool :=
  password ← getPassword false;
  try_catch
    (st ← get;
     put (set_wallets st []);;
     decrypt_all rawWallets password;;
     emit (Logged "Successfully unlocked wallets.");;
     mret true)
    (fun _ =>
       emit (Logged "Wrong password.");;
       st ← get;
       put (set_password st None);;
       mret false).

(** The loop itself; the result is the value of [attempts] when it ends. *)
Fixpoint attempt_loop (attempts : nat) (rawWallets : list RawWallet) : M nat :=
  match attempts with
  | 0 => mret 0
  | S n =>
      unlocked ← attempt rawWallets;
      if (unlocked : bool) then mret (S n) else attempt_loop n rawWallets
  end.

Definition ATTEMPTS : nat := 3.

(** The migration branch: unencrypted records are encrypted in place. *)
Fixpoint encrypt_all (rawWallets : list RawWallet) (password : string)
    : M (list RawWallet) :=
  match rawWallets with
  | [] => mret []
  | w :: rest =>
      emit (Logged ("Encrypting " +:+ rw_name w +:+ "..."));;
      wallet ← lift_option (match rw_privateKey w with
                            | Some k => new_Wallet k
                            | None => None
                            end) "invalid private key";
      push_wallet (mkEntry (rw_name w) wallet);;
      store ← encrypt_all rest password;
      mret (mkRaw (rw_name w) (Some (encrypt wallet password)) None :: store)
  end.

(** [initializeWallets] of [cli.js]. *)
Definition initializeWallets : M unit :=
  rawWallets ← loadWalletsRaw;
  match rawWallets with
  | [] => mret tt
  | first :: _ =>
      if has_privateKey first then
        emit (Logged "Unencrypted wallets detected! Securing them now...");;
        password ← getPassword true;
        st ← get;
        put (set_wallets st []);;
        encryptedStore ← encrypt_all rawWallets password;
        st' ← get;
        put (set_wallets_file st' (Some encryptedStore));;
        emit (Logged "All wallets encrypted and saved!");;
        emit Backup
      else
        emit (Logged "Wallets are encrypted.");;
        attempts ← attempt_loop ATTEMPTS rawWallets;
        match attempts with
        | 0 => emit (Logged "Too many failed attempts. Exiting.");; exit 1
        | _ => mret tt
        end
  end.

(** ** Restoring from the trash *)

(** The answer of the restore prompt: the index of a trash entry or
    [Back]. *)
Inductive restore_choice : Type :=
| RestoreIdx (i : nat)
| RestoreBack.

Definition restore_choices (trash : list RawWallet) : list (string * restore_choice) :=
  imap (fun i w => (rw_name w, RestoreIdx i)) trash ++ [(back_label, RestoreBack)].

(** The end of [restoreWallet]: the restored record is unlocked into
    memory with the session password, or a warning is printed. *)
Definition unlock_restored (restored : RawWallet) : M unit :=
  password ← getPassword false;
  try_catch
    (wallet ← Core.decrypt restored password;
     push_wallet (mkEntry (rw_name restored) wallet);;
     emit (Logged ("Restored " +:+ rw_name restored +:+ "!")))
    (fun _ => emit (Logged
       "Restored file, but failed to unlock in current session (Password mismatch?). Restart app to retry."));;
  emit Backup.

(** [restoreWallet] of [cli.js].  [trash.splice(idx, 1)[0]] takes the entry
    out of the list; the prompt only returns indices of the list it was
    given, and an index outside it is reported as a thrown error here. *)
Definition restoreWallet : M unit :=
  st ← get;
  match TRASH_FILE st with
  | None => emit (Logged "No deleted wallets found.")
  | Some [] => emit (Logged "Trash is empty.")
  | Some trash =>
      choice ← rawlist "Select Wallet to Restore:" (restore_choices trash);
      match choice with
      | RestoreBack => mret tt
      | RestoreIdx idx =>
          restored ← lift_option (trash !! idx) "index not offered by the prompt";
          st1 ← get;
          put (set_trash_file st1 (Some (delete idx trash)));;
          st2 ← get;
          rawWallets ← lift_option (WALLETS_FILE st2) "ENOENT: no such file or directory";
          put (set_wallets_file st2 (Some (rawWallets ++ [restored])));;
          unlock_restored restored
      end
  end.



End WithCollaborators.
End Vault.

(** ** Local transfers and swaps ([cli.js]) *)

Record Network : Type := mkNetwork {
  net_name : string;
  rpc : string;
  net_chainId : Z;
  currency : string;
  net_coingeckoId : string
}.

Definition NETWORKS : list (string * Network) :=
  [ ("ethereum", mkNetwork "Ethereum Mainnet" "https://eth.llamarpc.com" 1 "ETH" "ethereum");
    ("bsc", mkNetwork "Binance Smart Chain" "https://bsc-dataseed.binance.org" 56 "BNB" "binancecoin");
    ("polygon", mkNetwork "Polygon (Matic)" "https://polygon-rpc.com" 137 "POL" "matic-network");
    ("celo", mkNetwork "Celo Mainnet" "https://forno.celo.org" 42220 "CELO" "celo") ].

Definition predefined (sym addr : string) (dec : Z) (gecko : string) : Token :=
  mkToken sym addr dec None (Some gecko).

Definition PREDEFINED_TOKENS : list (string * list Token) :=
  [ ("ethereum", [ predefined "USDT" "0xdac17f958d2ee523a2206206994597c13d831ec7" 6 "tether" ]);
    ("bsc", [ predefined "JMPT" "0x88d7e9b65dc24cf54f5edef929225fc3e1580c25" 18 "jumptoken";
              predefined "USDT" "0x55d398326f99059fF775485246999027B3197955" 18 "tether" ]);
    ("polygon", [ predefined "JMPT" "0x88d7e9b65dc24cf54f5edef929225fc3e1580c25" 18 "jumptoken";
                  predefined "USDT" "0xc2132D05D31c914a87C6611C10748AEb04B58e8F" 6 "tether" ]);
    ("celo", [ predefined "JMPT" "0x88d7e9b65dc24cf54f5edef929225fc3e1580c25" 18 "jumptoken" ]) ].

Definition ROUTERS : list (string * string) :=
  [ ("ethereum", "0x7a250d5630B4cF539739dF2C5dAcb4c659F2488D");
    ("bsc", "0x10ED43C718714eb63d5aA57B78B54704E256024E");
    ("polygon", "0xa5E0829CaCEd8fFDD4De3c43696c57F7D7A678ff");
    ("celo", "0xE3D8bd6Aed4F159bc8000a9cD47CffDb95F96121") ].

Definition WNATIVE : list (string * string) :=
  [ ("ethereum", "0xC02aaA39b223FE8D0A0e5C4F27eAD9083C756Cc2");
    ("bsc", "0xbb4CdB9CBd36B01bD1cBaEBF2De08d9173bc095c");
    ("polygon", "0x0d500B1d8E8eF31E21C99d1Db9A6444d3ADf1270");
    ("celo", "0x471EcE3750Da237f93b8E339c536989b8978a438") ].

(** [table[key]] on an object literal. *)
Definition lookup_key {A} (table : list (string * A)) (key : string) : option A :=
  snd <$> List.find (fun kv => String.eqb (fst kv) key) table.

(** [Object.keys(NETWORKS).find(key => NETWORKS[key].rpc === network.rpc)] *)
Definition network_key (network : Network) : option string :=
  fst <$> List.find (fun kv => String.eqb (rpc (snd kv)) (rpc network)) NETWORKS.

(** [findIndex]: [-1] when nothing matches. *)
Fixpoint findIndex {A} (f : A -> bool) (l : list A) : Z :=
  match l with
  | [] => -1
  | x :: rest => if f x then 0 else
                   let i := findIndex f rest in
                   if (i =? -1)%Z then -1 else (i + 1)%Z
  end.

(** A one-digit number printed in a template literal. *)
Definition digit_string (n : Z) : string :=
  String (ascii_of_nat (48 + Z.to_nat n)) EmptyString.

Inductive asset_choice : Type :=
| AssetNative
| AssetToken (t : Token)
| AssetCustom
| AssetBack.

Inductive token_choice : Type :=
| SellToken (t : Token)
| SellCustom
| SellBack.

Module Funds.
Section WithCollaborators.
Context `{Collaborators}.

(** [selectNetwork(includeBack)]; [None] is ['BACK']. *)
Definition selectNetwork (includeBack : bool) : M (option Network) :=
  let choices := map (fun kv => (net_name (snd kv), fst kv)) NETWORKS
                 ++ (if includeBack then [(back_label, BACK)] else []) in
  st ← get;
  let defaultNet := if truthy (defaultNetwork st) then defaultNetwork st else "ethereum" in
  let defaultIndex := findIndex (fun c => String.eqb (snd c) defaultNet) choices in
  defaultEntry ← lift_option (lookup_key NETWORKS defaultNet)
                   "Cannot read properties of undefined (reading 'name')";
  let msg := "Select Network (Default: " +:+ digit_string (defaultIndex + 1) +:+ " - "
             +:+ net_name defaultEntry +:+ "):" in
  answer ← rawlist msg choices;
  if String.eqb answer BACK then mret None
  else Some <$> lift_option (lookup_key NETWORKS answer) "unknown network".

Definition asset_options (network : Network) (networkKey : option string)
    : list (string * asset_choice) :=
  [("Native Coin (" +:+ currency network +:+ ")", AssetNative)]
  ++ map (fun t => (symbol t +:+ " Token", AssetToken t))
         (default [] (networkKey ≫= lookup_key PREDEFINED_TOKENS))
  ++ [("Custom Token Address", AssetCustom); (back_label, AssetBack)].

(** [`${w.name} (${w.address})`] on an element of [DECRYPTED_WALLETS], which
    has no [address] property. *)
Definition other_wallet_choices (others : list Entry) : list (string * string) :=
  map (fun w => (name w +:+ " (undefined)", address (wallet w))) others.

(** Step 4 of [transferAsset]: the recipient. *)
Definition ask_recipient (sender : Entry) : M string :=
  st ← get;
  let otherWallets :=
    List.filter (fun w => negb (String.eqb (address (wallet w)) (address (wallet sender))))
                (DECRYPTED_WALLETS st) in
  destType ← match otherWallets with
             | [] => mret "manual"
             | _ => rawlist "Send to:" [("Manual Address Entry", "Manual Address Entry");
                                        ("My Other Wallets", "My Other Wallets")]
             end;
  if String.eqb destType "My Other Wallets"
  then rawlist "Select Recipient Wallet:" (other_wallet_choices otherWallets)
  else input_line "Recipient Address:".

(** The native branch of the final [try] block, with the optional gas
    buffer. *)
Definition send_native (network : Network) (signer : Wallet)
    (recipientAddress amount : string) : M string :=
  amountWei ← lift_option (parseUnits amount 18) "invalid FixedNumber string value";
  st ← get;
  gasLimit ← (if truthy (gasLimitBuffer st) && negb (String.eqb (gasLimitBuffer st) "0")
              then
                estimatedGas ← lift_option
                  (estimateGas (rpc network) signer recipientAddress amountWei)
                  "estimateGas failed";
                buffer ← lift_option (BigInt (gasLimitBuffer st)) "Cannot convert to a BigInt";
                mret (Some (estimatedGas + buffer)%Z)
              else mret None);
  emit (NativeTransfer (rpc network) (address signer) recipientAddress amountWei gasLimit);;
  lift_option (sendNative (rpc network) signer recipientAddress amountWei gasLimit)
              "sendTransaction failed".

(** The token branch: [contract.transfer(recipientAddress, amountWei)]. *)
Definition send_token (network : Network) (signer : Wallet) (token : string)
    (decimals : Z) (recipientAddress amount : string) : M string :=
  amountWei ← lift_option (parseUnits amount decimals) "invalid FixedNumber string value";
  emit (TokenTransfer (rpc network) (address signer) token recipientAddress amountWei);;
  lift_option (contract_transfer (rpc network) signer token recipientAddress amountWei)
              "transfer failed".

(** The [try] block that ends [transferAsset]; [if (tokenAddress)] sends an
    empty custom address down the native branch. *)
Definition send_asset (network : Network) (signer : Wallet) (tokenAddress : option string)
    (decimals : Z) (recipientAddress amount : string) : M unit :=
  try_catch
    (txHash ←
       match tokenAddress with
       | Some token =>
           if truthy token
           then send_token network signer token decimals recipientAddress amount
           else send_native network signer recipientAddress amount
       | None => send_native network signer recipientAddress amount
       end;
     emit (Logged ("Transaction Sent! Hash: " +:+ txHash)))
    (fun msg => emit (Logged ("Transaction Failed: " +:+ msg))).

(** Steps 4 and 5 and the broadcast, once the asset is known. *)
Definition transfer_from (network : Network) (sender : Entry) (tokenAddress : option string)
    (decimals : Z) (symbol : string) : M unit :=
  recipientAddress ← ask_recipient sender;
  amount ← input_line ("Amount to send (" +:+ symbol +:+ "):");
  emit (Logged ("Preparing to send " +:+ amount +:+ " " +:+ symbol +:+ " on "
                +:+ net_name network +:+ "..."));;
  emit (Logged ("   To: " +:+ recipientAddress));;
  send_asset network (wallet sender) tokenAddress decimals recipientAddress amount.

(** [transferAsset] of [cli.js]. *)
Definition transferAsset : M unit :=
  wallets ← Cli.listWallets;
  match wallets with
  | [] => mret tt
  | _ =>
      senderAddress ← rawlist "Select Sender Wallet:" (Cli.wallet_choices wallets);
      if String.eqb senderAddress BACK then mret tt
      else
        st ← get;
        senderWalletData ← lift_option (Cli.find_wallet (DECRYPTED_WALLETS st) senderAddress)
                             "Cannot read properties of undefined (reading 'wallet')";
        network ← selectNetwork true;
        match network with
        | None => mret tt
        | Some network =>
            assetChoice ← rawlist "What do you want to send?"
                            (asset_options network (network_key network));
            match assetChoice with
            | AssetBack => mret tt
            | AssetNative =>
                transfer_from network senderWalletData None 18 (currency network)
            | AssetToken t =>
                transfer_from network senderWalletData (Some (token_address t))
                              (decimals t) (symbol t)
            | AssetCustom =>
                tokenAddress ← input_line "Enter Token Contract Address:";
                if truthy tokenAddress then
                  fetched ← try_catch
                    (d ← lift_option (contract_decimals (rpc network) tokenAddress) "call revert";
                     s ← lift_option (contract_symbol (rpc network) tokenAddress) "call revert";
                     mret (Some (d, s)))
                    (fun _ => emit (Logged "Invalid token address or network error.");;
                              mret None);
                  match fetched with
                  | Some (d, s) => transfer_from network senderWalletData (Some tokenAddress) d s
                  | None => mret tt
                  end
                else
                  transfer_from network senderWalletData (Some tokenAddress) 18 (currency network)
            end
        end
  end.

Definition token_options (networkKey : option string) (saved : list Token)
    : list (string * token_choice) :=
  map (fun t => (symbol t, SellToken t))
      (default [] (networkKey ≫= lookup_key PREDEFINED_TOKENS))
  ++ map (fun t => (symbol t, SellToken t))
         (List.filter (fun t => match token_network t, networkKey with
                                | Some n, Some k => String.eqb n k
                                | _, _ => false
                                end) saved)
  ++ [("Custom Address", SellCustom); (back_label, SellBack)].

Definition router_message (symbol : string) : string :=
  "Router needs approval to spend your " +:+ symbol +:+ ". Approve?".

(** Step 6 of [swapToken]: the swap itself.  The recipient argument is
    [selectedWalletData.address], a property the entry does not have. *)
Definition execute_swap (network : Network) (networkKey : string) (signer : Wallet)
    (routerAddress : string) (tokenData : Token) (amountIn : Z) : M unit :=
  match lookup_key WNATIVE networkKey with
  | None => emit (Logged "WNative address missing for this chain.")
  | Some wnative =>
      let path := [token_address tokenData; wnative] in
      emit (Logged "Swapping...");;
      try_catch
        (emit (RouterSwap (rpc network) (address signer) routerAddress amountIn path JUndefined);;
         hash ← lift_option
                  (router_swap (rpc network) signer routerAddress amountIn path JUndefined)
                  "swap failed";
         emit (Logged ("Swap Sent! Hash: " +:+ hash)))
        (fun msg => emit (Logged ("Swap Failed: " +:+ msg)))
  end.

(** Steps 4 to 6 of [swapToken], once the token is known. *)
Definition swap_from (network : Network) (networkKey : string) (signer : Wallet)
    (routerAddress : string) (tokenData : Token) : M unit :=
  val ← input_line ("Amount of " +:+ symbol tokenData +:+ " to swap:");
  amountIn ← lift_option (parseUnits val (decimals tokenData)) "invalid FixedNumber string value";
  emit (Logged "Checking allowance...");;
  allowance ← lift_option (contract_allowance (rpc network) (token_address tokenData)
                                              (address signer) routerAddress) "call revert";
  if (allowance <? amountIn)%Z then
    ok ← yes_no (router_message (symbol tokenData));
    if String.eqb ok "No" then mret tt
    else
      emit (Logged "Approving (max)...");;
      emit (TokenApprove (rpc network) (address signer) (token_address tokenData) routerAddress);;
      hash ← lift_option
               (contract_approve (rpc network) signer (token_address tokenData) routerAddress)
               "approve failed";
      emit (Logged ("Approved! Hash: " +:+ hash));;
      (if tx_wait hash then mret tt else throw "transaction failed");;
      execute_swap network networkKey signer routerAddress tokenData amountIn
  else execute_swap network networkKey signer routerAddress tokenData amountIn.

(** [swapToken] of [cli.js]. *)
Definition swapToken : M unit :=
  emit (Logged "Swap Token for Native Currency (e.g. JMPT -> BNB)");;
  emit (Logged "Requires Native Currency (Gas) to execute transaction.");;
  wallets ← Cli.listWallets;
  match wallets with
  | [] => mret tt
  | _ =>
      addr ← rawlist "Select Wallet:" (Cli.wallet_choices wallets);
      if String.eqb addr BACK then mret tt
      else
        st ← get;
        selectedWalletData ← lift_option (Cli.find_wallet (DECRYPTED_WALLETS st) addr)
                               "Cannot read properties of undefined (reading 'wallet')";
        let signer := wallet selectedWalletData in
        network ← selectNetwork true;
        match network with
        | None => mret tt
        | Some network =>
            match network_key network ≫= (fun k => pair k <$> lookup_key ROUTERS k) with
            | None => emit (Logged "Swap not supported on this network yet.")
            | Some (networkKey, routerAddress) =>
                tokenChoice ← rawlist "Select Token to Sell:"
                                (token_options (Some networkKey) (savedTokens st));
                match tokenChoice with
                | SellBack => mret tt
                | SellToken t => swap_from network networkKey signer routerAddress t
                | SellCustom =>
                    addr ← input_line "Contract Address:";
                    fetched ← try_catch
                      (s ← lift_option (contract_symbol (rpc network) addr) "call revert";
                       d ← lift_option (contract_decimals (rpc network) addr) "call revert";
                       mret (Some (mkToken s addr d None None)))
                      (fun _ => emit (Logged "Invalid Token");; mret None);
                    match fetched with
                    | Some tokenData => swap_from network networkKey signer routerAddress tokenData
                    | None => mret tt
                    end
                end
            end
        end
  end.

End WithCollaborators.
End Funds.

(** ** Reading a trace *)


(** A confirmation is a [Yes] picked in a prompt that offers [Yes] and
    [No]. *)
Definition confirmation (message : string) : event :=
  Picked message ["Yes"; "No"] "Yes".


Definition is_reveal (e : event) : bool :=
  match e with Revealed _ _ => true | _ => false end.

(** Calls that move funds or authorise a spender on chain. *)
Definition moves_funds (e : event) : bool :=
  match e with
  | SentTransaction _ _ _ | TokenTransfer _ _ _ _ _ | NativeTransfer _ _ _ _ _
  | TokenApprove _ _ _ _ | RouterSwap _ _ _ _ _ _ => true
  | _ => false
  end.


(** The signing or broadcasting done for a request. *)
Definition executes (e : event) : bool :=
  match e with
  | SignedMessage _ _ | SignedTypedData _ _ _ _ | SentTransaction _ _ _ => true
  | _ => false
  end.

Definition responses (tr : list event) : list (string * Response) :=
  omap (fun e => match e with
                 | ClientRespond t r => Some (t, r)
                 | _ => None
                 end) tr.

Definition prompts (tr : list event) : list string :=
  omap (fun e => match e with
                 | Picked m _ _ => Some m
                 | Entered m _ => Some m
                 | _ => None
                 end) tr.

(** [text] occurs somewhere in [message]. *)
Definition mentions (message text : string) : bool :=
  match String.index 0 text message with
  | Some _ => true
  | None => false
  end.

(** The number of events of a kind in a run, bounded whatever the state
    the run starts from. *)
Definition count_events (p : event -> bool) (tr : list event) : nat :=
  length (List.filter p tr).

Definition at_most {A} (n : nat) (p : event -> bool) (m : M A) : Prop :=
  forall st, count_events p (emitted (m st)) <= n.

(** A computation that leaves the two JSON files as it found them. *)
Definition keeps_files {A} (m : M A) : Prop :=
  forall st, WALLETS_FILE (final (m st)) = WALLETS_FILE st
             /\ TRASH_FILE (final (m st)) = TRASH_FILE st.

Definition is_response (e : event) : bool :=
  match e with ClientRespond _ _ => true | _ => false end.

Definition is_error_response (e : event) : bool :=
  match e with ClientRespond _ (RespError _ _ _) => true | _ => false end.

(** A response that is not addressed to the topic and id of [ev]. *)
Definition stray_response (ev : RequestEvent) (e : event) : bool :=
  match e with
  | ClientRespond t r =>
      negb (String.eqb t (topic ev) && (response_id r =? request_id ev)%Z)
  | _ => false
  end.

(** An error response whose code is not 5000. *)
Definition odd_error (e : event) : bool :=
  match e with
  | ClientRespond _ (RespError _ code _) => negb (code =? 5000)%Z
  | _ => false
  end.

(** A broadcast through another endpoint than [RPC_URL]. *)
Definition other_rpc (e : event) : bool :=
  match e with
  | SentTransaction rpc _ _ => negb (String.eqb rpc RPC_URL)
  | _ => false
  end.

#[global] Instance ApprovedNamespace_eq_dec : EqDecision ApprovedNamespace.
Proof. solve_decision. Defined.


(** A message signature over anything but the expected bytes. *)
Definition signs_other (expected : option (list Z)) (e : event) : bool :=
  match e with
  | SignedMessage _ (SignBytes bytes) => negb (bool_decide (expected = Some bytes))
  | SignedMessage _ _ => true
  | _ => false
  end.

Definition asks (e : event) : bool :=
  match e with Picked _ _ _ | Entered _ _ => true | _ => false end.


(** ** What a password opens

    The entries that a password decrypts before the first record it cannot
    decrypt, and whether such a record exists.  [legacy] tells whether a
    record carrying a [privateKey] stops the loop ([core.js]) or is handed to
    the decryption like any other ([cli.js]). *)
Section Opens.
Context `{Collaborators}.

Definition opens_record (legacy : bool) (w : RawWallet) (password : string) : option Entry :=
  if legacy && has_privateKey w then None
  else match rw_data w with
       | Some json => mkEntry (rw_name w) <$> fromEncryptedJson json password
       | None => None
       end.

Fixpoint opened_prefix (legacy : bool) (rawWallets : list RawWallet) (password : string)
    : list Entry * bool :=
  match rawWallets with
  | [] => ([], true)
  | w :: rest =>
      match opens_record legacy w password with
      | Some e => let '(es, complete) := opened_prefix legacy rest password in
                  (e :: es, complete)
      | None => ([], false)
      end
  end.

End Opens.

(** ** Wallet management ([cli.js])

    [deleteWallet], [saveEncryptedWallet], [createNewWallet], [importWallet]
    and [renameWallet]: the functions that write [my_wallets.json] besides
    the migration and the restore. *)

(** [`${n}`] for a count. *)
Definition decimal (n : nat) : string := NilZero.string_of_uint (Nat.to_uint n).

(** [type: 'input'] with a [default]: an empty entry gives the default. *)
Definition input_default (message default : string) : M string :=
  s ← input_line message;
  mret (if truthy s then s else default).

(** [target.name = newName] on the element that
    [DECRYPTED_WALLETS.find(w => w.wallet.address === addr)] returns: the
    first entry with that address is renamed where it stands; [None] is the
    assignment to a property of [undefined]. *)
Fixpoint rename_first (ws : list Entry) (addr newName : string) : option (list Entry) :=
  match ws with
  | [] => None
  | w :: rest =>
      if String.eqb (address (wallet w)) addr
      then Some (mkEntry newName (wallet w) :: rest)
      else cons w <$> rename_first rest addr newName
  end.

Module Wallets.
Section WithCollaborators.
Context `{Collaborators}.

(** [ethers.Wallet.fromPhrase] *)
Variable fromPhrase : string -> option Wallet.

(** The choices of [deleteWallet]: [`${w.name} (${w.address})`] on the
    elements of [DECRYPTED_WALLETS], and [Back]. *)
Definition delete_choices (ws : list Entry) : list (string * string) :=
  Funds.other_wallet_choices ws ++ [(back_label, BACK)].

Definition delete_message : string := "Select Wallet to DELETE (Move to Trash):".
Definition sure_message : string := "Are you sure? It will be removed from active list.".

(** [deleteWallet] of [cli.js].  The callback of [rawWallets.findIndex]
    reads [DECRYPTED_WALLETS.find(...).name] once per record, so the lookup
    is not made on an empty file.  [findIndex] returns an index of the list
    or [-1]; [splice] then takes the record at that index out. *)
Definition deleteWallet : M unit :=
  st ← get;
  match DECRYPTED_WALLETS st with
  | [] => mret tt
  | ws =>
      addr ← rawlist delete_message (delete_choices ws);
      if String.eqb addr BACK then mret tt
      else
        sure ← yes_no sure_message;
        if String.eqb sure "No" then mret tt
        else
          st1 ← get;
          rawWallets ← lift_option (WALLETS_FILE st1) "ENOENT: no such file or directory";
          walletIndex ←
            match rawWallets with
            | [] => mret (-1)%Z
            | _ =>
                target ← lift_option (Cli.find_wallet (DECRYPTED_WALLETS st1) addr)
                           "Cannot read properties of undefined (reading 'name')";
                mret (findIndex (fun w => String.eqb (rw_name w) (name target)) rawWallets)
            end;
          if (walletIndex =? -1)%Z then emit (Logged "Error finding wallet in storage.")
          else
            deletedWallet ← lift_option (rawWallets !! Z.to_nat walletIndex)
                              "index outside the list";
            put (set_wallets_file st1 (Some (delete (Z.to_nat walletIndex) rawWallets)));;
            st2 ← get;
            let trash := default [] (TRASH_FILE st2) in
            put (set_trash_file st2 (Some (trash ++ [deletedWallet])));;
            st3 ← get;
            put (set_wallets st3
                   (List.filter (fun w => negb (String.eqb (address (wallet w)) addr))
                                (DECRYPTED_WALLETS st3)));;
            emit (Logged "Wallet moved to Trash. You can restore it from Settings.");;
            emit Backup
  end.

(** [saveEncryptedWallet(name, wallet)] *)
Definition saveEncryptedWallet (name : string) (wallet : Wallet) : M unit :=
  password ← Vault.getPassword false;
  emit (Logged "Encrypting wallet...");;
  let encryptedJson := encrypt wallet password in
  rawWallets ← Vault.loadWalletsRaw;
  st ← get;
  put (set_wallets_file st (Some (rawWallets ++ [mkRaw name (Some encryptedJson) None])));;
  push_wallet (mkEntry name wallet);;
  emit (Logged ("Wallet '" +:+ name +:+ "' saved securely."));;
  emit Backup.

(** [DECRYPTED_WALLETS.length === 0 && !fs.existsSync(WALLETS_FILE)] *)
Definition first_time (st : State) : bool :=
  match DECRYPTED_WALLETS st, WALLETS_FILE st with
  | [], None => true
  | _, _ => false
  end.

Definition name_message : string :=
  "Give this wallet a name (e.g. " +:+ dquote +:+ "Main" +:+ dquote +:+ ", "
  +:+ dquote +:+ "Burner" +:+ dquote +:+ ":".

(** [createNewWallet]; [wallet] is what [ethers.Wallet.createRandom()]
    returned. *)
Definition createNewWallet (wallet : Wallet) : M unit :=
  emit (Logged "Creating new wallet locally on device...");;
  st ← get;
  name ← input_default name_message
           ("Wallet " +:+ decimal (length (DECRYPTED_WALLETS st) + 1));
  st1 ← get;
  (if first_time st1 then Vault.getPassword true else mret "");;
  saveEncryptedWallet name wallet;;
  emit (Logged ("Address: " +:+ address wallet)).

(** [importWallet] *)
Definition importWallet : M unit :=
  emit (Logged "Importing existing wallet...");;
  st ← get;
  (if first_time st then Vault.getPassword true else Vault.getPassword false);;
  type ← rawlist "Import method:"
           [("Private Key", "pk"); ("Mnemonic Phrase (12/24 words)", "mnemonic")];
  found ← try_catch
    (if String.eqb type "pk" then
       key ← input_line "Enter Private Key:";
       Some <$> lift_option (new_Wallet key) "invalid private key"
     else
       phrase ← input_line "Enter Mnemonic Phrase:";
       Some <$> lift_option (fromPhrase phrase) "invalid mnemonic")
    (fun msg => emit (Logged ("Invalid Key or Phrase: " +:+ msg));; mret None);
  match found with
  | None => mret tt
  | Some wallet =>
      emit (Logged ("Valid wallet found: " +:+ address wallet));;
      st1 ← get;
      name ← input_default "Give this wallet a name:"
               ("Imported " +:+ decimal (length (DECRYPTED_WALLETS st1) + 1));
      saveEncryptedWallet name wallet
  end.

(** The records written by [renameWallet]: every unlocked wallet,
    encrypted again. *)
Definition newRawStore (ws : list Entry) (password : string) : list RawWallet :=
  map (fun w => mkRaw (name w) (Some (encrypt (wallet w) password)) None) ws.

(** [renameWallet] *)
Definition renameWallet : M unit :=
  st ← get;
  match DECRYPTED_WALLETS st with
  | [] => mret tt
  | ws =>
      walletAddr ← rawlist "Select wallet to rename:"
                     (map (fun w => (name w, address (wallet w))) ws);
      newName ← input_line "Enter new name/tag:";
      st1 ← get;
      renamed ← lift_option (rename_first (DECRYPTED_WALLETS st1) walletAddr newName)
                  "Cannot set properties of undefined (setting 'name')";
      put (set_wallets st1 renamed);;
      password ← Vault.getPassword false;
      emit (Logged "Re-saving wallet names...");;
      st2 ← get;
      put (set_wallets_file st2 (Some (newRawStore (DECRYPTED_WALLETS st2) password)));;
      emit (Logged "Wallet renamed.");;
      emit Backup
  end.

End WithCollaborators.
End Wallets.

(** ** The vault and the session agree

    The wallet file is consistent with the memory under [password] when
    every record decrypts under it and the unlocked entries are those
    records, in the order of the file. *)
Definition consistent `{Collaborators} (password : string) (st : State) : Prop :=
  opened_prefix false (default [] (WALLETS_FILE st)) password = (DECRYPTED_WALLETS st, true).

(** Entries typed at the two questions of [getPassword(true)] that do not
    agree, pair after pair. *)
Fixpoint mismatched (ins : list input) : bool :=
  match ins with
  | [] => true
  | Line p :: Line c :: rest => negb (String.eqb p c) && mismatched rest
  | _ => false
  end.

(** A plain-text record whose key the library accepts, and the wallet it
    gives. *)
Definition plain_record `{Collaborators} (w : RawWallet) (e : Entry) : Prop :=
  exists key, rw_privateKey w = Some key /\ new_Wallet key = Some (wallet e)
              /\ name e = rw_name w.

(** The key of a plain-text record, as [new ethers.Wallet(w.privateKey)]
    reads it. *)
Definition plain_key `{Collaborators} (w : RawWallet) : option Wallet :=
  match rw_privateKey w with
  | Some k => new_Wallet k
  | None => None
  end.

(** ** More ways of reading a trace *)


(** A [session_request] event with the given method and parameters. *)
Definition request_of (ev : RequestEvent) (m : string) (ps : list jsval) : RequestEvent :=
  mkRequestEvent (topic ev) (request_id ev) (request_chainId ev) (mkRequest m ps).

(** The kinds of calls a local transfer or swap makes on chain. *)
Definition is_transfer (e : event) : bool :=
  match e with
  | TokenTransfer _ _ _ _ _ | NativeTransfer _ _ _ _ _ => true
  | _ => false
  end.

Definition is_approve (e : event) : bool :=
  match e with TokenApprove _ _ _ _ => true | _ => false end.

Definition is_swap (e : event) : bool :=
  match e with RouterSwap _ _ _ _ _ _ => true | _ => false end.


(** ** The settings a local transfer reads *)

(** The property names every object literal inherits from
    [Object.prototype]: [NETWORKS[key]] is not [undefined] for them. *)
Definition inherited_properties : list string :=
  ["constructor"; "__proto__"; "hasOwnProperty"; "isPrototypeOf"; "propertyIsEnumerable";
   "toLocaleString"; "toString"; "valueOf"; "__defineGetter__"; "__defineSetter__";
   "__lookupGetter__"; "__lookupSetter__"].

(** The [defaultNetwork] setting names a network of the table, or is empty
    (and then stands for [ethereum]). *)
Definition default_network_known (st : State) : bool :=
  match lookup_key NETWORKS (if truthy (defaultNetwork st) then defaultNetwork st
                             else "ethereum") with
  | Some _ => true
  | None => false
  end.

(** [if (USER_SETTINGS.gasLimitBuffer && USER_SETTINGS.gasLimitBuffer !== '0')] *)
Definition gas_buffer_set (st : State) : bool :=
  truthy (gasLimitBuffer st) && negb (String.eqb (gasLimitBuffer st) "0").

(** What is typed at [Send to:] for a manual entry: nothing when the sender
    is the only wallet with its address, the first choice otherwise. *)
Definition manual_entry (st : State) (sender : Entry) : list input :=
  match List.filter (fun w => negb (String.eqb (address (wallet w)) (address (wallet sender))))
                    (DECRYPTED_WALLETS st) with
  | [] => []
  | _ => [Pick 0]
  end.

(** ** A concrete vault and session

    Two identities [A] and [B]; [blobA] is [A] under the password [p1] and
    [blobB] is [B] under [p2].  The chain and the relay accept every call. *)

Definition walletA : Wallet := mkWallet "0xAAaaaaaaaaaaaaaaaaaaaaaaaaaaaaaaaaaaaaaaaa" "keyA".
Definition walletB : Wallet := mkWallet "0xBBbbbbbbbbbbbbbbbbbbbbbbbbbbbbbbbbbbbbbbbb" "keyB".

Definition demo : Collaborators := {|
  fromEncryptedJson := fun json password =>
    if String.eqb json "blobA" && String.eqb password "p1" then Some walletA
    else if String.eqb json "blobB" && String.eqb password "p2" then Some walletB
    else None;
  new_Wallet := fun key =>
    if String.eqb key "keyA" then Some walletA
    else if String.eqb key "keyB" then Some walletB else None;
  encrypt := fun w password => "blob(" +:+ privateKey w +:+ "," +:+ password +:+ ")";
  signMessage := fun w _ => Some ("signature by " +:+ address w);
  signTypedData := fun w _ _ _ => Some ("typed signature by " +:+ address w);
  JSON_parse := fun _ => None;
  sendTransaction := fun _ _ _ => Some "0xhash";
  parseUnits := fun _ _ => Some 1500000000000000000%Z;
  BigInt := fun _ => Some 0%Z;
  estimateGas := fun _ _ _ _ => Some 21000%Z;
  sendNative := fun _ _ _ _ _ => Some "0xhash";
  contract_decimals := fun _ _ => Some 18%Z;
  contract_symbol := fun _ _ => Some "TKN";
  contract_transfer := fun _ _ _ _ _ => Some "0xhash";
  contract_allowance := fun _ _ _ _ => Some 2000000000000000000%Z;
  contract_approve := fun _ _ _ _ => Some "0xhash";
  tx_wait := fun _ => true;
  router_swap := fun _ _ _ _ _ recipient =>
    match recipient with JString _ => Some "0xhash" | _ => None end;
  client_approve := fun _ _ => Some "topic-1";
  client_acknowledged := fun _ => true;
  client_respond := fun _ _ => true
|}.

Definition rawA : RawWallet := mkRaw "Main" (Some "blobA") None.
Definition rawB : RawWallet := mkRaw "Old" (Some "blobB") None.
Definition entryA : Entry := mkEntry "Main" walletA.
Definition entryB : Entry := mkEntry "Old" walletB.

Definition state0 : State :=
  mkState [] [] None None None "ethereum" "0" [].

(** The process right after start: the given files, nothing unlocked. *)
Definition boot (wallets trash : option (list RawWallet)) (ins : list input) : State :=
  mkState ins [] None wallets trash "ethereum" "0" [].

(** The process with [A] and [B] unlocked. *)
Definition unlocked (ins : list input) : State :=
  mkState ins [entryA; entryB] (Some "p1") (Some [rawA; rawB]) None "ethereum" "0" [].



(** A proposal with the same key in both maps. *)
Definition proposal_overlap : Proposal :=
  mkProposal 3 "dApp"
    (Some {[ "eip155" := mkNamespace (Some ["eip155:1"])
                                     (Some ["eth_sendTransaction"; "personal_sign"])
                                     (Some ["chainChanged"]) ]})
    (Some {[ "eip155" := mkNamespace (Some ["eip155:56"])
                                     (Some ["eth_signTypedData"]) (Some []) ]}).

Definition hello_request : RequestEvent :=
  mkRequestEvent "topic-1" 7 "eip155:1"
    (mkRequest "personal_sign" [JString "0x48656c6c6f"; JString (address walletB)]).

Definition send_request : RequestEvent :=
  mkRequestEvent "topic-1" 8 "eip155:56"
    (mkRequest "eth_sendTransaction"
       [JObject [("to", JString "0xCCcccccccccccccccccccccccccccccccccccccccc");
                 ("value", JString "0x1"); ("data", JString "0x"); ("gas", JString "0x5208")]]).

Definition send_tx : Tx :=
  mkTx (JString "0xCCcccccccccccccccccccccccccccccccccccccccc") (JString "0x1")
       (JString "0x") (JString "0x5208").

(** ** A second vault

    A library in which [fromEncryptedJson] opens what [encrypt] produced
    for [A] and [B] under the same password, besides the two blobs of the
    first scenario. *)
Definition sealed : Collaborators := {|
  fromEncryptedJson := fun json password =>
    if String.eqb json (@encrypt demo walletA password) then Some walletA
    else if String.eqb json (@encrypt demo walletB password) then Some walletB
    else @fromEncryptedJson demo json password;
  new_Wallet := @new_Wallet demo;
  encrypt := @encrypt demo;
  signMessage := @signMessage demo;
  signTypedData := @signTypedData demo;
  JSON_parse := @JSON_parse demo;
  sendTransaction := @sendTransaction demo;
  parseUnits := @parseUnits demo;
  BigInt := @BigInt demo;
  estimateGas := @estimateGas demo;
  sendNative := @sendNative demo;
  contract_decimals := @contract_decimals demo;
  contract_symbol := @contract_symbol demo;
  contract_transfer := @contract_transfer demo;
  contract_allowance := @contract_allowance demo;
  contract_approve := @contract_approve demo;
  tx_wait := @tx_wait demo;
  router_swap := @router_swap demo;
  client_approve := @client_approve demo;
  client_acknowledged := @client_acknowledged demo;
  client_respond := @client_respond demo
|}.

(** Two wallets that carry the same name. *)
Definition rawB_main : RawWallet := mkRaw "Main" (Some "blobB") None.
Definition entryB_main : Entry := mkEntry "Main" walletB.

Definition namesakes (ins : list input) : State :=
  mkState ins [entryA; entryB_main] (Some "p1") (Some [rawA; rawB_main]) None
          "ethereum" "0" [].

(** The vault with [A] alone unlocked under [p1]. *)
Definition single (ins : list input) : State :=
  mkState ins [entryA] (Some "p1") (Some [rawA]) None "ethereum" "0" [].

(** Records written before the vault was encrypted, and one whose key is
    not a key. *)
Definition plainA : RawWallet := mkRaw "Main" None (Some "keyA").
Definition plainB : RawWallet := mkRaw "Old" None (Some "keyB").
Definition plainBad : RawWallet := mkRaw "Broken" None (Some "not a key").

(** * Properties *)

(** ** Running the monad *)

Lemma run_bind {A B} (m : M A) (k : A -> M B) (st : State) :
  (m ≫= k) st = bind m k st.
Proof. reflexivity. Qed.

Lemma emitted_bind {A B} (m : M A) (k : A -> M B) (st : State) :
  emitted ((m ≫= k) st) =
  match outcome (m st) with
  | Done a => emitted (m st) ++ emitted (k a (final (m st)))
  | _ => emitted (m st)
  end.
Proof.
  rewrite run_bind. unfold bind. destruct (m st) as [[a|msg|c|] evs st']; simpl; try reflexivity.
  destruct (k a st'); reflexivity.
Qed.

Lemma emitted_try_catch {A} (body : M A) (handler : string -> M A) (st : State) :
  emitted (try_catch body handler st) =
  match outcome (body st) with
  | Threw msg => emitted (body st) ++ emitted (handler msg (final (body st)))
  | _ => emitted (body st)
  end.
Proof.
  unfold try_catch. destruct (body st) as [[a|msg|c|] evs st']; simpl; try reflexivity.
  destruct (handler msg st'); reflexivity.
Qed.

Lemma count_events_app (p : event -> bool) (l1 l2 : list event) :
  count_events p (l1 ++ l2) = count_events p l1 + count_events p l2.
Proof.
  unfold count_events. rewrite List.filter_app. apply length_app.
Qed.

Lemma count_events_zero (p : event -> bool) (tr : list event) (e : event) :
  count_events p tr = 0 -> In e tr -> p e = false.
Proof.
  unfold count_events. induction tr as [|x tr IH]; simpl; [tauto|].
  destruct (p x) eqn:Hx; simpl; [discriminate|].
  intros Hc [->|Hin]; auto.
Qed.

(** ** Counting events through the combinators *)

Section AtMost.
Context {p : event -> bool}.

Lemma at_most_weaken {A} (n n' : nat) (m : M A) :
  at_most n p m -> n <= n' -> at_most n' p m.
Proof. intros Hm Hle st. specialize (Hm st). lia. Qed.

Lemma at_most_ret {A} (a : A) : at_most 0 p (mret a).
Proof. intros st. reflexivity. Qed.

Lemma at_most_throw {A} (msg : string) : at_most 0 p (@throw A msg).
Proof. intros st. reflexivity. Qed.

Lemma at_most_exit {A} (c : Z) : at_most 0 p (@exit A c).
Proof. intros st. reflexivity. Qed.

Lemma at_most_get : at_most 0 p get.
Proof. intros st. reflexivity. Qed.

Lemma at_most_put (s : State) : at_most 0 p (put s).
Proof. intros st. reflexivity. Qed.

Lemma at_most_lift_option {A} (o : option A) (msg : string) :
  at_most 0 p (lift_option o msg).
Proof. intros st. destruct o; reflexivity. Qed.

Lemma at_most_emit_other (e : event) : p e = false -> at_most 0 p (emit e).
Proof. intros He st. unfold count_events. simpl. rewrite He. reflexivity. Qed.

Lemma at_most_emit_one (e : event) : at_most 1 p (emit e).
Proof. intros st. unfold count_events. simpl. destruct (p e); simpl; lia. Qed.

Lemma at_most_bind {A B} (n k : nat) (m : M A) (f : A -> M B) :
  at_most n p m -> (forall a, at_most k p (f a)) -> at_most (n + k) p (m ≫= f).
Proof.
  intros Hm Hf st. rewrite emitted_bind. specialize (Hm st).
  destruct (outcome (m st)); try lia.
  rewrite count_events_app. specialize (Hf a (final (m st))). lia.
Qed.

Lemma at_most_bind0 {A B} (m : M A) (f : A -> M B) :
  at_most 0 p m -> (forall a, at_most 0 p (f a)) -> at_most 0 p (m ≫= f).
Proof. intros. apply (at_most_bind 0 0); assumption. Qed.

Lemma at_most_fmap {A B} (n : nat) (g : A -> B) (m : M A) :
  at_most n p m -> at_most n p (g <$> m).
Proof.
  intros Hm. replace n with (n + 0) by lia.
  apply (at_most_bind n 0 m (fun a => ret (g a))); [assumption|].
  intros a st. reflexivity.
Qed.

Lemma at_most_try_catch {A} (n k : nat) (body : M A) (handler : string -> M A) :
  at_most n p body -> (forall msg, at_most k p (handler msg)) ->
  at_most (n + k) p (try_catch body handler).
Proof.
  intros Hb Hh st. rewrite emitted_try_catch. specialize (Hb st).
  destruct (outcome (body st)); try lia.
  rewrite count_events_app. specialize (Hh msg (final (body st))). lia.
Qed.

Lemma at_most_rawlist {V} (message : string) (choices : list (string * V)) :
  (forall label, p (Picked message (map fst choices) label) = false) ->
  at_most 0 p (rawlist message choices).
Proof.
  intros Hp st. unfold rawlist.
  destruct (stdin st) as [|[n|s] rest]; try reflexivity.
  destruct (choices !! n) as [[label v]|]; try reflexivity.
  unfold count_events. simpl. rewrite Hp. reflexivity.
Qed.

Lemma at_most_input_line (message : string) :
  (forall s, p (Entered message s) = false) -> at_most 0 p (input_line message).
Proof.
  intros Hp st. unfold input_line.
  destruct (stdin st) as [|[n|s] rest]; try reflexivity.
  unfold count_events. simpl. rewrite Hp. reflexivity.
Qed.

End AtMost.

Lemma at_most_zero_In {A} (p : event -> bool) (m : M A) (st : State) (e : event) :
  at_most 0 p m -> In e (emitted (m st)) -> p e = false.
Proof.
  intros Hm Hin. apply (count_events_zero p (emitted (m st))); [|assumption].
  specialize (Hm st). lia.
Qed.

(** ** Stepping through a run *)

Lemma after_nil {A} (r : Result A) : after [] r = r.
Proof. destruct r; reflexivity. Qed.

Lemma after_after {A} (evs1 evs2 : list event) (r : Result A) :
  after evs1 (after evs2 r) = after (evs1 ++ evs2) r.
Proof. destruct r; simpl. rewrite app_assoc. reflexivity. Qed.

Lemma emitted_after {A} (evs : list event) (r : Result A) :
  emitted (after evs r) = evs ++ emitted r.
Proof. destruct r; reflexivity. Qed.

Lemma outcome_after {A} (evs : list event) (r : Result A) :
  outcome (after evs r) = outcome r.
Proof. destruct r; reflexivity. Qed.

Lemma final_after {A} (evs : list event) (r : Result A) :
  final (after evs r) = final r.
Proof. destruct r; reflexivity. Qed.

Lemma run_ret_bind {A B} (a : A) (k : A -> M B) (st : State) :
  (ret a ≫= k) st = k a st.
Proof. rewrite run_bind. unfold bind, ret. apply after_nil. Qed.

Lemma run_mret_bind {A B} (a : A) (k : A -> M B) (st : State) :
  (mret a ≫= k) st = k a st.
Proof. apply run_ret_bind. Qed.

Lemma run_emit_bind {B} (e : event) (k : unit -> M B) (st : State) :
  (emit e ≫= k) st = after [e] (k tt st).
Proof. reflexivity. Qed.

Lemma run_get_bind {B} (k : State -> M B) (st : State) :
  (get ≫= k) st = k st st.
Proof. rewrite run_bind. unfold bind, get. apply after_nil. Qed.

Lemma run_put_bind {B} (s : State) (k : unit -> M B) (st : State) :
  (put s ≫= k) st = k tt s.
Proof. rewrite run_bind. unfold bind, put. apply after_nil. Qed.

Lemma run_throw_bind {A B} (msg : string) (k : A -> M B) (st : State) :
  (throw msg ≫= k) st = mkResult (Threw msg) [] st.
Proof. reflexivity. Qed.

Lemma run_lift_some {A B} (a : A) (msg : string) (k : A -> M B) (st : State) :
  (lift_option (Some a) msg ≫= k) st = k a st.
Proof. apply run_ret_bind. Qed.

Lemma run_lift_none {A B} (msg : string) (k : A -> M B) (st : State) :
  (lift_option None msg ≫= k) st = mkResult (Threw msg) [] st.
Proof. reflexivity. Qed.

Lemma run_bind_assoc {A B C} (m : M A) (f : A -> M B) (g : B -> M C) (st : State) :
  ((m ≫= f) ≫= g) st = (m ≫= fun a => f a ≫= g) st.
Proof.
  unfold mbind, M_bind, bind.
  destruct (m st) as [[a|msg|c|] evs st']; simpl; try reflexivity.
  destruct (f a st') as [[b|msg|c|] evs' st'']; simpl; try reflexivity.
  destruct (g b st'') as [o evs'' st3]; simpl. rewrite app_assoc. reflexivity.
Qed.

Lemma run_fmap_bind {A B C} (f : A -> B) (m : M A) (g : B -> M C) (st : State) :
  ((f <$> m) ≫= g) st = (m ≫= fun a => g (f a)) st.
Proof.
  change (f <$> m) with (m ≫= fun a => ret (f a)).
  rewrite run_bind_assoc. unfold mbind, M_bind, bind.
  destruct (m st) as [[a|msg|c|] evs st']; simpl; try reflexivity.
  destruct (g (f a) st'); reflexivity.
Qed.

Lemma run_fmap {A B} (f : A -> B) (m : M A) (st : State) :
  (f <$> m) st = (m ≫= fun a => ret (f a)) st.
Proof. reflexivity. Qed.

Lemma run_pick_bind {V B} (message : string) (choices : list (string * V))
    (k : V -> M B) (st : State) (n : nat) (rest : list input) (label : string) (v : V) :
  stdin st = Pick n :: rest -> choices !! n = Some (label, v) ->
  (rawlist message choices ≫= k) st
  = after [Picked message (map fst choices) label] (k v (set_stdin st rest)).
Proof.
  intros Hin Hn. rewrite run_bind. unfold bind, rawlist. rewrite Hin, Hn. reflexivity.
Qed.

Lemma run_yes_bind {B} (message : string) (k : string -> M B) (st : State)
    (rest : list input) :
  stdin st = Pick 0 :: rest ->
  (yes_no message ≫= k) st = after [confirmation message] (k "Yes" (set_stdin st rest)).
Proof.
  intros Hin. unfold yes_no, confirmation.
  rewrite (run_pick_bind message [("Yes", "Yes"); ("No", "No")] k st 0 rest "Yes" "Yes"
             Hin eq_refl).
  reflexivity.
Qed.

Lemma run_no_bind {B} (message : string) (k : string -> M B) (st : State)
    (rest : list input) :
  stdin st = Pick 1 :: rest ->
  (yes_no message ≫= k) st
  = after [Picked message ["Yes"; "No"] "No"] (k "No" (set_stdin st rest)).
Proof.
  intros Hin. unfold yes_no.
  rewrite (run_pick_bind message [("Yes", "Yes"); ("No", "No")] k st 1 rest "No" "No" Hin eq_refl).
  reflexivity.
Qed.

Lemma run_line_bind {B} (message : string) (k : string -> M B) (st : State)
    (s : string) (rest : list input) :
  stdin st = Line s :: rest ->
  (input_line message ≫= k) st = after [Entered message s] (k s (set_stdin st rest)).
Proof. intros Hin. rewrite run_bind. unfold bind, input_line. rewrite Hin. reflexivity. Qed.

(** What [yes_no] can do: take a [Yes], take a [No], or wait. *)
Lemma yes_no_cases {B} (message : string) (k : string -> M B) (st : State) :
  (exists rest, stdin st = Pick 0 :: rest /\
     (yes_no message ≫= k) st = after [confirmation message] (k "Yes" (set_stdin st rest)))
  \/ (exists rest, stdin st = Pick 1 :: rest /\
     (yes_no message ≫= k) st
     = after [Picked message ["Yes"; "No"] "No"] (k "No" (set_stdin st rest)))
  \/ (yes_no message ≫= k) st = mkResult Waiting [] st.
Proof.
  destruct (stdin st) as [|[[|[|n]]|s] rest] eqn:Hin.
  - right; right. rewrite run_bind. unfold bind, yes_no, rawlist. rewrite Hin. reflexivity.
  - left. exists rest. split; [reflexivity|]. apply run_yes_bind. assumption.
  - right; left. exists rest. split; [reflexivity|]. apply run_no_bind. assumption.
  - right; right. rewrite run_bind. unfold bind, yes_no, rawlist. rewrite Hin.
    simpl. destruct n; reflexivity.
  - right; right. rewrite run_bind. unfold bind, yes_no, rawlist. rewrite Hin. reflexivity.
Qed.

(** What [rawlist] can do: return an offered choice, or wait. *)
Lemma rawlist_cases {V B} (message : string) (choices : list (string * V))
    (k : V -> M B) (st : State) :
  (exists n rest label v,
     stdin st = Pick n :: rest /\ choices !! n = Some (label, v)
     /\ (rawlist message choices ≫= k) st
        = after [Picked message (map fst choices) label] (k v (set_stdin st rest)))
  \/ (rawlist message choices ≫= k) st = mkResult Waiting [] st.
Proof.
  destruct (stdin st) as [|[n|s] rest] eqn:Hin.
  - right. rewrite run_bind. unfold bind, rawlist. rewrite Hin. reflexivity.
  - destruct (choices !! n) as [[label v]|] eqn:Hn.
    + left. exists n, rest, label, v. split; [reflexivity|]. split; [assumption|].
      apply (run_pick_bind _ _ _ _ n rest); assumption.
    + right. rewrite run_bind. unfold bind, rawlist. rewrite Hin, Hn. reflexivity.
  - right. rewrite run_bind. unfold bind, rawlist. rewrite Hin. reflexivity.
Qed.

Lemma In_bind_l {A B} (m : M A) (k : A -> M B) (st : State) (e : event) :
  In e (emitted (m st)) -> In e (emitted ((m ≫= k) st)).
Proof.
  intros Hin. rewrite emitted_bind. destruct (outcome (m st)); try assumption.
  apply in_or_app. left. assumption.
Qed.

Lemma In_try_catch {A} (body : M A) (handler : string -> M A) (st : State) (e : event) :
  In e (emitted (body st)) -> In e (emitted (try_catch body handler st)).
Proof.
  intros Hin. rewrite emitted_try_catch. destruct (outcome (body st)); try assumption.
  apply in_or_app. left. assumption.
Qed.

(** A run that starts with [evs] still does so when more follows. *)
Lemma starts_bind {A B} (m : M A) (k : A -> M B) (st : State) (evs : list event) :
  (exists tail, emitted (m st) = evs ++ tail) ->
  exists tail, emitted ((m ≫= k) st) = evs ++ tail.
Proof.
  intros [tail Hm]. rewrite emitted_bind, Hm.
  destruct (outcome (m st)); eauto.
  rewrite <- app_assoc. eauto.
Qed.

Lemma starts_try_catch {A} (body : M A) (handler : string -> M A) (st : State)
    (evs : list event) :
  (exists tail, emitted (body st) = evs ++ tail) ->
  exists tail, emitted (try_catch body handler st) = evs ++ tail.
Proof.
  intros [tail Hb]. rewrite emitted_try_catch, Hb.
  destruct (outcome (body st)); eauto.
  rewrite <- app_assoc. eauto.
Qed.

Ltac quiet_step :=
  lazymatch goal with
  | |- at_most _ _ (_ ≫= _) => apply at_most_bind0
  | |- at_most _ _ (mret _) => apply at_most_ret
  | |- at_most _ _ (ret _) => apply at_most_ret
  | |- at_most _ _ (throw _) => apply at_most_throw
  | |- at_most _ _ (exit _) => apply at_most_exit
  | |- at_most _ _ get => apply at_most_get
  | |- at_most _ _ (put _) => apply at_most_put
  | |- at_most _ _ (lift_option _ _) => apply at_most_lift_option
  | |- at_most _ _ (emit _) => apply at_most_emit_other; reflexivity
  | |- at_most _ _ (_ <$> _) => apply at_most_fmap
  | |- at_most _ _ (try_catch _ _) => apply (at_most_try_catch 0 0)
  | |- at_most _ _ (rawlist _ _) => apply at_most_rawlist; intros; reflexivity
  | |- at_most _ _ (input_line _) => apply at_most_input_line; intros; reflexivity
  | |- at_most _ _ (if ?b then _ else _) => destruct b
  | |- at_most _ _ (match ?x with _ => _ end) => destruct x
  | |- forall _, _ => intros
  end.

Ltac quiet := repeat quiet_step.

Section SessionRequests.
Context `{Collaborators}.

Lemma dispatch_rpc (signer : Wallet) (req : Request) :
  at_most 0 other_rpc (Cli.dispatch signer req).
Proof.
  unfold Cli.dispatch, Cli.personal_sign, Cli.sign_typed_data, Cli.send_transaction, yes_no.
  quiet.
Qed.

Lemma on_session_request_rpc (signer : Wallet) (ev : RequestEvent) :
  at_most 0 other_rpc (Cli.on_session_request signer ev).
Proof.
  unfold Cli.on_session_request, Cli.execute, Cli.respond_result, yes_no.
  quiet. apply dispatch_rpc.
Qed.

End SessionRequests.

Ltac in_head := repeat first [left; reflexivity | right].

Section C10.
Context `{Collaborators}.

(** C10: an approved [eth_sendTransaction] request is broadcast through
    the fixed endpoint [https://eth.llamarpc.com]. The handler reads neither
    the chain of the request nor the namespaces of the session; whichever
    they are, every broadcast it makes goes to that endpoint. *)
Theorem C10_send_transaction_rpc (signer : Wallet) (ev : RequestEvent) (st : State)
    (fields : list (string * jsval)) (rest : list input) :
  method (request ev) = "eth_sendTransaction" ->
  js_nth (params (request ev)) 0 = JObject fields ->
  stdin st = Pick 0 :: Pick 0 :: rest ->
  let tr := emitted (Cli.on_session_request signer ev st) in
  (exists tx, tx_of (JObject fields) = Some tx /\
              In (SentTransaction "https://eth.llamarpc.com" (address signer) tx) tr)
  /\ forall rpc who tx, In (SentTransaction rpc who tx) tr -> rpc = "https://eth.llamarpc.com".
Proof.
  intros Hm Hp Hin tr. split.
  - eexists. split; [reflexivity|].
    subst tr. unfold Cli.on_session_request.
    rewrite run_emit_bind, emitted_after. right.
    rewrite (run_yes_bind _ _ _ _ Hin), emitted_after. right. cbn [String.eqb Ascii.eqb Bool.eqb].
    unfold Cli.execute. apply In_try_catch, In_bind_l.
    unfold Cli.dispatch. rewrite Hm.
    change (String.eqb "eth_sendTransaction" "personal_sign") with false.
    change (String.prefix "eth_signTypedData" "eth_sendTransaction") with false.
    change (String.eqb "eth_sendTransaction" "eth_sendTransaction") with true.
    cbv iota. unfold Cli.send_transaction. rewrite Hp.
    rewrite run_emit_bind, emitted_after. right.
    cbn [js_get]. rewrite !run_lift_some.
    rewrite (run_yes_bind _ _ (set_stdin st (Pick 0 :: rest)) rest eq_refl), emitted_after. right.
    cbn [String.eqb Ascii.eqb Bool.eqb].
    rewrite run_emit_bind, emitted_after. right.
    rewrite run_emit_bind, emitted_after. left. reflexivity.
  - intros rpc who tx Hev.
    pose proof (at_most_zero_In other_rpc _ st _ (on_session_request_rpc signer ev) Hev) as Hr.
    simpl in Hr. apply negb_false_iff in Hr. apply String.eqb_eq in Hr. exact Hr.
Qed.
End C10.

(** Witness of C10: a transaction requested on [eip155:56] goes to the
    Ethereum mainnet endpoint. *)
Lemma C10_send_transaction_rpc_witness :
  method (request send_request) = "eth_sendTransaction"
  /\ request_chainId send_request = "eip155:56"
  /\ stdin (unlocked [Pick 0; Pick 0]) = [Pick 0; Pick 0]
  /\ exists tx,
       tx_of (js_nth (params (request send_request)) 0) = Some tx
       /\ In (SentTransaction "https://eth.llamarpc.com" (address walletB) tx)
             (emitted (@Cli.on_session_request demo walletB send_request
                         (unlocked [Pick 0; Pick 0]))).
Proof.
  repeat split.
  exact (proj1 (@C10_send_transaction_rpc demo walletB send_request
                  (unlocked [Pick 0; Pick 0]) _ [] eq_refl eq_refl eq_refl)).
Defined.

(** ** The session_request handler of the CLI *)

Section RequestGate.
Context `{Collaborators}.

(** The three ways a delivery can go: approved, rejected, or left
    unanswered. *)
Lemma on_session_request_gate (signer : Wallet) (ev : RequestEvent) (st : State) :
  let hello := Logged ("New Request: " +:+ method (request ev)) in
  (exists rest, stdin st = Pick 0 :: rest /\
     Cli.on_session_request signer ev st
     = after [hello; confirmation (Cli.approve_message ev)]
             (Cli.execute signer ev (set_stdin st rest)))
  \/ (exists rest, stdin st = Pick 1 :: rest /\
     Cli.on_session_request signer ev st
     = mkResult (Done tt)
         [hello; Picked (Cli.approve_message ev) ["Yes"; "No"] "No";
          Logged "Request rejected locally."] (set_stdin st rest))
  \/ Cli.on_session_request signer ev st = mkResult Waiting [hello] st.
Proof.
  intros hello. unfold Cli.on_session_request. rewrite run_emit_bind.
  destruct (yes_no_cases (Cli.approve_message ev)
              (fun sign => if String.eqb sign "No"
                           then emit (Logged "Request rejected locally.")
                           else Cli.execute signer ev) st)
    as [(rest & Hin & Hrun)|[(rest & Hin & Hrun)|Hrun]]; rewrite Hrun.
  - left. exists rest. split; [assumption|].
    rewrite after_after. reflexivity.
  - right; left. exists rest. split; [assumption|]. reflexivity.
  - right; right. reflexivity.
Qed.

Lemma dispatch_no_response (signer : Wallet) (req : Request) :
  at_most 0 is_response (Cli.dispatch signer req).
Proof.
  unfold Cli.dispatch, Cli.personal_sign, Cli.sign_typed_data, Cli.send_transaction, yes_no.
  quiet.
Qed.

Lemma respond_result_once (ev : RequestEvent) (result : option string) :
  at_most 1 is_response (Cli.respond_result ev result).
Proof.
  unfold Cli.respond_result. destruct result as [r|]; [|apply (at_most_weaken 0); [quiet|lia]].
  destruct (truthy r); [|apply (at_most_weaken 0); [quiet|lia]].
  apply (at_most_bind 1 0); [apply at_most_emit_one|]. quiet.
Qed.

Lemma execute_one_response (signer : Wallet) (ev : RequestEvent) :
  at_most 1 is_response (Cli.execute signer ev).
Proof.
  unfold Cli.execute. apply (at_most_try_catch 1 0).
  - apply (at_most_bind 0 1); [apply dispatch_no_response|].
    intros result. apply respond_result_once.
  - quiet.
Qed.

Lemma personal_sign_once (signer : Wallet) (req : Request) :
  at_most 1 executes (Cli.personal_sign signer req).
Proof.
  unfold Cli.personal_sign.
  apply (at_most_bind 0 1); [quiet|]. intros data.
  apply (at_most_bind 0 1); [quiet|]. intros readable.
  apply (at_most_bind 0 1); [quiet|]. intros _.
  apply (at_most_bind 1 0); [apply at_most_emit_one|]. quiet.
Qed.

Lemma sign_typed_data_once (signer : Wallet) (req : Request) :
  at_most 1 executes (Cli.sign_typed_data signer req).
Proof.
  unfold Cli.sign_typed_data.
  apply (at_most_bind 0 1); [quiet|]. intros parsed.
  apply (at_most_bind 0 1); [quiet|]. intros domain.
  apply (at_most_bind 0 1); [quiet|]. intros types.
  apply (at_most_bind 0 1); [quiet|]. intros message.
  apply (at_most_bind 1 0); [apply at_most_emit_one|]. quiet.
Qed.

Lemma send_transaction_once (signer : Wallet) (req : Request) :
  at_most 1 executes (Cli.send_transaction signer req).
Proof.
  unfold Cli.send_transaction.
  apply (at_most_bind 0 1); [quiet|]. intros _.
  apply (at_most_bind 0 1); [quiet|]. intros to.
  apply (at_most_bind 0 1); [quiet|]. intros value.
  apply (at_most_bind 0 1); [quiet|]. intros data.
  apply (at_most_bind 0 1); [quiet|]. intros gas.
  apply (at_most_bind 0 1); [unfold yes_no; quiet|]. intros send.
  destruct (String.eqb send "No"); [apply (at_most_weaken 0); [quiet|lia]|].
  apply (at_most_bind 0 1); [quiet|]. intros _.
  apply (at_most_bind 1 0); [apply at_most_emit_one|]. quiet.
Qed.

Lemma execute_once (signer : Wallet) (ev : RequestEvent) :
  at_most 1 executes (Cli.execute signer ev).
Proof.
  unfold Cli.execute. apply (at_most_try_catch 1 0).
  - apply (at_most_bind 1 0).
    + unfold Cli.dispatch.
      destruct (String.eqb _ _); [apply personal_sign_once|].
      destruct (String.prefix _ _); [apply sign_typed_data_once|].
      destruct (String.eqb _ _); [apply send_transaction_once|].
      apply (at_most_weaken 0); [quiet|lia].
    + intros result. unfold Cli.respond_result. quiet.
  - quiet.
Qed.

Lemma execute_addressed (signer : Wallet) (ev : RequestEvent) :
  at_most 0 (fun e => stray_response ev e || is_error_response e) (Cli.execute signer ev).
Proof.
  unfold Cli.execute, Cli.dispatch, Cli.personal_sign, Cli.sign_typed_data,
    Cli.send_transaction, Cli.respond_result, yes_no.
  quiet.
  apply at_most_emit_other. simpl.
  rewrite String.eqb_refl, Z.eqb_refl. reflexivity.
Qed.

End RequestGate.

(** ** The session_request handler of the headless wallet *)

Section HeadlessRequests.
Context `{Collaborators}.

Lemma headless_never_asks (wallet : Wallet) (ev : RequestEvent) :
  at_most 0 asks (Headless.on_session_request wallet ev).
Proof.
  unfold Headless.on_session_request, Headless.dispatch, Headless.personal_sign,
    Headless.sign_typed_data.
  quiet.
Qed.

Lemma headless_addressed (wallet : Wallet) (ev : RequestEvent) :
  at_most 0 (fun e => stray_response ev e || odd_error e)
          (Headless.on_session_request wallet ev).
Proof.
  unfold Headless.on_session_request, Headless.dispatch, Headless.personal_sign,
    Headless.sign_typed_data.
  quiet; apply at_most_emit_other; simpl;
    rewrite String.eqb_refl, Z.eqb_refl; reflexivity.
Qed.

End HeadlessRequests.

Lemma addressed_response (ev : RequestEvent) (t : string) (r : Response) :
  stray_response ev (ClientRespond t r) = false ->
  t = topic ev /\ response_id r = request_id ev.
Proof.
  simpl. intros Hs. apply negb_false_iff in Hs. apply andb_true_iff in Hs.
  destruct Hs as [Ht Hid]. apply String.eqb_eq in Ht. apply Z.eqb_eq in Hid. auto.
Qed.

Section C4.
Context `{Collaborators}.

(** C4 (as amended): for every delivery of a session_request event the CLI
    handler calls [client.respond] at most once and signs or broadcasts at
    most once; a response it sends carries a result and the topic and id of
    that delivery; and it responds, signs or broadcasts only after the user
    picked Yes at the approval prompt of that same delivery. The handler
    keeps no record of request ids. The headless handler never asks. *)
Theorem C4_one_response_per_delivery (signer wallet : Wallet) (ev : RequestEvent)
    (st : State) :
  let tr := emitted (Cli.on_session_request signer ev st) in
  count_events is_response tr <= 1
  /\ count_events executes tr <= 1
  /\ (forall t r, In (ClientRespond t r) tr ->
        t = topic ev /\ exists result, r = RespResult (request_id ev) result)
  /\ (forall e, In e tr -> is_response e || executes e = true ->
        exists rest tail,
          stdin st = Pick 0 :: rest /\
          tr = Logged ("New Request: " +:+ method (request ev))
               :: confirmation (Cli.approve_message ev) :: tail)
  /\ count_events asks (emitted (Headless.on_session_request wallet ev st)) = 0.
Proof.
  intros tr. subst tr.
  assert (count_events asks (emitted (Headless.on_session_request wallet ev st)) = 0)
    as Hheadless.
  { pose proof (headless_never_asks wallet ev st). lia. }
  destruct (on_session_request_gate signer ev st)
    as [(rest & Hin & Hrun)|[(rest & Hin & Hrun)|Hrun]]; rewrite Hrun.
  - rewrite emitted_after. split; [|split; [|split; [|split; [|exact Hheadless]]]].
    + rewrite count_events_app. pose proof (execute_one_response signer ev (set_stdin st rest)).
      unfold count_events at 1. simpl. lia.
    + rewrite count_events_app. pose proof (execute_once signer ev (set_stdin st rest)).
      unfold count_events at 1. simpl. lia.
    + intros t r Hev. apply in_app_or in Hev.
      destruct Hev as [[He|[He|[]]]|Hex]; try discriminate.
      pose proof (at_most_zero_In _ _ _ _ (execute_addressed signer ev) Hex) as Hp.
      apply orb_false_iff in Hp. destruct Hp as [Hs He].
      apply addressed_response in Hs. destruct Hs as [Ht Hid]. split; [exact Ht|].
      destruct r as [id result|id code msg]; [|discriminate].
      simpl in Hid. subst id. exists result. reflexivity.
    + intros e _ _. exists rest. eexists. split; [assumption|]. reflexivity.
  - simpl. split; [|split; [|split; [|split; [|exact Hheadless]]]].
    + unfold count_events. simpl. lia.
    + unfold count_events. simpl. lia.
    + intros t r [He|[He|[He|[]]]]; discriminate.
    + intros e [<-|[<-|[<-|[]]]]; discriminate.
  - simpl. split; [|split; [|split; [|split; [|exact Hheadless]]]].
    + unfold count_events. simpl. lia.
    + unfold count_events. simpl. lia.
    + intros t r [He|[]]; discriminate.
    + intros e [<-|[]]; discriminate.
Qed.

End C4.

(** Witness of C4 on the sample request: one response, after the Yes. *)
Lemma C4_one_response_per_delivery_witness :
  count_events is_response
    (emitted (@Cli.on_session_request demo walletB hello_request (unlocked [Pick 0]))) <= 1.
Proof.
  exact (proj1 (@C4_one_response_per_delivery demo walletB walletB hello_request
                  (unlocked [Pick 0]))).
Defined.

(** C4 (as stated) fails: the same request delivered twice and approved
    twice is signed twice and answered twice under the one id, and the
    headless handler answers with a result although nothing was asked. *)
Lemma C4_same_id_answered_twice :
  let tr := emitted (@Cli.deliver demo walletB [hello_request; hello_request]
                       (unlocked [Pick 0; Pick 0])) in
  let headless := emitted (@Headless.on_session_request demo walletB hello_request
                             (unlocked [])) in
  responses tr = [("topic-1", RespResult 7 ("signature by " +:+ address walletB));
                  ("topic-1", RespResult 7 ("signature by " +:+ address walletB))]
  /\ count_events executes tr = 2
  /\ responses headless = [("topic-1", RespResult 7 ("signature by " +:+ address walletB))]
  /\ count_events asks headless = 0.
Proof. vm_compute. repeat split. Qed.

Section C5.
Context `{Collaborators}.

Lemma on_session_request_no_error (signer : Wallet) (ev : RequestEvent) :
  at_most 0 is_error_response (Cli.on_session_request signer ev).
Proof.
  unfold Cli.on_session_request, Cli.execute, Cli.dispatch, Cli.personal_sign,
    Cli.sign_typed_data, Cli.send_transaction, Cli.respond_result, yes_no.
  quiet.
Qed.

(** C5 (as amended): when the user rejects a pending request in the CLI,
    the handler logs the rejection, sends nothing to the peer and ends
    normally, so the session stays as it was. The CLI handler never sends an
    error response. The headless handler, which has no rejection, answers a
    failure with [{code: 5000, message}] under the topic and id of the
    request. *)
Theorem C5_rejection_is_local (signer wallet : Wallet) (ev : RequestEvent) (st : State)
    (rest : list input) :
  stdin st = Pick 1 :: rest ->
  Cli.on_session_request signer ev st
  = mkResult (Done tt)
      [Logged ("New Request: " +:+ method (request ev));
       Picked (Cli.approve_message ev) ["Yes"; "No"] "No";
       Logged "Request rejected locally."] (set_stdin st rest)
  /\ (forall st', count_events is_error_response
                    (emitted (Cli.on_session_request signer ev st')) = 0)
  /\ (forall st' t id code message,
        In (ClientRespond t (RespError id code message))
           (emitted (Headless.on_session_request wallet ev st')) ->
        t = topic ev /\ id = request_id ev /\ code = 5000%Z).
Proof.
  intros Hin. split; [|split].
  - destruct (on_session_request_gate signer ev st)
      as [(rest' & Hin' & Hrun)|[(rest' & Hin' & Hrun)|Hrun]].
    + rewrite Hin in Hin'. discriminate.
    + rewrite Hin in Hin'. injection Hin' as <-. exact Hrun.
    + exfalso. unfold Cli.on_session_request in Hrun.
      rewrite run_emit_bind, (run_no_bind _ _ _ _ Hin) in Hrun. discriminate.
  - intros st'. pose proof (on_session_request_no_error signer ev st'). lia.
  - intros st' t id code message Hev.
    pose proof (at_most_zero_In _ _ _ _ (headless_addressed wallet ev) Hev) as Hp.
    apply orb_false_iff in Hp. destruct Hp as [Hs Ho].
    apply addressed_response in Hs. destruct Hs as [Ht Hid]. simpl in Hid, Ho.
    apply negb_false_iff, Z.eqb_eq in Ho. auto.
Qed.

End C5.

(** Witness of C5: the sample request, rejected. *)
Lemma C5_rejection_is_local_witness :
  stdin (unlocked [Pick 1]) = [Pick 1]
  /\ responses (emitted (@Cli.on_session_request demo walletB hello_request
                           (unlocked [Pick 1]))) = [].
Proof.
  split; [reflexivity|].
  rewrite (proj1 (@C5_rejection_is_local demo walletB walletB hello_request
                    (unlocked [Pick 1]) [] eq_refl)).
  reflexivity.
Defined.

(** C5 (as stated) fails: after a rejection no response at all reaches the
    peer, and an error raised while signing is only logged. *)
Lemma C5_no_error_response_sent :
  responses (emitted (@Cli.on_session_request demo walletB hello_request
                        (unlocked [Pick 1]))) = []
  /\ emitted (@Cli.on_session_request demo walletB
                (mkRequestEvent "topic-1" 9 "eip155:1"
                   (mkRequest "personal_sign" [JString "0xff"])) (unlocked [Pick 0]))
     = [Logged "New Request: personal_sign";
        Picked "Approve personal_sign request?" ["Yes"; "No"] "Yes";
        Logged "Error signing: invalid codepoint"].
Proof. vm_compute. split; reflexivity. Qed.

Section C6.
Context `{Collaborators}.

Lemma personal_sign_hex_bytes (signer : Wallet) (req : Request) (s : string) :
  js_nth (params req) 0 = JString s -> isHexString (JString s) = true ->
  at_most 0 (signs_other (getBytes (JString s))) (Cli.personal_sign signer req).
Proof.
  intros Hp Hx. unfold Cli.personal_sign. rewrite Hp, Hx.
  destruct (getBytes (JString s)) as [bytes|]; simpl lift_option.
  - intros st. rewrite run_fmap_bind, run_ret_bind. revert st.
    change (at_most 0 (signs_other (Some bytes))
              (readable ← lift_option (toUtf8String (JString s)) "invalid codepoint";
               emit (Logged (Cli.signing_line readable));;
               emit (SignedMessage (address signer) (SignBytes bytes));;
               Some <$> lift_option (signMessage signer (SignBytes bytes)) "signMessage failed")).
    quiet. apply at_most_emit_other. simpl.
    rewrite bool_decide_eq_true_2; reflexivity.
  - intros st. rewrite run_fmap_bind. reflexivity.
Qed.

Lemma on_session_request_hex_bytes (signer : Wallet) (ev : RequestEvent) (s : string) :
  method (request ev) = "personal_sign" ->
  js_nth (params (request ev)) 0 = JString s -> isHexString (JString s) = true ->
  at_most 0 (signs_other (getBytes (JString s))) (Cli.on_session_request signer ev).
Proof.
  intros Hm Hp Hx.
  unfold Cli.on_session_request, Cli.execute, Cli.dispatch, Cli.respond_result, yes_no.
  rewrite Hm. change (String.eqb "personal_sign" "personal_sign") with true. cbv iota.
  quiet. apply personal_sign_hex_bytes; assumption.
Qed.

(** C6 (as amended): for a personal_sign request whose payload is a hex
    string, the approval prompt names only the method; once the user picked
    Yes, and when the payload has an even number of digits that decode as
    UTF-8, the handler logs [Signing: "<decoded text>"] and then signs the
    decoded bytes. Whatever the run, a message signature is over the
    decoded bytes of the payload, never over the hex string. For
    [0x48656c6c6f] the text is [Hello] and the bytes are
    [0x48,0x65,0x6c,0x6c,0x6f]. *)
Theorem C6_personal_sign_bytes (signer : Wallet) (ev : RequestEvent) (st : State)
    (s : string) :
  method (request ev) = "personal_sign" ->
  js_nth (params (request ev)) 0 = JString s ->
  isHexString (JString s) = true ->
  let tr := emitted (Cli.on_session_request signer ev st) in
  (forall bytes text rest,
      stdin st = Pick 0 :: rest ->
      getBytes (JString s) = Some bytes -> toUtf8String (JString s) = Some text ->
      exists tail,
        tr = [Logged "New Request: personal_sign";
              confirmation "Approve personal_sign request?";
              Logged (Cli.signing_line text);
              SignedMessage (address signer) (SignBytes bytes)] ++ tail)
  /\ (forall who input, In (SignedMessage who input) tr ->
        exists bytes, getBytes (JString s) = Some bytes /\ input = SignBytes bytes)
  /\ toUtf8String (JString "0x48656c6c6f") = Some "Hello"
  /\ getBytes (JString "0x48656c6c6f") = Some [72; 101; 108; 108; 111]%Z.
Proof.
  intros Hm Hp Hx tr. subst tr. split; [|split; [|split; reflexivity]].
  - intros bytes text rest Hin Hb Ht.
    unfold Cli.on_session_request, Cli.approve_message. rewrite Hm.
    rewrite run_emit_bind, (run_yes_bind _ _ _ _ Hin), after_after, emitted_after.
    change (String.eqb "Yes" "No") with false. cbv iota.
    assert (exists tail,
               emitted (Cli.execute signer ev (set_stdin st rest))
               = [Logged (Cli.signing_line text);
                  SignedMessage (address signer) (SignBytes bytes)] ++ tail) as [tail Htail].
    { unfold Cli.execute. apply starts_try_catch, starts_bind.
      unfold Cli.dispatch. rewrite Hm.
      change (String.eqb "personal_sign" "personal_sign") with true. cbv iota.
      unfold Cli.personal_sign. rewrite Hp, Hx, Hb, Ht.
      rewrite run_fmap_bind, !run_lift_some.
      rewrite run_emit_bind, run_emit_bind, after_after, emitted_after.
      eauto. }
    rewrite Htail. exists tail. reflexivity.
  - intros who input Hev.
    pose proof (at_most_zero_In _ _ _ _ (on_session_request_hex_bytes signer ev s Hm Hp Hx) Hev)
      as Hs.
    simpl in Hs. destruct input as [bytes| |]; try discriminate.
    apply negb_false_iff, bool_decide_eq_true in Hs.
    exists bytes. auto.
Qed.

End C6.

(** Witness of C6: the sample request of the specification. *)
Lemma C6_personal_sign_bytes_witness :
  method (request hello_request) = "personal_sign"
  /\ js_nth (params (request hello_request)) 0 = JString "0x48656c6c6f"
  /\ isHexString (JString "0x48656c6c6f") = true
  /\ exists tail,
       emitted (@Cli.on_session_request demo walletB hello_request (unlocked [Pick 0]))
       = [Logged "New Request: personal_sign";
          confirmation "Approve personal_sign request?";
          Logged (Cli.signing_line "Hello");
          SignedMessage (address walletB) (SignBytes [72; 101; 108; 108; 111]%Z)] ++ tail.
Proof.
  repeat split.
  exact (proj1 (@C6_personal_sign_bytes demo walletB hello_request (unlocked [Pick 0])
                  "0x48656c6c6f" eq_refl eq_refl eq_refl)
               [72; 101; 108; 108; 111]%Z "Hello" [] eq_refl eq_refl eq_refl).
Defined.

(** C6 (as stated) fails on the prompt: for [0x48656c6c6f] the only prompt
    is [Approve personal_sign request?]; [Hello] is printed after the Yes,
    and not at all when the answer is No. *)
Lemma C6_prompt_names_only_the_method :
  let approved := emitted (@Cli.on_session_request demo walletB hello_request
                             (unlocked [Pick 0])) in
  let rejected := emitted (@Cli.on_session_request demo walletB hello_request
                             (unlocked [Pick 1])) in
  prompts approved = ["Approve personal_sign request?"]
  /\ existsb (fun m => mentions m "Hello") (prompts approved) = false
  /\ approved = [Logged "New Request: personal_sign";
                 Picked "Approve personal_sign request?" ["Yes"; "No"] "Yes";
                 Logged (Cli.signing_line "Hello");
                 SignedMessage (address walletB) (SignBytes [72; 101; 108; 108; 111]%Z);
                 ClientRespond "topic-1"
                   (RespResult 7 ("signature by " +:+ address walletB));
                 Logged "Signed & Sent!"]
  /\ rejected = [Logged "New Request: personal_sign";
                 Picked "Approve personal_sign request?" ["Yes"; "No"] "No";
                 Logged "Request rejected locally."].
Proof. vm_compute. repeat split. Qed.

(** ** The namespaces of an approval *)




Lemma lookup_allNamespaces (p : Proposal) (key : string) :
  allNamespaces p !! key
  = match default ∅ (optionalNamespaces p) !! key with
    | Some ns => Some ns
    | None => default ∅ (requiredNamespaces p) !! key
    end.
Proof.
  unfold allNamespaces. rewrite lookup_union.
  destruct (default ∅ (optionalNamespaces p) !! key),
           (default ∅ (requiredNamespaces p) !! key); reflexivity.
Qed.

Lemma lookup_approved_namespaces (a : string) (p : Proposal) (key : string) :
  approved_namespaces a p !! key = approve_namespace a <$> allNamespaces p !! key.
Proof. unfold approved_namespaces. apply lookup_fmap. Qed.

(** What the merged entry lists was listed by the peer under that key. *)
Lemma merged_field_requested {A} (field : Namespace -> option (list A)) (p : Proposal)
    (key : string) (entry : Namespace) (x : A) :
  allNamespaces p !! key = Some entry -> In x (default [] (field entry)) ->
  In x (requested field p key).
Proof.
  rewrite lookup_allNamespaces. unfold requested, listed. intros Hl Hx.
  apply in_or_app.
  destruct (default ∅ (optionalNamespaces p) !! key) as [ns|].
  - injection Hl as ->. right. assumption.
  - rewrite Hl. left. assumption.
Qed.

(** The methods and events of an approval were all requested by the peer. *)
Lemma approved_methods_requested (a : string) (p : Proposal) (key : string)
    (ns : ApprovedNamespace) (m : string) :
  approved_namespaces a p !! key = Some ns -> In m (a_methods ns) ->
  In m (requested methods p key).
Proof.
  rewrite lookup_approved_namespaces. intros Hl Hm.
  destruct (allNamespaces p !! key) as [entry|] eqn:He; [|discriminate].
  injection Hl as <-. eapply merged_field_requested; eassumption.
Qed.

Lemma approved_events_requested (a : string) (p : Proposal) (key : string)
    (ns : ApprovedNamespace) (ev : string) :
  approved_namespaces a p !! key = Some ns -> In ev (a_events ns) ->
  In ev (requested events p key).
Proof.
  rewrite lookup_approved_namespaces. intros Hl Hm.
  destruct (allNamespaces p !! key) as [entry|] eqn:He; [|discriminate].
  injection Hl as <-. eapply merged_field_requested; eassumption.
Qed.


Section Proposals.
Context `{Collaborators}.





End Proposals.



(** C7: the methods and events of the overlapping proposal. The key
    [eip155] is in both maps; the approval carries the optional entry alone
    and the required methods and event are gone. *)
Theorem C7_required_methods_dropped :
  let nss := approved_namespaces (address walletB) proposal_overlap in
  In (ClientApprove 3 nss)
     (emitted (@Cli.on_session_proposal demo entryB proposal_overlap (unlocked [Pick 0])))
  /\ nss !! "eip155"
     = Some (mkApproved ["eip155:56:0xBBbbbbbbbbbbbbbbbbbbbbbbbbbbbbbbbbbbbbbbbb"]
                        ["eth_signTypedData"] [])
  /\ listed methods (requiredNamespaces proposal_overlap) "eip155"
     = ["eth_sendTransaction"; "personal_sign"]
  /\ listed events (requiredNamespaces proposal_overlap) "eip155" = ["chainChanged"].
Proof.
  vm_compute. repeat split. right; right; right; left. reflexivity.
Qed.

(** ** Unlocking *)

Lemma set_wallets_same (st : State) : set_wallets st (DECRYPTED_WALLETS st ++ []) = st.
Proof. destruct st. unfold set_wallets. simpl. rewrite app_nil_r. reflexivity. Qed.

Lemma set_wallets_twice (st : State) (ws ws' : list Entry) :
  set_wallets (set_wallets st ws) ws' = set_wallets st ws'.
Proof. reflexivity. Qed.

Section Unlock.
Context `{Collaborators}.

Lemma decrypt_opens (legacy : bool) (w : RawWallet) (password : string) (st : State) :
  (legacy = true -> has_privateKey w = false) ->
  match opens_record legacy w password with
  | Some e => Core.decrypt w password st = mkResult (Done (wallet e)) [] st
              /\ e = mkEntry (rw_name w) (wallet e)
  | None => exists msg, Core.decrypt w password st = mkResult (Threw msg) [] st
  end.
Proof.
  intros Hleg. unfold opens_record, Core.decrypt.
  destruct (legacy && has_privateKey w) eqn:Hl.
  - apply andb_true_iff in Hl. destruct Hl as [-> Hp].
    rewrite Hleg in Hp; [discriminate|reflexivity].
  - destruct (rw_data w) as [json|]; [|eexists; reflexivity].
    destruct (fromEncryptedJson json password) as [wal|]; simpl.
    + split; reflexivity.
    + eexists; reflexivity.
Qed.

(** The loop of [core.js] leaves in memory what the password opened before
    the first record it could not open. *)
Lemma unlock_loop_run (rawWallets : list RawWallet) (password : string) (st : State) :
  exists o,
    Core.unlock_loop rawWallets password st
    = mkResult o [] (set_wallets st (DECRYPTED_WALLETS st
                                     ++ fst (opened_prefix true rawWallets password)))
    /\ (snd (opened_prefix true rawWallets password) = true -> o = Done tt)
    /\ (snd (opened_prefix true rawWallets password) = false -> exists msg, o = Threw msg).
Proof.
  revert st. induction rawWallets as [|w rest IH]; intros st.
  - exists (Done tt). simpl. rewrite set_wallets_same. repeat split. discriminate.
  - simpl Core.unlock_loop. simpl opened_prefix.
    destruct (has_privateKey w) eqn:Hp.
    + unfold opens_record. rewrite Hp. simpl. rewrite set_wallets_same.
      eexists. split; [reflexivity|]. split; [discriminate|]. eauto.
    + rewrite run_mret_bind.
      pose proof (decrypt_opens true w password st (fun _ => Hp)) as Hd.
      destruct (opens_record true w password) as [e|].
      * destruct Hd as [Hd He]. rewrite run_bind. unfold bind at 1. rewrite Hd.
        rewrite after_nil. unfold push_wallet.
        rewrite run_bind_assoc, run_get_bind, run_put_bind.
        destruct (IH (set_wallets st (DECRYPTED_WALLETS st ++ [mkEntry (rw_name w) (wallet e)])))
          as (o & Hrun & Hok & Hko).
        rewrite Hrun. exists o.
        destruct (opened_prefix true rest password) as [es complete]. simpl in *.
        rewrite <- He. rewrite <- app_assoc. simpl. auto.
      * destruct Hd as [msg Hd]. rewrite run_bind. unfold bind at 1. rewrite Hd.
        simpl. rewrite set_wallets_same. eexists. split; [reflexivity|].
        split; [discriminate|]. eauto.
Qed.

(** The loop of [cli.js] is the same without the check for plain records. *)
Lemma decrypt_all_run (rawWallets : list RawWallet) (password : string) (st : State) :
  exists o,
    Vault.decrypt_all rawWallets password st
    = mkResult o [] (set_wallets st (DECRYPTED_WALLETS st
                                     ++ fst (opened_prefix false rawWallets password)))
    /\ (snd (opened_prefix false rawWallets password) = true -> o = Done tt)
    /\ (snd (opened_prefix false rawWallets password) = false -> exists msg, o = Threw msg).
Proof.
  revert st. induction rawWallets as [|w rest IH]; intros st.
  - exists (Done tt). simpl. rewrite set_wallets_same. repeat split. discriminate.
  - simpl Vault.decrypt_all. simpl opened_prefix.
    pose proof (decrypt_opens false w password st ltac:(discriminate)) as Hd.
    destruct (opens_record false w password) as [e|].
    + destruct Hd as [Hd He]. rewrite run_bind. unfold bind at 1. rewrite Hd.
      rewrite after_nil. unfold push_wallet.
      rewrite run_bind_assoc, run_get_bind, run_put_bind.
      destruct (IH (set_wallets st (DECRYPTED_WALLETS st ++ [mkEntry (rw_name w) (wallet e)])))
        as (o & Hrun & Hok & Hko).
      rewrite Hrun. exists o.
      destruct (opened_prefix false rest password) as [es complete]. simpl in *.
      rewrite <- He. rewrite <- app_assoc. simpl. auto.
    + destruct Hd as [msg Hd]. rewrite run_bind. unfold bind at 1. rewrite Hd.
      simpl. rewrite set_wallets_same. eexists. split; [reflexivity|].
      split; [discriminate|]. eauto.
Qed.

(** What a password opens in a set whose first failing record is [bad]. *)
Lemma opened_prefix_split (legacy : bool) (good rest : list RawWallet) (bad : RawWallet)
    (password : string) (es : list Entry) :
  Forall2 (fun w e => opens_record legacy w password = Some e) good es ->
  opens_record legacy bad password = None ->
  opened_prefix legacy (good ++ bad :: rest) password = (es, false).
Proof.
  intros Hgood Hbad. induction Hgood as [|w e good es Hw _ IH]; simpl.
  - rewrite Hbad. reflexivity.
  - rewrite Hw, IH. reflexivity.
Qed.

Lemma opened_prefix_all (legacy : bool) (rawWallets : list RawWallet)
    (password : string) (es : list Entry) :
  Forall2 (fun w e => opens_record legacy w password = Some e) rawWallets es ->
  opened_prefix legacy rawWallets password = (es, true).
Proof.
  intros Hall. induction Hall as [|w e ws es Hw _ IH]; simpl.
  - reflexivity.
  - rewrite Hw, IH. reflexivity.
Qed.

Lemma unlockWallets_run (password : string) (st : State) (rawWallets : list RawWallet) :
  WALLETS_FILE st = Some rawWallets ->
  let r := Core.unlockWallets password st in
  let opened := opened_prefix true rawWallets password in
  DECRYPTED_WALLETS (final r) = fst opened
  /\ (snd opened = true -> outcome r = Done (fst opened))
  /\ (snd opened = false -> exists msg, outcome r = Threw msg).
Proof.
  intros Hf r opened. subst r opened. unfold Core.unlockWallets.
  rewrite run_get_bind, Hf, run_put_bind.
  destruct (unlock_loop_run rawWallets password (set_wallets st [])) as (o & Hrun & Hok & Hko).
  rewrite run_bind. unfold bind. rewrite Hrun.
  destruct (snd (opened_prefix true rawWallets password)) eqn:Hc.
  - rewrite (Hok eq_refl). rewrite after_nil, run_get_bind. simpl.
    split; [reflexivity|]. split; [reflexivity|discriminate].
  - destruct (Hko eq_refl) as [msg ->]. simpl. split; [reflexivity|].
    split; [discriminate|]. eauto.
Qed.

(** One attempt of [initializeWallets], from a state without a session
    password and with [password] typed next. *)
Lemma attempt_run (rawWallets : list RawWallet) (password : string) (st : State)
    (rest : list input) :
  SESSION_PASSWORD st = None -> stdin st = Line password :: rest ->
  let opened := opened_prefix false rawWallets password in
  Vault.attempt rawWallets st
  = if snd opened
    then mkResult (Done true)
           [Entered Vault.password_message password; Logged "Successfully unlocked wallets."]
           (set_wallets (set_password (set_stdin st rest) (Some password)) (fst opened))
    else mkResult (Done false)
           [Entered Vault.password_message password; Logged "Wrong password."]
           (set_password (set_wallets (set_stdin st rest) (fst opened)) None).
Proof.
  intros Hpw Hin opened. subst opened. unfold Vault.attempt, Vault.getPassword.
  rewrite run_bind_assoc, run_get_bind, Hpw. unfold Vault.ask_password.
  rewrite !run_bind_assoc. rewrite (run_line_bind _ _ _ _ _ Hin).
  rewrite !run_bind_assoc, run_get_bind, !run_bind_assoc, run_put_bind, run_mret_bind.
  unfold try_catch. rewrite run_get_bind, run_put_bind.
  destruct (decrypt_all_run rawWallets password
              (set_wallets (set_password (set_stdin st rest) (Some password)) []))
    as (o & Hrun & Hok & Hko).
  rewrite run_bind. unfold bind at 1. rewrite Hrun.
  destruct (snd (opened_prefix false rawWallets password)) eqn:Hc.
  - rewrite (Hok eq_refl). reflexivity.
  - destruct (Hko eq_refl) as [msg ->]. reflexivity.
Qed.

End Unlock.

Section C2.
Context `{Collaborators}.

Lemma opens_record_no_legacy (w : RawWallet) (password : string) (e : Entry) :
  opens_record true w password = Some e -> opens_record false w password = Some e.
Proof.
  unfold opens_record. simpl. destruct (has_privateKey w); [discriminate|]. auto.
Qed.

(** C2 (as amended): unlock is all-or-nothing in what it returns, not in
    what it leaves in memory. When a record of the active set fails to
    decrypt under the password, [unlockWallets] throws, and the failed
    attempt of [initializeWallets] is counted as wrong, but
    [DECRYPTED_WALLETS] holds the records that precede the first failing
    one: it is empty exactly when the first record is the one that fails. *)
Theorem C2_unlock_keeps_opened_prefix (password : string) (st : State)
    (good rest : list RawWallet) (bad : RawWallet) (es : list Entry)
    (typed : list input) :
  WALLETS_FILE st = Some (good ++ bad :: rest) ->
  Forall2 (fun w e => opens_record true w password = Some e) good es ->
  opens_record true bad password = None ->
  let r := Core.unlockWallets password st in
  (exists msg, outcome r = Threw msg)
  /\ DECRYPTED_WALLETS (final r) = es
  /\ (DECRYPTED_WALLETS (final r) = [] <-> good = [])
  /\ (SESSION_PASSWORD st = None -> stdin st = Line password :: typed ->
      opens_record false bad password = None ->
      outcome (Vault.attempt (good ++ bad :: rest) st) = Done false
      /\ DECRYPTED_WALLETS (final (Vault.attempt (good ++ bad :: rest) st)) = es).
Proof.
  intros Hf Hgood Hbad r.
  destruct (unlockWallets_run password st _ Hf) as (Hring & _ & Hthrow).
  fold r in Hring, Hthrow.
  rewrite (opened_prefix_split true good rest bad password es Hgood Hbad) in Hring, Hthrow.
  simpl in Hring, Hthrow.
  split; [auto|]. split; [assumption|]. split.
  - rewrite Hring. split; intros ->.
    + inversion Hgood. reflexivity.
    + inversion Hgood. reflexivity.
  - intros Hpw Hin Hbad'.
    rewrite (attempt_run _ password st typed Hpw Hin).
    rewrite (opened_prefix_split false good rest bad password es); [|
      |assumption].
    + simpl. auto.
    + eapply Forall2_impl; [exact Hgood|]. intros w e. apply opens_record_no_legacy.
Qed.

End C2.

(** Witness of C2: [A] opens under [p1], the record after it does not. *)
Lemma C2_unlock_keeps_opened_prefix_witness :
  WALLETS_FILE (boot (Some [rawA; rawB]) None []) = Some ([rawA] ++ rawB :: [])
  /\ Forall2 (fun w e => @opens_record demo true w "p1" = Some e) [rawA] [entryA]
  /\ @opens_record demo true rawB "p1" = None
  /\ DECRYPTED_WALLETS (final (@Core.unlockWallets demo "p1" (boot (Some [rawA; rawB]) None [])))
     = [entryA].
Proof.
  assert (Forall2 (fun w e => @opens_record demo true w "p1" = Some e) [rawA] [entryA]) as Hgood.
  { repeat constructor. }
  split; [reflexivity|]. split; [exact Hgood|]. split; [reflexivity|].
  exact (proj1 (proj2 (@C2_unlock_keeps_opened_prefix demo "p1"
                         (boot (Some [rawA; rawB]) None []) [rawA] [] rawB [entryA] []
                         eq_refl Hgood eq_refl))).
Defined.

(** C2 (as stated) fails: with [A] under [p1] followed by a record under
    another password, unlocking with [p1] throws and leaves [A] in
    [DECRYPTED_WALLETS]. *)
Lemma C2_partial_key_ring :
  let r := @Core.unlockWallets demo "p1" (boot (Some [rawA; rawB]) None []) in
  @opens_record demo true rawB "p1" = None
  /\ outcome r = Threw "incorrect password"
  /\ DECRYPTED_WALLETS (final r) = [entryA]
  /\ DECRYPTED_WALLETS (final r) <> [].
Proof. vm_compute. repeat split. discriminate. Qed.

Section C8.
Context `{Collaborators}.

Lemma attempt_loop_wrong (n : nat) (rawWallets : list RawWallet) (password : string)
    (st : State) (rest : list input) :
  SESSION_PASSWORD st = None -> stdin st = Line password :: rest ->
  snd (opened_prefix false rawWallets password) = false ->
  Vault.attempt_loop (S n) rawWallets st
  = after [Entered Vault.password_message password; Logged "Wrong password."]
      (Vault.attempt_loop n rawWallets
         (set_password (set_wallets (set_stdin st rest)
                          (fst (opened_prefix false rawWallets password))) None)).
Proof.
  intros Hpw Hin Hw. simpl Vault.attempt_loop.
  rewrite run_bind. unfold bind. rewrite (attempt_run _ password st rest Hpw Hin), Hw.
  reflexivity.
Qed.

Lemma attempt_loop_right (n : nat) (rawWallets : list RawWallet) (password : string)
    (st : State) (rest : list input) :
  SESSION_PASSWORD st = None -> stdin st = Line password :: rest ->
  snd (opened_prefix false rawWallets password) = true ->
  Vault.attempt_loop (S n) rawWallets st
  = mkResult (Done (S n))
      [Entered Vault.password_message password; Logged "Successfully unlocked wallets."]
      (set_wallets (set_password (set_stdin st rest) (Some password))
                   (fst (opened_prefix false rawWallets password))).
Proof.
  intros Hpw Hin Hr. simpl Vault.attempt_loop.
  rewrite run_bind. unfold bind. rewrite (attempt_run _ password st rest Hpw Hin), Hr.
  reflexivity.
Qed.

Lemma initializeWallets_encrypted (st : State) (first : RawWallet) (others : list RawWallet) :
  WALLETS_FILE st = Some (first :: others) -> has_privateKey first = false ->
  Vault.initializeWallets st
  = after [Logged "Wallets are encrypted."]
      ((attempts ← Vault.attempt_loop Vault.ATTEMPTS (first :: others);
        match attempts with
        | 0 => emit (Logged "Too many failed attempts. Exiting.");; exit 1
        | _ => mret tt
        end) st).
Proof.
  intros Hf Hp. unfold Vault.initializeWallets, Vault.loadWalletsRaw.
  rewrite run_bind_assoc, run_get_bind, run_mret_bind, Hf.
  change (default [] (Some (first :: others))) with (first :: others).
  cbv beta iota. rewrite Hp. rewrite run_emit_bind. reflexivity.
Qed.

(** C8: the retry budget of [initializeWallets] is three. From a vault of
    encrypted records and no session password, a wrong password is followed
    by a new prompt as long as fewer than three have been tried, a right one
    ends the loop with the vault unlocked, and after the third wrong password
    in a row the process exits with code 1 without reading further input. *)
Theorem C8_three_attempts (st : State) (first : RawWallet) (others : list RawWallet)
    (p1 p2 p3 : string) (rest : list input) :
  WALLETS_FILE st = Some (first :: others) ->
  has_privateKey first = false ->
  SESSION_PASSWORD st = None ->
  stdin st = Line p1 :: Line p2 :: Line p3 :: rest ->
  let opened p := opened_prefix false (first :: others) p in
  let r := Vault.initializeWallets st in
  let ask p := Entered Vault.password_message p in
  (snd (opened p1) = true ->
     outcome r = Done tt /\ DECRYPTED_WALLETS (final r) = fst (opened p1)
     /\ stdin (final r) = Line p2 :: Line p3 :: rest)
  /\ (snd (opened p1) = false -> snd (opened p2) = true ->
     outcome r = Done tt /\ DECRYPTED_WALLETS (final r) = fst (opened p2)
     /\ stdin (final r) = Line p3 :: rest)
  /\ (snd (opened p1) = false -> snd (opened p2) = false -> snd (opened p3) = true ->
     outcome r = Done tt /\ DECRYPTED_WALLETS (final r) = fst (opened p3)
     /\ stdin (final r) = rest)
  /\ (snd (opened p1) = false -> snd (opened p2) = false -> snd (opened p3) = false ->
     outcome r = Exited 1 /\ stdin (final r) = rest
     /\ emitted r = [Logged "Wallets are encrypted.";
                     ask p1; Logged "Wrong password.";
                     ask p2; Logged "Wrong password.";
                     ask p3; Logged "Wrong password.";
                     Logged "Too many failed attempts. Exiting."]).
Proof.
  intros Hf Hp Hpw Hin opened r ask. subst r.
  rewrite (initializeWallets_encrypted st first others Hf Hp).
  rewrite outcome_after, final_after, emitted_after.
  rewrite run_bind. unfold bind, Vault.ATTEMPTS.
  split; [|split; [|split]].
  - intros H1. rewrite (attempt_loop_right _ _ p1 st _ Hpw Hin H1). simpl. auto.
  - intros H1 H2. rewrite (attempt_loop_wrong _ _ p1 st _ Hpw Hin H1).
    rewrite (attempt_loop_right _ _ p2 _ (Line p3 :: rest)); [|reflexivity|reflexivity|exact H2].
    simpl. auto.
  - intros H1 H2 H3. rewrite (attempt_loop_wrong _ _ p1 st _ Hpw Hin H1).
    rewrite (attempt_loop_wrong _ _ p2 _ (Line p3 :: rest)); [|reflexivity|reflexivity|exact H2].
    rewrite (attempt_loop_right _ _ p3 _ rest); [|reflexivity|reflexivity|exact H3].
    simpl. auto.
  - intros H1 H2 H3. rewrite (attempt_loop_wrong _ _ p1 st _ Hpw Hin H1).
    rewrite (attempt_loop_wrong _ _ p2 _ (Line p3 :: rest)); [|reflexivity|reflexivity|exact H2].
    rewrite (attempt_loop_wrong _ _ p3 _ rest); [|reflexivity|reflexivity|exact H3].
    simpl. auto.
Qed.

End C8.

(** Witness of C8: the scenario of the specification, [A] under [p1] and
    the password [p2] typed three times. *)
Lemma C8_three_attempts_witness :
  WALLETS_FILE (boot (Some [rawA]) None [Line "p2"; Line "p2"; Line "p2"; Line "p1"])
  = Some [rawA]
  /\ has_privateKey rawA = false
  /\ snd (@opened_prefix demo false [rawA] "p2") = false
  /\ outcome (@Vault.initializeWallets demo
                (boot (Some [rawA]) None [Line "p2"; Line "p2"; Line "p2"; Line "p1"]))
     = Exited 1
  /\ stdin (final (@Vault.initializeWallets demo
                     (boot (Some [rawA]) None [Line "p2"; Line "p2"; Line "p2"; Line "p1"])))
     = [Line "p1"].
Proof.
  split; [reflexivity|]. split; [reflexivity|]. split; [reflexivity|]. split.
  - exact (proj1 (proj2 (proj2 (proj2
            (@C8_three_attempts demo
               (boot (Some [rawA]) None [Line "p2"; Line "p2"; Line "p2"; Line "p1"])
               rawA [] "p2" "p2" "p2" [Line "p1"] eq_refl eq_refl eq_refl eq_refl)))
            eq_refl eq_refl eq_refl)).
  - exact (proj1 (proj2 (proj2 (proj2 (proj2
            (@C8_three_attempts demo
               (boot (Some [rawA]) None [Line "p2"; Line "p2"; Line "p2"; Line "p1"])
               rawA [] "p2" "p2" "p2" [Line "p1"] eq_refl eq_refl eq_refl eq_refl)))
            eq_refl eq_refl eq_refl))).
Defined.

(** ** Restoring from the trash *)

Lemma restore_choices_lookup (trash : list RawWallet) (i : nat) (w : RawWallet) :
  trash !! i = Some w ->
  Vault.restore_choices trash !! i = Some (rw_name w, Vault.RestoreIdx i).
Proof.
  intros Hw. unfold Vault.restore_choices.
  rewrite lookup_app_l.
  - rewrite list_lookup_imap, Hw. reflexivity.
  - rewrite length_imap. eapply lookup_lt_Some. eassumption.
Qed.

Section Restore.
Context `{Collaborators}.

Lemma keeps_ret {A} (a : A) : keeps_files (mret a).
Proof. intros st. split; reflexivity. Qed.

Lemma keeps_throw {A} (msg : string) : keeps_files (@throw A msg).
Proof. intros st. split; reflexivity. Qed.

Lemma keeps_emit (e : event) : keeps_files (emit e).
Proof. intros st. split; reflexivity. Qed.

Lemma keeps_lift_option {A} (o : option A) (msg : string) : keeps_files (lift_option o msg).
Proof. intros st. destruct o; split; reflexivity. Qed.

Lemma keeps_input_line (message : string) : keeps_files (input_line message).
Proof.
  intros st. unfold input_line. destruct (stdin st) as [|[n|s] rest]; split; reflexivity.
Qed.

Lemma keeps_bind {A B} (m : M A) (k : A -> M B) :
  keeps_files m -> (forall a, keeps_files (k a)) -> keeps_files (m ≫= k).
Proof.
  intros Hm Hk st. rewrite run_bind. unfold bind. specialize (Hm st).
  destruct (m st) as [[a|msg|c|] evs st']; simpl in *; try assumption.
  rewrite final_after. destruct (Hk a st') as [Hw Ht]. rewrite Hw, Ht. assumption.
Qed.

Lemma keeps_try_catch {A} (body : M A) (handler : string -> M A) :
  keeps_files body -> (forall msg, keeps_files (handler msg)) ->
  keeps_files (try_catch body handler).
Proof.
  intros Hb Hh st. unfold try_catch. specialize (Hb st).
  destruct (body st) as [[a|msg|c|] evs st']; simpl in *; try assumption.
  rewrite final_after. destruct (Hh msg st') as [Hw Ht]. rewrite Hw, Ht. assumption.
Qed.

(** [st ← get; put (f st)] for an update [f] of the variables in memory. *)
Lemma keeps_update (f : State -> State) :
  (forall st, WALLETS_FILE (f st) = WALLETS_FILE st /\ TRASH_FILE (f st) = TRASH_FILE st) ->
  keeps_files (st ← get; put (f st)).
Proof. intros Hf st. rewrite run_get_bind. simpl. apply Hf. Qed.

Lemma keeps_getPassword : keeps_files (Vault.getPassword false).
Proof.
  assert (keeps_files (Vault.ask_password false)) as Hask.
  { unfold Vault.ask_password. apply keeps_bind; [apply keeps_input_line|].
    intros password st. rewrite run_get_bind, run_put_bind. split; reflexivity. }
  intros st. unfold Vault.getPassword. rewrite run_get_bind.
  destruct (SESSION_PASSWORD st) as [p|]; [destruct (truthy p)|]; try apply Hask.
  split; reflexivity.
Qed.

(** Unlocking the restored record does not touch the two files. *)
Lemma unlock_restored_files (restored : RawWallet) :
  keeps_files (Vault.unlock_restored restored).
Proof.
  unfold Vault.unlock_restored.
  apply keeps_bind; [apply keeps_getPassword|]. intros password.
  apply keeps_bind; [|intros; apply keeps_emit].
  apply keeps_try_catch; [|intros; apply keeps_emit].
  apply keeps_bind.
  - unfold Core.decrypt. destruct (rw_data restored); [apply keeps_lift_option|apply keeps_throw].
  - intros wallet. apply keeps_bind; [|intros; apply keeps_emit].
    unfold push_wallet. apply keeps_update. intros st. split; reflexivity.
Qed.

(** One call of [restoreWallet] either leaves both files as they are or
    moves one entry of the trash to the end of the active records. *)
Lemma restoreWallet_files (st : State) (trash active : list RawWallet) :
  TRASH_FILE st = Some trash -> WALLETS_FILE st = Some active ->
  let st' := final (Vault.restoreWallet st) in
  (TRASH_FILE st' = Some trash /\ WALLETS_FILE st' = Some active)
  \/ exists j r, trash !! j = Some r
                 /\ TRASH_FILE st' = Some (delete j trash)
                 /\ WALLETS_FILE st' = Some (active ++ [r]).
Proof.
  intros Ht Ha st'. subst st'. unfold Vault.restoreWallet.
  rewrite run_get_bind, Ht.
  destruct trash as [|t0 ts]; [left; simpl; auto|].
  rewrite run_bind. unfold bind, rawlist.
  destruct (stdin st) as [|[n|s] ins]; [left; simpl; auto| |left; simpl; auto].
  destruct (Vault.restore_choices (t0 :: ts) !! n) as [[label [idx|]]|];
    [|left; simpl; auto|left; simpl; auto].
  rewrite final_after.
  destruct ((t0 :: ts) !! idx) as [r|] eqn:Hidx; [|left; simpl; auto].
  rewrite run_lift_some, run_get_bind, run_put_bind, run_get_bind.
  change (WALLETS_FILE (set_trash_file (set_stdin st ins) (Some (delete idx (t0 :: ts)))))
    with (WALLETS_FILE st).
  rewrite Ha, run_lift_some, run_put_bind.
  right. exists idx, r. split; [assumption|].
  destruct (unlock_restored_files r
              (set_wallets_file (set_trash_file (set_stdin st ins)
                                   (Some (delete idx (t0 :: ts))))
                                (Some (active ++ [r])))) as [Hw Htr].
  rewrite Hw, Htr. simpl. auto.
Qed.

Lemma restoreWallet_moves (st : State) (trash active : list RawWallet) (i : nat)
    (restored : RawWallet) (ins : list input) :
  TRASH_FILE st = Some trash -> WALLETS_FILE st = Some active ->
  trash !! i = Some restored -> stdin st = Pick i :: ins ->
  TRASH_FILE (final (Vault.restoreWallet st)) = Some (delete i trash)
  /\ WALLETS_FILE (final (Vault.restoreWallet st)) = Some (active ++ [restored]).
Proof.
  intros Ht Ha Hi Hin. unfold Vault.restoreWallet.
  rewrite run_get_bind, Ht.
  destruct trash as [|t0 ts]; [discriminate|].
  rewrite (run_pick_bind _ _ _ _ i ins _ _ Hin (restore_choices_lookup _ _ _ Hi)).
  rewrite final_after. rewrite Hi.
  rewrite run_lift_some, run_get_bind, run_put_bind, run_get_bind.
  change (WALLETS_FILE (set_trash_file (set_stdin st ins) (Some (delete i (t0 :: ts)))))
    with (WALLETS_FILE st).
  rewrite Ha, run_lift_some, run_put_bind.
  destruct (unlock_restored_files restored
              (set_wallets_file (set_trash_file (set_stdin st ins)
                                   (Some (delete i (t0 :: ts))))
                                (Some (active ++ [restored])))) as [Hw Htr].
  rewrite Hw, Htr. simpl. auto.
Qed.

(** C9: the first restore of a trash entry takes it out of the trash list
    and appends it to the active records; whatever is answered at a second
    restore, the records of both files together are the same records as
    before, none copied, so a record that occurred once is in the active set
    once and no longer in the trash. *)
Theorem C9_restore_does_not_duplicate (st : State) (trash active : list RawWallet)
    (i : nat) (restored : RawWallet) (ins answers : list input) :
  TRASH_FILE st = Some trash ->
  WALLETS_FILE st = Some active ->
  trash !! i = Some restored ->
  stdin st = Pick i :: ins ->
  let st1 := final (Vault.restoreWallet st) in
  let st2 := final (Vault.restoreWallet (set_stdin st1 answers)) in
  TRASH_FILE st1 = Some (delete i trash)
  /\ WALLETS_FILE st1 = Some (active ++ [restored])
  /\ exists trash2 active2,
       TRASH_FILE st2 = Some trash2 /\ WALLETS_FILE st2 = Some active2
       /\ Permutation (trash2 ++ active2) (trash ++ active)
       /\ In restored active2
       /\ (NoDup (trash ++ active) -> NoDup active2 /\ ~ In restored trash2).
Proof.
  intros Ht Ha Hi Hin st1 st2.
  destruct (restoreWallet_moves st trash active i restored ins Ht Ha Hi Hin) as [Ht1 Ha1].
  fold st1 in Ht1, Ha1. split; [assumption|]. split; [assumption|].
  assert (Permutation (delete i trash ++ active ++ [restored]) (trash ++ active)) as Hperm1.
  { rewrite (delete_Permutation trash i restored Hi) at 2.
    rewrite app_assoc. rewrite <- Permutation_cons_append. reflexivity. }
  destruct (restoreWallet_files (set_stdin st1 answers) (delete i trash) (active ++ [restored]))
    as [[Ht2 Ha2]|(j & r & Hj & Ht2 & Ha2)]; [exact Ht1|exact Ha1| |]; fold st2 in Ht2, Ha2.
  - exists (delete i trash), (active ++ [restored]).
    split; [assumption|]. split; [assumption|]. split; [assumption|].
    split; [apply in_or_app; right; left; reflexivity|].
    intros Hnd. rewrite <- Hperm1 in Hnd. apply NoDup_app in Hnd.
    destruct Hnd as (_ & Hdis & Hnd). split; [assumption|].
    intros Hin'. apply list_elem_of_In in Hin'. apply (Hdis _ Hin').
    apply list_elem_of_In, in_or_app. right; left; reflexivity.
  - exists (delete j (delete i trash)), ((active ++ [restored]) ++ [r]).
    split; [assumption|]. split; [assumption|].
    assert (Permutation (delete j (delete i trash) ++ (active ++ [restored]) ++ [r])
                        (trash ++ active)) as Hperm2.
    { rewrite <- Hperm1. rewrite (delete_Permutation (delete i trash) j r Hj) at 2.
      rewrite app_assoc. rewrite <- Permutation_cons_append. reflexivity. }
    split; [assumption|].
    split; [apply in_or_app; left; apply in_or_app; right; left; reflexivity|].
    intros Hnd. rewrite <- Hperm2 in Hnd. apply NoDup_app in Hnd.
    destruct Hnd as (_ & Hdis & Hnd). split; [assumption|].
    intros Hin'. apply list_elem_of_In in Hin'. apply (Hdis _ Hin').
    apply list_elem_of_In, in_or_app. left. apply in_or_app. right; left; reflexivity.
Qed.

End Restore.

(** Witness of C9: [Main] restored from a trash of two, then the same
    choice made again. *)
Lemma C9_restore_does_not_duplicate_witness :
  let st := mkState [Pick 0; Line "p1"] [] None (Some [rawB]) (Some [rawA; rawB])
                    "ethereum" "0" [] in
  TRASH_FILE st = Some [rawA; rawB]
  /\ WALLETS_FILE st = Some [rawB]
  /\ [rawA; rawB] !! 0 = Some rawA
  /\ WALLETS_FILE (final (@Vault.restoreWallet demo st)) = Some ([rawB] ++ [rawA]).
Proof.
  intros st. split; [reflexivity|]. split; [reflexivity|]. split; [reflexivity|].
  exact (proj1 (proj2 (@C9_restore_does_not_duplicate demo st [rawA; rawB] [rawB] 0 rawA
                         [Line "p1"] [Pick 0] eq_refl eq_refl eq_refl eq_refl))).
Defined.

(** ** Local transfers and swaps *)







Section Funds.
Context `{Collaborators}.









End Funds.

(** ** Confirmations before what is done for a peer *)



Section Gates.
Context `{Collaborators}.










End Gates.



(** * Further properties of the session handlers *)

Section Unsupported.
Context `{Collaborators}.

Lemma dispatch_unsupported (signer : Wallet) (req : Request) :
  method req <> "personal_sign" ->
  String.prefix "eth_signTypedData" (method req) = false ->
  method req <> "eth_sendTransaction" ->
  Cli.dispatch signer req = mret None.
Proof.
  intros Hp Ht Hs. unfold Cli.dispatch.
  apply String.eqb_neq in Hp. apply String.eqb_neq in Hs. rewrite Hp, Ht, Hs. reflexivity.
Qed.

(** X1: a request whose method is none of [personal_sign],
    [eth_signTypedData*] and [eth_sendTransaction] is, once approved by the
    user, left without any answer by the CLI handler: nothing is signed,
    nothing more is logged and [client.respond] is not called.  The headless
    handler answers the same request with the error [{code: 5000, message:
    "Method <m> not supported"}]. *)
Theorem unsupported_method_unanswered (signer wallet : Wallet) (ev : RequestEvent)
    (st : State) (rest : list input) :
  method (request ev) <> "personal_sign" ->
  String.prefix "eth_signTypedData" (method (request ev)) = false ->
  method (request ev) <> "eth_sendTransaction" ->
  stdin st = Pick 0 :: rest ->
  Cli.on_session_request signer ev st
  = mkResult (Done tt)
      [Logged ("New Request: " +:+ method (request ev));
       confirmation (Cli.approve_message ev)] (set_stdin st rest)
  /\ responses (emitted (Headless.on_session_request wallet ev st))
     = [(topic ev, RespError (request_id ev) 5000
                     ("Method " +:+ method (request ev) +:+ " not supported"))].
Proof.
  intros Hp Ht Hs Hin. split.
  - unfold Cli.on_session_request.
    rewrite run_emit_bind, (run_yes_bind _ _ _ _ Hin), after_after.
    change (String.eqb "Yes" "No") with false. cbv iota.
    unfold Cli.execute. rewrite (dispatch_unsupported signer _ Hp Ht Hs).
    unfold try_catch. rewrite run_mret_bind. reflexivity.
  - unfold Headless.on_session_request, Headless.dispatch.
    apply String.eqb_neq in Hp. rewrite Hp.
    assert (String.eqb (method (request ev)) "eth_signTypedData" = false) as ->.
    { apply String.eqb_neq. intros Heq. rewrite Heq in Ht. discriminate. }
    assert (String.eqb (method (request ev)) "eth_signTypedData_v4" = false) as ->.
    { apply String.eqb_neq. intros Heq. rewrite Heq in Ht. discriminate. }
    cbv [orb]. rewrite run_emit_bind, emitted_after.
    unfold try_catch. rewrite run_throw_bind. rewrite emitted_after.
    rewrite run_emit_bind, run_emit_bind, after_after, emitted_after.
    simpl app. unfold responses. simpl omap.
    destruct (client_respond _ _); reflexivity.
Qed.

End Unsupported.

(** Witness of X1: an [eth_sign] request, approved. *)
Lemma unsupported_method_unanswered_witness :
  responses (emitted (@Cli.on_session_request demo walletB
                        (request_of hello_request "eth_sign" [JString "0x00"])
                        (unlocked [Pick 0]))) = [].
Proof.
  rewrite (proj1 (@unsupported_method_unanswered demo walletB walletB
                    (request_of hello_request "eth_sign" [JString "0x00"])
                    (unlocked [Pick 0]) []
                    ltac:(discriminate) eq_refl ltac:(discriminate) eq_refl)).
  reflexivity.
Defined.

Section NamedAccount.
Context `{Collaborators}.





End NamedAccount.


Section PersonalSign.
Context `{Collaborators}.

Lemma personal_sign_refused (signer : Wallet) (req : Request) (s : string) (st : State) :
  js_nth (params req) 0 = JString s -> isHexString (JString s) = true ->
  toUtf8String (JString s) = None ->
  exists msg, Cli.personal_sign signer req st = mkResult (Threw msg) [] st.
Proof.
  intros Hp Hx Hu. unfold Cli.personal_sign. rewrite Hp, Hx, Hu.
  destruct (getBytes (JString s)) as [bytes|].
  - rewrite run_fmap_bind, run_lift_some. eexists. reflexivity.
  - rewrite run_fmap_bind. eexists. reflexivity.
Qed.

Lemma headless_personal_sign_refused (wallet : Wallet) (req : Request) (s : string)
    (st : State) :
  js_nth (params req) 0 = JString s -> isHexString (JString s) = true ->
  toUtf8String (JString s) = None ->
  exists msg, Headless.personal_sign wallet req st = mkResult (Threw msg) [] st.
Proof.
  intros Hp Hx Hu. unfold Headless.personal_sign. rewrite Hp, Hx, Hu.
  destruct (getBytes (JString s)) as [bytes|].
  - rewrite run_fmap_bind, run_lift_some. eexists. reflexivity.
  - rewrite run_fmap_bind. eexists. reflexivity.
Qed.

(** X3: a [personal_sign] payload that is a hex string but that
    [toUtf8String] refuses (an odd number of digits, or bytes that are not
    UTF-8, such as a 32-byte hash) is never signed.  The CLI handler signs
    nothing and sends no response, whatever the user answers; after a Yes it
    only logs the error.  The headless handler answers with the error
    [{code: 5000, message}] and signs nothing. *)
Theorem unreadable_hex_never_signed (signer wallet : Wallet) (ev : RequestEvent)
    (st : State) (s : string) :
  method (request ev) = "personal_sign" ->
  js_nth (params (request ev)) 0 = JString s ->
  isHexString (JString s) = true ->
  toUtf8String (JString s) = None ->
  count_events executes (emitted (Cli.on_session_request signer ev st)) = 0
  /\ responses (emitted (Cli.on_session_request signer ev st)) = []
  /\ (forall rest, stdin st = Pick 0 :: rest ->
        exists msg,
          Cli.on_session_request signer ev st
          = mkResult (Done tt)
              [Logged "New Request: personal_sign";
               confirmation "Approve personal_sign request?";
               Logged ("Error signing: " +:+ msg)] (set_stdin st rest))
  /\ count_events executes (emitted (Headless.on_session_request wallet ev st)) = 0
  /\ exists msg,
       responses (emitted (Headless.on_session_request wallet ev st))
       = [(topic ev, RespError (request_id ev) 5000 msg)].
Proof.
  intros Hm Hp Hx Hu.
  assert (forall st', exists msg,
             Cli.execute signer ev st'
             = mkResult (Done tt) [Logged ("Error signing: " +:+ msg)] st') as Hexec.
  { intros st'. unfold Cli.execute, Cli.dispatch. rewrite Hm.
    change (String.eqb "personal_sign" "personal_sign") with true. cbv iota.
    destruct (personal_sign_refused signer (request ev) s st' Hp Hx Hu) as [msg Hrun].
    exists msg. unfold try_catch. rewrite run_bind. unfold bind. rewrite Hrun. reflexivity. }
  assert (exists msg,
             Headless.on_session_request wallet ev st
             = after [Logged ("Received Request: " +:+ method (request ev));
                      Logged ("Signing failed: " +:+ msg);
                      ClientRespond (topic ev) (RespError (request_id ev) 5000 msg)]
                 ((if client_respond (topic ev) (RespError (request_id ev) 5000 msg)
                   then mret tt else throw "respond failed") st)) as [hmsg Hhead].
  { unfold Headless.on_session_request, Headless.dispatch. rewrite Hm.
    change (String.eqb "personal_sign" "personal_sign") with true. cbv iota.
    destruct (headless_personal_sign_refused wallet (request ev) s st Hp Hx Hu) as [msg Hrun].
    exists msg. rewrite run_emit_bind. unfold try_catch.
    rewrite run_bind. unfold bind. rewrite Hrun.
    rewrite run_emit_bind, run_emit_bind, !after_after. reflexivity. }
  destruct (on_session_request_gate signer ev st)
    as [(rest & Hin & Hrun)|[(rest & Hin & Hrun)|Hrun]].
  - destruct (Hexec (set_stdin st rest)) as [msg Hmsg].
    rewrite Hrun, Hmsg. split; [reflexivity|]. split; [reflexivity|]. split.
    + intros rest' Hin'. rewrite Hin in Hin'. injection Hin' as <-.
      exists msg. unfold Cli.approve_message. rewrite Hm. reflexivity.
    + rewrite Hhead, emitted_after. split.
      * destruct (client_respond _ _); reflexivity.
      * exists hmsg. destruct (client_respond _ _); reflexivity.
  - rewrite Hrun. split; [reflexivity|]. split; [reflexivity|]. split.
    + intros rest' Hin'. rewrite Hin in Hin'. discriminate.
    + rewrite Hhead, emitted_after. split.
      * destruct (client_respond _ _); reflexivity.
      * exists hmsg. destruct (client_respond _ _); reflexivity.
  - rewrite Hrun. split; [reflexivity|]. split; [reflexivity|]. split.
    + intros rest' Hin'. exfalso. unfold Cli.on_session_request in Hrun.
      rewrite run_emit_bind, (run_yes_bind _ _ _ _ Hin') in Hrun.
      rewrite after_after in Hrun. apply (f_equal emitted) in Hrun.
      rewrite emitted_after in Hrun. discriminate.
    + rewrite Hhead, emitted_after. split.
      * destruct (client_respond _ _); reflexivity.
      * exists hmsg. destruct (client_respond _ _); reflexivity.
Qed.

(** X4: a [personal_sign] payload that is a string but not a hex string is
    signed as it stands: once the user picked Yes the handler logs
    [Signing: "<payload>"] and signs the text itself, and the signature
    returned, when not empty, is the result sent to the peer under the topic
    and id of the request. *)
Theorem text_payload_signed_verbatim (signer : Wallet) (ev : RequestEvent) (st : State)
    (s signature : string) (rest : list input) :
  method (request ev) = "personal_sign" ->
  js_nth (params (request ev)) 0 = JString s ->
  isHexString (JString s) = false ->
  signMessage signer (SignText s) = Some signature ->
  signature <> "" ->
  client_respond (topic ev) (RespResult (request_id ev) signature) = true ->
  stdin st = Pick 0 :: rest ->
  Cli.on_session_request signer ev st
  = mkResult (Done tt)
      [Logged "New Request: personal_sign";
       confirmation "Approve personal_sign request?";
       Logged (Cli.signing_line s);
       SignedMessage (address signer) (SignText s);
       ClientRespond (topic ev) (RespResult (request_id ev) signature);
       Logged "Signed & Sent!"] (set_stdin st rest).
Proof.
  intros Hm Hp Hx Hsig Hne Hresp Hin.
  unfold Cli.on_session_request, Cli.approve_message. rewrite Hm.
  rewrite run_emit_bind, (run_yes_bind _ _ _ _ Hin), after_after.
  change (String.eqb "Yes" "No") with false. cbv iota.
  unfold Cli.execute, Cli.dispatch. rewrite Hm.
  change (String.eqb "personal_sign" "personal_sign") with true. cbv iota.
  unfold try_catch, Cli.personal_sign. rewrite Hp, Hx. simpl Cli.sign_input. simpl js_to_string.
  rewrite run_bind_assoc, run_mret_bind.
  rewrite run_bind_assoc, run_mret_bind.
  rewrite run_bind_assoc, run_emit_bind.
  rewrite run_bind_assoc, run_emit_bind.
  rewrite run_fmap_bind, Hsig, run_lift_some.
  unfold Cli.respond_result.
  assert (truthy signature = true) as ->.
  { unfold truthy. apply negb_true_iff, String.eqb_neq. assumption. }
  rewrite run_emit_bind, Hresp, run_mret_bind. reflexivity.
Qed.

End PersonalSign.

(** Witness of X3: the one byte [0xff] is not UTF-8. *)
Lemma unreadable_hex_never_signed_witness :
  isHexString (JString "0xff") = true
  /\ toUtf8String (JString "0xff") = None
  /\ responses (emitted (@Cli.on_session_request demo walletB
                           (request_of hello_request "personal_sign" [JString "0xff"])
                           (unlocked [Pick 0]))) = [].
Proof.
  split; [reflexivity|]. split; [reflexivity|].
  exact (proj1 (proj2 (@unreadable_hex_never_signed demo walletB walletB
                         (request_of hello_request "personal_sign" [JString "0xff"])
                         (unlocked [Pick 0]) "0xff" eq_refl eq_refl eq_refl eq_refl))).
Defined.

(** Witness of X4: the text [Hello], not hex-encoded. *)
Lemma text_payload_signed_verbatim_witness :
  isHexString (JString "Hello") = false
  /\ In (SignedMessage (address walletB) (SignText "Hello"))
        (emitted (@Cli.on_session_request demo walletB
                    (request_of hello_request "personal_sign" [JString "Hello"])
                    (unlocked [Pick 0]))).
Proof.
  split; [reflexivity|].
  rewrite (@text_payload_signed_verbatim demo walletB
             (request_of hello_request "personal_sign" [JString "Hello"])
             (unlocked [Pick 0]) "Hello" ("signature by " +:+ address walletB) []
             eq_refl eq_refl eq_refl eq_refl ltac:(discriminate) eq_refl eq_refl).
  simpl. do 3 right. left. reflexivity.
Defined.

Section RefusedTransaction.
Context `{Collaborators}.

(** X5: an [eth_sendTransaction] request approved at the first question
    and refused at the second is neither broadcast nor answered: the handler
    logs [Transaction cancelled.] and returns, and the peer gets no response,
    not even an error.  A request that carries no transaction object is not
    asked about a second time: the handler logs the error and sends
    nothing. *)
Theorem refused_transaction_unanswered (signer : Wallet) (ev : RequestEvent) (st : State)
    (rest : list input) :
  method (request ev) = "eth_sendTransaction" ->
  (forall fields tx,
      js_nth (params (request ev)) 0 = JObject fields ->
      tx_of (JObject fields) = Some tx ->
      stdin st = Pick 0 :: Pick 1 :: rest ->
      Cli.on_session_request signer ev st
      = mkResult (Done tt)
          [Logged "New Request: eth_sendTransaction";
           confirmation "Approve eth_sendTransaction request?";
           Logged "Processing Transaction:";
           Picked (Cli.send_message tx) ["Yes"; "No"] "No";
           Logged "Transaction cancelled."] (set_stdin st rest))
  /\ (js_nth (params (request ev)) 0 = JUndefined ->
      stdin st = Pick 0 :: rest ->
      Cli.on_session_request signer ev st
      = mkResult (Done tt)
          [Logged "New Request: eth_sendTransaction";
           confirmation "Approve eth_sendTransaction request?";
           Logged "Processing Transaction:";
           Logged "Error signing: Cannot read properties of undefined"]
          (set_stdin st rest)).
Proof.
  intros Hm. split.
  - intros fields tx Hp Htx Hin.
    unfold Cli.on_session_request, Cli.approve_message. rewrite Hm.
    rewrite run_emit_bind, (run_yes_bind _ _ _ _ Hin), after_after.
    change (String.eqb "Yes" "No") with false. cbv iota.
    unfold Cli.execute, Cli.dispatch. rewrite Hm.
    change (String.eqb "eth_sendTransaction" "personal_sign") with false.
    change (String.prefix "eth_signTypedData" "eth_sendTransaction") with false.
    change (String.eqb "eth_sendTransaction" "eth_sendTransaction") with true.
    cbv iota. unfold try_catch, Cli.send_transaction. rewrite Hp.
    rewrite run_bind_assoc, run_emit_bind.
    unfold tx_of in Htx. cbn [js_get] in Htx |- *.
    injection Htx as <-.
    rewrite !run_bind_assoc, run_lift_some.
    rewrite !run_bind_assoc, run_lift_some.
    rewrite !run_bind_assoc, run_lift_some.
    rewrite !run_bind_assoc, run_lift_some.
    rewrite !run_bind_assoc.
    rewrite (run_no_bind _ _ (set_stdin st (Pick 1 :: rest)) rest eq_refl).
    change (String.eqb "No" "No") with true. cbv iota.
    rewrite run_bind_assoc, run_emit_bind, run_mret_bind. reflexivity.
  - intros Hp Hin.
    unfold Cli.on_session_request, Cli.approve_message. rewrite Hm.
    rewrite run_emit_bind, (run_yes_bind _ _ _ _ Hin), after_after.
    change (String.eqb "Yes" "No") with false. cbv iota.
    unfold Cli.execute, Cli.dispatch. rewrite Hm.
    change (String.eqb "eth_sendTransaction" "personal_sign") with false.
    change (String.prefix "eth_signTypedData" "eth_sendTransaction") with false.
    change (String.eqb "eth_sendTransaction" "eth_sendTransaction") with true.
    cbv iota. unfold try_catch, Cli.send_transaction. rewrite Hp.
    rewrite run_bind_assoc, run_emit_bind. reflexivity.
Qed.

End RefusedTransaction.

(** Witness of X5: the sample transaction, refused at the second
    question. *)
Lemma refused_transaction_unanswered_witness :
  responses (emitted (@Cli.on_session_request demo walletB send_request
                        (unlocked [Pick 0; Pick 1]))) = [].
Proof.
  rewrite (proj1 (@refused_transaction_unanswered demo walletB send_request
                    (unlocked [Pick 0; Pick 1]) [] eq_refl)
                 _ send_tx eq_refl eq_refl eq_refl).
  reflexivity.
Defined.

Section ApprovalKeys.
Context `{Collaborators}.


End ApprovalKeys.


(** * Wallet management *)

Lemma run_done_bind {A B} (m : M A) (k : A -> M B) (st st' : State) (a : A)
    (evs : list event) :
  m st = mkResult (Done a) evs st' -> (m ≫= k) st = after evs (k a st').
Proof. intros Hm. rewrite run_bind. unfold bind. rewrite Hm. reflexivity. Qed.

Lemma run_threw_bind {A B} (m : M A) (k : A -> M B) (st st' : State) (msg : string)
    (evs : list event) :
  m st = mkResult (Threw msg) evs st' -> (m ≫= k) st = mkResult (Threw msg) evs st'.
Proof. intros Hm. rewrite run_bind. unfold bind. rewrite Hm. reflexivity. Qed.

Lemma run_waiting_bind {A B} (m : M A) (k : A -> M B) (st st' : State)
    (evs : list event) :
  m st = mkResult Waiting evs st' -> (m ≫= k) st = mkResult Waiting evs st'.
Proof. intros Hm. rewrite run_bind. unfold bind. rewrite Hm. reflexivity. Qed.

(** [findIndex] gives [-1] when nothing matches and otherwise the first
    index that does. *)
Lemma findIndex_cases {A} (f : A -> bool) (l : list A) :
  (findIndex f l = (-1)%Z /\ Forall (fun x => f x = false) l)
  \/ (exists i x, findIndex f l = Z.of_nat i /\ l !! i = Some x /\ f x = true
                  /\ forall j y, j < i -> l !! j = Some y -> f y = false).
Proof.
  induction l as [|a l IH]; simpl.
  - left. split; [reflexivity|constructor].
  - destruct (f a) eqn:Ha.
    + right. exists 0, a. repeat split; auto. intros j y Hj. lia.
    + destruct IH as [[-> Hall]|(i & x & -> & Hx & Hfx & Hbefore)].
      * left. split; [reflexivity|]. constructor; assumption.
      * right. exists (S i), x.
        destruct (Z.of_nat i =? -1)%Z eqn:Hi; [apply Z.eqb_eq in Hi; lia|].
        split; [lia|]. split; [assumption|]. split; [assumption|].
        intros [|j] y Hj Hy; simpl in Hy.
        -- injection Hy as <-. assumption.
        -- apply (Hbefore j); [lia|assumption].
Qed.

Lemma find_wallet_lookup (ws : list Entry) (k : nat) (e : Entry) :
  ws !! k = Some e ->
  exists target, Cli.find_wallet ws (address (wallet e)) = Some target
                 /\ address (wallet target) = address (wallet e).
Proof.
  revert k. induction ws as [|w ws IH]; intros [|k] Hk; try discriminate.
  - injection Hk as ->. exists e. unfold Cli.find_wallet. simpl.
    rewrite String.eqb_refl. auto.
  - unfold Cli.find_wallet. simpl.
    destruct (String.eqb (address (wallet w)) (address (wallet e))) eqn:Hw.
    + exists w. apply String.eqb_eq in Hw. auto.
    + apply (IH k). assumption.
Qed.

Lemma delete_choices_lookup (ws : list Entry) (k : nat) (e : Entry) :
  ws !! k = Some e ->
  Wallets.delete_choices ws !! k = Some (name e +:+ " (undefined)", address (wallet e)).
Proof.
  intros Hk. unfold Wallets.delete_choices, Funds.other_wallet_choices.
  rewrite lookup_app_l.
  - rewrite list_lookup_fmap, Hk. reflexivity.
  - rewrite length_map. eapply lookup_lt_Some. eassumption.
Qed.

Lemma delete_choices_inv (ws : list Entry) (k : nat) (label value : string) :
  Wallets.delete_choices ws !! k = Some (label, value) ->
  (exists e, ws !! k = Some e /\ value = address (wallet e)
             /\ label = name e +:+ " (undefined)")
  \/ (k = length ws /\ value = BACK /\ label = back_label).
Proof.
  unfold Wallets.delete_choices, Funds.other_wallet_choices. intros Hk.
  apply lookup_app_Some in Hk. destruct Hk as [Hk|[Hlen Hk]].
  - left. rewrite list_lookup_fmap in Hk.
    destruct (ws !! k) as [e|]; [|discriminate]. injection Hk as <- <-. eauto.
  - right. rewrite length_map in Hlen, Hk.
    destruct (k - length ws) as [|n] eqn:Hd; [|destruct n; discriminate].
    injection Hk as <- <-. split; [lia|]. auto.
Qed.

Section Delete.
Context `{Collaborators}.

(** The run of [deleteWallet] that moves a record. *)
Lemma deleteWallet_moved (st : State) (k i : nat) (e target : Entry)
    (raws : list RawWallet) (deleted : RawWallet) (rest : list input) :
  stdin st = Pick k :: Pick 0 :: rest ->
  DECRYPTED_WALLETS st !! k = Some e ->
  address (wallet e) <> BACK ->
  WALLETS_FILE st = Some raws ->
  Cli.find_wallet (DECRYPTED_WALLETS st) (address (wallet e)) = Some target ->
  findIndex (fun w => String.eqb (rw_name w) (name target)) raws = Z.of_nat i ->
  raws !! i = Some deleted ->
  Wallets.deleteWallet st
  = mkResult (Done tt)
      [Picked Wallets.delete_message (map fst (Wallets.delete_choices (DECRYPTED_WALLETS st)))
              (name e +:+ " (undefined)");
       confirmation Wallets.sure_message;
       Logged "Wallet moved to Trash. You can restore it from Settings.";
       Backup]
      (set_wallets
         (set_trash_file (set_wallets_file (set_stdin st rest) (Some (delete i raws)))
                         (Some (default [] (TRASH_FILE st) ++ [deleted])))
         (List.filter (fun w => negb (String.eqb (address (wallet w)) (address (wallet e))))
                      (DECRYPTED_WALLETS st))).
Proof.
  intros Hin Hk Hback Hf Ht Hi Hd. unfold Wallets.deleteWallet.
  rewrite run_get_bind.
  destruct (DECRYPTED_WALLETS st) as [|w0 ws0] eqn:Hws; [discriminate|].
  rewrite (run_pick_bind _ _ _ _ k (Pick 0 :: rest) _ _ Hin (delete_choices_lookup _ _ _ Hk)).
  apply String.eqb_neq in Hback. rewrite Hback.
  rewrite (run_yes_bind _ _ (set_stdin st (Pick 0 :: rest)) rest eq_refl).
  change (String.eqb "Yes" "No") with false. cbv iota.
  rewrite run_get_bind.
  change (WALLETS_FILE (set_stdin (set_stdin st (Pick 0 :: rest)) rest)) with (WALLETS_FILE st).
  rewrite Hf, run_lift_some.
  change (DECRYPTED_WALLETS (set_stdin (set_stdin st (Pick 0 :: rest)) rest))
    with (DECRYPTED_WALLETS st).
  rewrite Hws.
  destruct raws as [|r0 raws0]; [discriminate|].
  rewrite run_bind_assoc, Ht, run_lift_some, run_mret_bind, Hi.
  destruct (Z.of_nat i =? -1)%Z eqn:Hneg; [apply Z.eqb_eq in Hneg; lia|].
  rewrite Nat2Z.id, Hd, run_lift_some, run_put_bind, run_get_bind, run_put_bind,
    run_get_bind, run_put_bind.
  rewrite !after_after. rewrite run_emit_bind. simpl. rewrite Hws. reflexivity.
Qed.

(** What [deleteWallet] can do: leave the files and the memory as they are,
    or move one record. *)
Lemma deleteWallet_cases (st : State) :
  (WALLETS_FILE (final (Wallets.deleteWallet st)) = WALLETS_FILE st
   /\ TRASH_FILE (final (Wallets.deleteWallet st)) = TRASH_FILE st
   /\ DECRYPTED_WALLETS (final (Wallets.deleteWallet st)) = DECRYPTED_WALLETS st
   /\ ~ In Backup (emitted (Wallets.deleteWallet st)))
  \/ (exists k i e target raws deleted rest,
        stdin st = Pick k :: Pick 0 :: rest
        /\ DECRYPTED_WALLETS st !! k = Some e
        /\ address (wallet e) <> BACK
        /\ WALLETS_FILE st = Some raws
        /\ Cli.find_wallet (DECRYPTED_WALLETS st) (address (wallet e)) = Some target
        /\ findIndex (fun w => String.eqb (rw_name w) (name target)) raws = Z.of_nat i
        /\ raws !! i = Some deleted
        /\ rw_name deleted = name target
        /\ (forall j w, j < i -> raws !! j = Some w -> rw_name w <> name target)).
Proof.
  unfold Wallets.deleteWallet at 1 2 3 4. rewrite run_get_bind.
  destruct (DECRYPTED_WALLETS st) as [|w0 ws0] eqn:Hws.
  { left. simpl. tauto. }
  match goal with
  | |- context [(rawlist ?m ?c ≫= ?kont) ?s] => destruct (rawlist_cases m c kont s)
    as [(k & rest1 & label & addr & Hin & Hk & Hrun)|Hrun]; rewrite Hrun; clear Hrun
  end.
  2: { left. simpl. rewrite Hws. tauto. }
  rewrite final_after, emitted_after.
  apply delete_choices_inv in Hk.
  destruct Hk as [(e & Hk & -> & ->)|(_ & -> & ->)].
  2: { left. simpl. rewrite Hws. intuition discriminate. }
  destruct (String.eqb (address (wallet e)) BACK) eqn:Hback.
  { left. simpl. rewrite Hws. intuition discriminate. }
  apply String.eqb_neq in Hback.
  match goal with
  | |- context [(yes_no ?m ≫= ?kont) ?s] =>
      destruct (yes_no_cases m kont s)
        as [(rest & Hin2 & Hrun)|[(rest & Hin2 & Hrun)|Hrun]]; rewrite Hrun; clear Hrun
  end.
  2: { left. simpl. rewrite Hws. intuition discriminate. }
  2: { left. simpl. rewrite Hws. intuition discriminate. }
  simpl in Hin2. subst rest1.
  change (String.eqb "Yes" "No") with false. cbv iota.
  rewrite final_after, emitted_after, run_get_bind.
  change (WALLETS_FILE (set_stdin (set_stdin st (Pick 0 :: rest)) rest)) with (WALLETS_FILE st).
  change (DECRYPTED_WALLETS (set_stdin (set_stdin st (Pick 0 :: rest)) rest))
    with (DECRYPTED_WALLETS st).
  rewrite Hws.
  destruct (WALLETS_FILE st) as [raws|] eqn:Hf.
  2: { left. simpl. rewrite Hws. intuition discriminate. }
  rewrite run_lift_some.
  destruct raws as [|r0 raws0].
  { left. rewrite run_mret_bind. simpl. rewrite Hws, Hf. intuition discriminate. }
  rewrite run_bind_assoc.
  rewrite <- Hws in Hk |- *.
  destruct (find_wallet_lookup _ _ _ Hk) as (target & Ht & _).
  rewrite Ht, run_lift_some, run_mret_bind.
  destruct (findIndex_cases (fun w => String.eqb (rw_name w) (name target)) (r0 :: raws0))
    as [[Hi _]|(i & deleted & Hi & Hd & Hname & Hbefore)]; rewrite Hi.
  { left. simpl. rewrite Hf. intuition discriminate. }
  right. exists k, i, e, target, (r0 :: raws0), deleted, rest.
  apply String.eqb_eq in Hname.
  repeat split; try assumption.
  intros j w Hj Hw. apply String.eqb_neq. eapply Hbefore; eassumption.
Qed.

End Delete.

Lemma findIndex_first {A} (f : A -> bool) (l : list A) (i : nat) (x : A) :
  l !! i = Some x -> f x = true ->
  (forall j y, j < i -> l !! j = Some y -> f y = false) ->
  findIndex f l = Z.of_nat i.
Proof.
  revert i. induction l as [|a l IH]; intros [|i] Hx Hfx Hbefore; try discriminate.
  - injection Hx as ->. simpl. rewrite Hfx. reflexivity.
  - simpl. rewrite (Hbefore 0 a); [|lia|reflexivity].
    rewrite (IH i Hx Hfx).
    + destruct (Z.of_nat i =? -1)%Z eqn:Hi; [apply Z.eqb_eq in Hi|]; lia.
    + intros j y Hj Hy. apply (Hbefore (S j)); [lia|assumption].
Qed.

Section Trash.
Context `{Collaborators}.

Lemma getPassword_cached (confirm : bool) (st : State) (p : string) :
  SESSION_PASSWORD st = Some p -> p <> "" ->
  Vault.getPassword confirm st = mkResult (Done p) [] st.
Proof.
  intros Hp Hne. unfold Vault.getPassword. rewrite run_get_bind, Hp.
  unfold truthy. apply String.eqb_neq in Hne. rewrite Hne. reflexivity.
Qed.

Lemma unlock_restored_cached (restored : RawWallet) (st : State) (p : string) :
  SESSION_PASSWORD st = Some p -> p <> "" ->
  Vault.unlock_restored restored st
  = match opens_record false restored p with
    | Some e =>
        mkResult (Done tt) [Logged ("Restored " +:+ rw_name restored +:+ "!"); Backup]
                 (set_wallets st (DECRYPTED_WALLETS st ++ [e]))
    | None =>
        mkResult (Done tt)
          [Logged
             "Restored file, but failed to unlock in current session (Password mismatch?). Restart app to retry.";
           Backup] st
    end.
Proof.
  intros Hp Hne. unfold Vault.unlock_restored.
  rewrite (run_done_bind _ _ _ _ _ _ (getPassword_cached false st p Hp Hne)).
  rewrite after_nil, run_bind. unfold bind, try_catch.
  pose proof (decrypt_opens false restored p st ltac:(discriminate)) as Hd.
  destruct (opens_record false restored p) as [e|].
  - destruct Hd as [Hd He]. rewrite (run_done_bind _ _ _ _ _ _ Hd), after_nil.
    unfold push_wallet. rewrite run_bind_assoc, run_get_bind, run_put_bind.
    rewrite <- He. reflexivity.
  - destruct Hd as [msg Hd]. rewrite (run_threw_bind _ _ _ _ _ _ Hd). reflexivity.
Qed.

(** The run of [restoreWallet] that puts a record back, with the session
    password at hand. *)
Lemma restoreWallet_cached (st : State) (trash active : list RawWallet) (i : nat)
    (restored : RawWallet) (ins : list input) (p : string) :
  TRASH_FILE st = Some trash -> WALLETS_FILE st = Some active ->
  trash !! i = Some restored -> stdin st = Pick i :: ins ->
  SESSION_PASSWORD st = Some p -> p <> "" ->
  let r := Vault.restoreWallet st in
  outcome r = Done tt
  /\ TRASH_FILE (final r) = Some (delete i trash)
  /\ WALLETS_FILE (final r) = Some (active ++ [restored])
  /\ SESSION_PASSWORD (final r) = Some p
  /\ stdin (final r) = ins
  /\ DECRYPTED_WALLETS (final r)
     = DECRYPTED_WALLETS st ++ match opens_record false restored p with
                               | Some e => [e]
                               | None => []
                               end.
Proof.
  intros Ht Ha Hi Hin Hp Hne r. subst r. unfold Vault.restoreWallet.
  rewrite run_get_bind, Ht.
  destruct trash as [|t0 ts]; [discriminate|].
  rewrite (run_pick_bind _ _ _ _ i ins _ _ Hin (restore_choices_lookup _ _ _ Hi)).
  rewrite outcome_after, final_after. rewrite Hi.
  rewrite run_lift_some, run_get_bind, run_put_bind, run_get_bind.
  change (WALLETS_FILE (set_trash_file (set_stdin st ins) (Some (delete i (t0 :: ts)))))
    with (WALLETS_FILE st).
  rewrite Ha, run_lift_some, run_put_bind.
  rewrite (unlock_restored_cached restored _ p); [|exact Hp|exact Hne].
  destruct (opens_record false restored p) as [e|]; simpl; rewrite ?app_nil_r; auto 10.
Qed.

(** X7: [deleteWallet] finds the record to remove by name, not by address.
    Once a wallet is picked and the question answered Yes, the record taken
    out of [my_wallets.json] is the first one that carries the name of the
    first unlocked wallet with the picked address; it is appended to the
    trash, and every unlocked wallet with the picked address leaves the
    memory.  When two wallets share a name, the record moved to the trash
    can therefore be that of another wallet than the one picked. *)
Theorem deleteWallet_moves_first_namesake (st : State) (k i : nat) (e target : Entry)
    (raws : list RawWallet) (deleted : RawWallet) (rest : list input) :
  stdin st = Pick k :: Pick 0 :: rest ->
  DECRYPTED_WALLETS st !! k = Some e ->
  address (wallet e) <> BACK ->
  WALLETS_FILE st = Some raws ->
  Cli.find_wallet (DECRYPTED_WALLETS st) (address (wallet e)) = Some target ->
  raws !! i = Some deleted ->
  rw_name deleted = name target ->
  (forall j w, j < i -> raws !! j = Some w -> rw_name w <> name target) ->
  let r := Wallets.deleteWallet st in
  outcome r = Done tt
  /\ WALLETS_FILE (final r) = Some (delete i raws)
  /\ TRASH_FILE (final r) = Some (default [] (TRASH_FILE st) ++ [deleted])
  /\ DECRYPTED_WALLETS (final r)
     = List.filter (fun w => negb (String.eqb (address (wallet w)) (address (wallet e))))
                   (DECRYPTED_WALLETS st)
  /\ In Backup (emitted r).
Proof.
  intros Hin Hk Hback Hf Ht Hd Hname Hbefore r. subst r.
  rewrite (deleteWallet_moved st k i e target raws deleted rest); try assumption.
  - simpl. repeat split; auto.
  - apply (findIndex_first _ raws i deleted); [assumption| |].
    + apply String.eqb_eq. assumption.
    + intros j w Hj Hw. apply String.eqb_neq. eapply Hbefore; eassumption.
Qed.

(** X8: whatever is typed, [deleteWallet] loses no record and copies none:
    the records of [my_wallets.json] and of the trash, taken together, are
    the same after the call as before.  The unlocked wallets after the call
    are among those before it, and nothing at all changes, in the files or in
    memory, unless the question [Are you sure?] was answered Yes. *)
Theorem deleteWallet_conserves_records (st : State) :
  let r := Wallets.deleteWallet st in
  Permutation (default [] (WALLETS_FILE (final r)) ++ default [] (TRASH_FILE (final r)))
              (default [] (WALLETS_FILE st) ++ default [] (TRASH_FILE st))
  /\ (forall e, In e (DECRYPTED_WALLETS (final r)) -> In e (DECRYPTED_WALLETS st))
  /\ (In (confirmation Wallets.sure_message) (emitted r)
      \/ (WALLETS_FILE (final r) = WALLETS_FILE st
          /\ TRASH_FILE (final r) = TRASH_FILE st
          /\ DECRYPTED_WALLETS (final r) = DECRYPTED_WALLETS st)).
Proof.
  intros r. subst r.
  destruct (deleteWallet_cases st)
    as [(Hw & Ht & Hm & _)
       |(k & i & e & target & raws & deleted & rest & Hin & Hk & Hback & Hf & Hfind
           & Hi & Hd & _)].
  - rewrite Hw, Ht, Hm. split; [reflexivity|]. split; [auto|]. right. auto.
  - rewrite (deleteWallet_moved st k i e target raws deleted rest); try assumption.
    simpl. rewrite Hf. simpl. split; [|split].
    + rewrite (delete_Permutation raws i deleted Hd) at 2.
      rewrite app_assoc, <- Permutation_cons_append. reflexivity.
    + intros e' He'. apply List.filter_In in He'. tauto.
    + left. right; left. reflexivity.
Qed.

(** X9: restoring the record that [deleteWallet] has just moved to the
    trash undoes the deletion up to the place of the record: the trash is as
    before, and [my_wallets.json] holds the same records with the deleted
    one now at the end.  The wallet comes back into memory when the session
    password opens the record. *)
Theorem restore_undoes_delete (st : State) (k i : nat) (e target : Entry)
    (raws trash : list RawWallet) (deleted : RawWallet) (rest : list input) (p : string) :
  stdin st = Pick k :: Pick 0 :: Pick (length trash) :: rest ->
  DECRYPTED_WALLETS st !! k = Some e ->
  address (wallet e) <> BACK ->
  WALLETS_FILE st = Some raws ->
  default [] (TRASH_FILE st) = trash ->
  SESSION_PASSWORD st = Some p -> p <> "" ->
  Cli.find_wallet (DECRYPTED_WALLETS st) (address (wallet e)) = Some target ->
  raws !! i = Some deleted ->
  rw_name deleted = name target ->
  (forall j w, j < i -> raws !! j = Some w -> rw_name w <> name target) ->
  let r := (Wallets.deleteWallet;; Vault.restoreWallet) st in
  outcome r = Done tt
  /\ TRASH_FILE (final r) = Some trash
  /\ WALLETS_FILE (final r) = Some (delete i raws ++ [deleted])
  /\ Permutation (delete i raws ++ [deleted]) raws
  /\ DECRYPTED_WALLETS (final r)
     = List.filter (fun w => negb (String.eqb (address (wallet w)) (address (wallet e))))
                   (DECRYPTED_WALLETS st)
       ++ match opens_record false deleted p with
          | Some e' => [e']
          | None => []
          end.
Proof.
  intros Hin Hk Hback Hf Ht Hp Hne Hfind Hd Hname Hbefore r. subst r.
  assert (findIndex (fun w => String.eqb (rw_name w) (name target)) raws = Z.of_nat i) as Hi.
  { apply (findIndex_first _ raws i deleted); [assumption| |].
    - apply String.eqb_eq. assumption.
    - intros j w Hj Hw. apply String.eqb_neq. eapply Hbefore; eassumption. }
  rewrite (run_done_bind _ _ _ _ _ _
             (deleteWallet_moved st k i e target raws deleted _ Hin Hk Hback Hf Hfind Hi Hd)).
  rewrite outcome_after, final_after, Ht.
  match goal with
  | |- context [Vault.restoreWallet ?s] =>
      destruct (restoreWallet_cached s (trash ++ [deleted]) (delete i raws) (length trash)
                  deleted rest p)
        as (Ho & Htr & Hw & _ & _ & Hm)
  end; try reflexivity; try assumption.
  { rewrite lookup_app_r, Nat.sub_diag; [reflexivity|lia]. }
  rewrite Ho, Htr, Hw, Hm. split; [reflexivity|]. split; [|split; [reflexivity|split]].
  - rewrite delete_middle, app_nil_r. reflexivity.
  - rewrite (delete_Permutation raws i deleted Hd) at 2.
    rewrite <- Permutation_cons_append. reflexivity.
  - reflexivity.
Qed.

End Trash.

(** Witness of X7: two wallets named [Main]; the second is picked, the
    record of the first goes to the trash. *)
Lemma deleteWallet_moves_first_namesake_witness :
  WALLETS_FILE (final (Wallets.deleteWallet (namesakes [Pick 1; Pick 0]))) = Some [rawB_main]
  /\ TRASH_FILE (final (Wallets.deleteWallet (namesakes [Pick 1; Pick 0]))) = Some [rawA]
  /\ DECRYPTED_WALLETS (final (Wallets.deleteWallet (namesakes [Pick 1; Pick 0]))) = [entryA].
Proof.
  destruct (deleteWallet_moves_first_namesake (namesakes [Pick 1; Pick 0]) 1 0
              entryB_main entryB_main [rawA; rawB_main] rawA []
              eq_refl eq_refl ltac:(discriminate) eq_refl eq_refl eq_refl eq_refl
              ltac:(intros j w Hj; lia))
    as (_ & Hw & Ht & Hm & _).
  split; [exact Hw|]. split; [exact Ht|exact Hm].
Defined.

(** Witness of X9: [A] deleted and restored; its record is now the last. *)
Lemma restore_undoes_delete_witness :
  WALLETS_FILE (final ((Wallets.deleteWallet;; @Vault.restoreWallet demo)
                         (unlocked [Pick 0; Pick 0; Pick 0])))
  = Some [rawB; rawA].
Proof.
  exact (proj1 (proj2 (proj2
           (@restore_undoes_delete demo (unlocked [Pick 0; Pick 0; Pick 0]) 0 0
              entryA entryA [rawA; rawB] [] rawA [] "p1"
              eq_refl eq_refl ltac:(discriminate) eq_refl eq_refl eq_refl
              ltac:(discriminate) eq_refl eq_refl eq_refl ltac:(intros j w Hj; lia))))).
Defined.

Section Save.
Context `{Collaborators}.

Lemma opened_prefix_snoc (legacy : bool) (l : list RawWallet) (w : RawWallet)
    (password : string) (es : list Entry) (e : Entry) :
  opened_prefix legacy l password = (es, true) ->
  opens_record legacy w password = Some e ->
  opened_prefix legacy (l ++ [w]) password = (es ++ [e], true).
Proof.
  revert es. induction l as [|a l IH]; intros es Hl Hw; simpl in *.
  - injection Hl as <-. rewrite Hw. reflexivity.
  - destruct (opens_record legacy a password) as [ea|]; [|discriminate].
    destruct (opened_prefix legacy l password) as [es' c] eqn:Hes.
    injection Hl as <- ->. rewrite (IH es' eq_refl Hw). reflexivity.
Qed.

(** [saveEncryptedWallet] with the session password at hand. *)
Lemma saveEncryptedWallet_cached (name : string) (wallet : Wallet) (st : State)
    (p : string) :
  SESSION_PASSWORD st = Some p -> p <> "" ->
  Wallets.saveEncryptedWallet name wallet st
  = mkResult (Done tt)
      [Logged "Encrypting wallet...";
       Logged ("Wallet '" +:+ name +:+ "' saved securely.");
       Backup]
      (set_wallets
         (set_wallets_file st
            (Some (default [] (WALLETS_FILE st) ++ [mkRaw name (Some (encrypt wallet p)) None])))
         (DECRYPTED_WALLETS st ++ [mkEntry name wallet])).
Proof.
  intros Hp Hne. unfold Wallets.saveEncryptedWallet.
  rewrite (run_done_bind _ _ _ _ _ _ (getPassword_cached false st p Hp Hne)), after_nil.
  rewrite run_emit_bind. unfold Vault.loadWalletsRaw.
  rewrite run_bind_assoc, run_get_bind, run_mret_bind, run_get_bind, run_put_bind.
  unfold push_wallet. rewrite run_bind_assoc, run_get_bind, run_put_bind.
  reflexivity.
Qed.

Lemma initializeWallets_opens (st : State) (raws : list RawWallet) (p : string)
    (ins : list input) (es : list Entry) :
  WALLETS_FILE st = Some raws -> raws <> [] ->
  Forall (fun w => has_privateKey w = false) raws ->
  SESSION_PASSWORD st = None -> stdin st = Line p :: ins ->
  opened_prefix false raws p = (es, true) ->
  outcome (Vault.initializeWallets st) = Done tt
  /\ DECRYPTED_WALLETS (final (Vault.initializeWallets st)) = es
  /\ SESSION_PASSWORD (final (Vault.initializeWallets st)) = Some p.
Proof.
  intros Hf Hne Hplain Hpw Hin Hopen.
  destruct raws as [|first others]; [congruence|].
  rewrite (initializeWallets_encrypted st first others Hf);
    [|inversion Hplain; assumption].
  rewrite outcome_after, final_after, run_bind. unfold bind, Vault.ATTEMPTS.
  rewrite (attempt_loop_right _ _ p st ins Hpw Hin); [|rewrite Hopen; reflexivity].
  rewrite Hopen. simpl. auto.
Qed.

(** X10: a wallet saved by [saveEncryptedWallet] is appended to the file and
    to the memory, and the vault stays consistent: when every record of the
    file opened under the session password before, and the library opens
    under that password what it has just encrypted, every record opens after
    it too.  At the next start of the program that password then unlocks the
    old wallets and the new one. *)
Theorem saved_wallet_unlocks_at_next_start (st : State) (name p : string)
    (wallet : Wallet) :
  SESSION_PASSWORD st = Some p -> p <> "" ->
  consistent p st ->
  Forall (fun w => has_privateKey w = false) (default [] (WALLETS_FILE st)) ->
  fromEncryptedJson (encrypt wallet p) p = Some wallet ->
  let r := Wallets.saveEncryptedWallet name wallet st in
  outcome r = Done tt
  /\ WALLETS_FILE (final r)
     = Some (default [] (WALLETS_FILE st) ++ [mkRaw name (Some (encrypt wallet p)) None])
  /\ DECRYPTED_WALLETS (final r) = DECRYPTED_WALLETS st ++ [mkEntry name wallet]
  /\ consistent p (final r)
  /\ forall ins,
       let r' := Vault.initializeWallets
                   (boot (WALLETS_FILE (final r)) (TRASH_FILE (final r)) (Line p :: ins)) in
       outcome r' = Done tt /\ DECRYPTED_WALLETS (final r') = DECRYPTED_WALLETS (final r).
Proof.
  intros Hp Hne Hcons Hplain Hround r. subst r.
  rewrite (saveEncryptedWallet_cached name wallet st p Hp Hne). simpl.
  assert (opened_prefix false
            (default [] (WALLETS_FILE st) ++ [mkRaw name (Some (encrypt wallet p)) None]) p
          = (DECRYPTED_WALLETS st ++ [mkEntry name wallet], true)) as Hopen.
  { apply opened_prefix_snoc; [exact Hcons|].
    unfold opens_record. simpl. rewrite Hround. reflexivity. }
  split; [reflexivity|]. split; [reflexivity|]. split; [reflexivity|].
  split; [exact Hopen|].
  intros ins.
  destruct (initializeWallets_opens
              (boot (Some (default [] (WALLETS_FILE st)
                           ++ [mkRaw name (Some (encrypt wallet p)) None]))
                    (TRASH_FILE st) (Line p :: ins))
              _ p ins (DECRYPTED_WALLETS st ++ [mkEntry name wallet]) eq_refl)
    as (Ho & Hm & _); try reflexivity; try exact Hopen.
  - destruct (default [] (WALLETS_FILE st)); discriminate.
  - apply Forall_app. split; [assumption|]. constructor; [reflexivity|constructor].
  - auto.
Qed.

Lemma getPassword_asks_once (st : State) (p : string) (rest : list input) :
  SESSION_PASSWORD st = None -> stdin st = Line p :: rest ->
  Vault.getPassword false st
  = mkResult (Done p) [Entered Vault.password_message p]
             (set_password (set_stdin st rest) (Some p)).
Proof.
  intros Hpw Hin. unfold Vault.getPassword. rewrite run_get_bind, Hpw.
  unfold Vault.ask_password.
  rewrite (run_line_bind _ _ _ _ _ Hin), run_get_bind, run_put_bind. reflexivity.
Qed.

Lemma getPassword_asks_twice (st : State) (p : string) (evs : list event)
    (rest : list input) :
  SESSION_PASSWORD st = None -> Vault.ask_twice (stdin st) = (Done p, evs, rest) ->
  Vault.getPassword true st
  = mkResult (Done p) evs (set_password (set_stdin st rest) (Some p)).
Proof.
  intros Hpw Hask. unfold Vault.getPassword. rewrite run_get_bind, Hpw.
  unfold Vault.ask_password. rewrite run_bind. unfold bind at 1. rewrite Hask.
  rewrite run_get_bind, run_put_bind. simpl. rewrite app_nil_r. reflexivity.
Qed.

(** [saveEncryptedWallet] when the password has to be asked. *)
Lemma saveEncryptedWallet_asks (name : string) (wallet : Wallet) (st : State)
    (p : string) (rest : list input) :
  SESSION_PASSWORD st = None -> stdin st = Line p :: rest ->
  Wallets.saveEncryptedWallet name wallet st
  = mkResult (Done tt)
      [Entered Vault.password_message p;
       Logged "Encrypting wallet...";
       Logged ("Wallet '" +:+ name +:+ "' saved securely.");
       Backup]
      (set_wallets
         (set_wallets_file (set_password (set_stdin st rest) (Some p))
            (Some (default [] (WALLETS_FILE st) ++ [mkRaw name (Some (encrypt wallet p)) None])))
         (DECRYPTED_WALLETS st ++ [mkEntry name wallet])).
Proof.
  intros Hpw Hin. unfold Wallets.saveEncryptedWallet.
  rewrite (run_done_bind _ _ _ _ _ _ (getPassword_asks_once st p rest Hpw Hin)).
  rewrite run_emit_bind. unfold Vault.loadWalletsRaw.
  rewrite run_bind_assoc, run_get_bind, run_mret_bind, run_get_bind, run_put_bind.
  unfold push_wallet. rewrite run_bind_assoc, run_get_bind, run_put_bind.
  reflexivity.
Qed.

(** X11: [createNewWallet] asks for the vault password twice, until both
    entries agree, only when no wallet is unlocked and [my_wallets.json] does
    not exist.  When the file exists but is empty (every wallet was deleted)
    and the program was started anew, the password of the vault is taken from
    a single entry, without confirmation.  In both cases the new wallet is
    the only record of the file, under the name typed or [Wallet 1]. *)
Theorem createNewWallet_password_entry (st : State) (wallet : Wallet)
    (typed p : string) (rest : list input) :
  DECRYPTED_WALLETS st = [] -> SESSION_PASSWORD st = None -> p <> "" ->
  let name := if truthy typed then typed else "Wallet 1" in
  let saved := [mkRaw name (Some (encrypt wallet p)) None] in
  (WALLETS_FILE st = None ->
   forall wrong1 wrong2, wrong1 <> wrong2 ->
     stdin st = Line typed :: Line wrong1 :: Line wrong2 :: Line p :: Line p :: rest ->
     let r := Wallets.createNewWallet wallet st in
     outcome r = Done tt /\ WALLETS_FILE (final r) = Some saved
     /\ DECRYPTED_WALLETS (final r) = [mkEntry name wallet]
     /\ SESSION_PASSWORD (final r) = Some p /\ stdin (final r) = rest
     /\ In (Logged "Passwords do not match. Try again.") (emitted r))
  /\ (WALLETS_FILE st = Some [] ->
      stdin st = Line typed :: Line p :: rest ->
      let r := Wallets.createNewWallet wallet st in
      outcome r = Done tt /\ WALLETS_FILE (final r) = Some saved
      /\ DECRYPTED_WALLETS (final r) = [mkEntry name wallet]
      /\ SESSION_PASSWORD (final r) = Some p /\ stdin (final r) = rest
      /\ forall c, ~ In (Entered Vault.confirm_message c) (emitted r)).
Proof.
  intros Hm Hpw Hne name saved. split.
  - intros Hf wrong1 wrong2 Hwrong Hin r. subst r. unfold Wallets.createNewWallet.
    rewrite run_emit_bind, run_get_bind. unfold input_default.
    rewrite run_bind_assoc, (run_line_bind _ _ _ _ _ Hin), run_mret_bind, run_get_bind.
    unfold Wallets.first_time. simpl DECRYPTED_WALLETS. simpl WALLETS_FILE. rewrite Hm, Hf.
    assert (Vault.ask_twice (Line wrong1 :: Line wrong2 :: Line p :: Line p :: rest)
            = (Done p,
               [Entered Vault.password_message wrong1;
                Entered Vault.confirm_message wrong2;
                Logged "Passwords do not match. Try again.";
                Entered Vault.password_message p; Entered Vault.confirm_message p],
               rest)) as Hask.
    { simpl. apply String.eqb_neq in Hwrong. rewrite Hwrong, String.eqb_refl.
      reflexivity. }
    rewrite (run_done_bind _ _ _ _ _ _
               (getPassword_asks_twice
                  (set_stdin st (Line wrong1 :: Line wrong2 :: Line p :: Line p :: rest)) p
                  _ rest Hpw Hask)).
    erewrite (run_done_bind (Wallets.saveEncryptedWallet _ _));
      [|apply (saveEncryptedWallet_cached _ _ _ p); [reflexivity|exact Hne]].
    rewrite !outcome_after, !final_after, !emitted_after. simpl.
    rewrite Hm, Hf. simpl. fold name. repeat split. do 4 right. left. reflexivity.
  - intros Hf Hin r. subst r. unfold Wallets.createNewWallet.
    rewrite run_emit_bind, run_get_bind. unfold input_default.
    rewrite run_bind_assoc, (run_line_bind _ _ _ _ _ Hin), run_mret_bind, run_get_bind.
    unfold Wallets.first_time. simpl DECRYPTED_WALLETS. simpl WALLETS_FILE. rewrite Hm, Hf.
    rewrite run_mret_bind.
    erewrite (run_done_bind (Wallets.saveEncryptedWallet _ _));
      [|apply (saveEncryptedWallet_asks _ _ _ p rest); [exact Hpw|reflexivity]].
    rewrite !outcome_after, !final_after, !emitted_after. simpl.
    rewrite Hm, Hf. simpl. fold name. repeat split.
    intros c [Hc|[Hc|[Hc|[Hc|[Hc|[Hc|[Hc|[]]]]]]]]; discriminate.
Qed.

End Save.

(** Witness of X10: [B] saved beside [A] under the session password. *)
Lemma saved_wallet_unlocks_at_next_start_witness :
  @consistent sealed "p1" (single [])
  /\ @consistent sealed "p1"
       (final (@Wallets.saveEncryptedWallet sealed "Second" walletB (single []))).
Proof.
  assert (@consistent sealed "p1" (single [])) as Hcons by reflexivity.
  split; [exact Hcons|].
  apply (@saved_wallet_unlocks_at_next_start sealed (single []) "Second" "p1" walletB
           eq_refl ltac:(discriminate) Hcons
           ltac:(repeat constructor) eq_refl).
Defined.

(** Witness of X11: the file exists and is empty; one entry of the
    password is enough. *)
Lemma createNewWallet_password_entry_witness :
  WALLETS_FILE (final (@Wallets.createNewWallet demo walletA
                         (boot (Some []) None [Line ""; Line "pw"])))
  = Some [mkRaw "Wallet 1" (Some (@encrypt demo walletA "pw")) None].
Proof.
  exact (proj1 (proj2 (proj2
           (@createNewWallet_password_entry demo (boot (Some []) None [Line ""; Line "pw"])
              walletA "" "pw" [] eq_refl eq_refl ltac:(discriminate))
           eq_refl eq_refl))).
Defined.


Section ImportKey.
Context `{Collaborators}.
Variable fromPhrase : string -> option Wallet.

Lemma first_time_password (st : State) (p : string) :
  SESSION_PASSWORD st = Some p -> p <> "" ->
  (if Wallets.first_time st then Vault.getPassword true else Vault.getPassword false) st
  = mkResult (Done p) [] st.
Proof.
  intros Hp Hne. destruct (Wallets.first_time st); apply getPassword_cached; assumption.
Qed.

(** X12: an import that fails saves nothing.  With the session password at
    hand, a private key that [new ethers.Wallet] refuses, or a phrase that
    [fromPhrase] refuses, is answered by the line [Invalid Key or Phrase]
    and the function returns: the files, the memory and the session password
    are as before and no backup is triggered. *)
Theorem importWallet_invalid_saves_nothing (st : State) (p entered : string)
    (rest : list input) (n : nat) :
  SESSION_PASSWORD st = Some p -> p <> "" ->
  stdin st = Pick n :: Line entered :: rest ->
  (n = 0 /\ new_Wallet entered = None) \/ (n = 1 /\ fromPhrase entered = None) ->
  let r := Wallets.importWallet fromPhrase st in
  outcome r = Done tt
  /\ final r = set_stdin st rest
  /\ ~ In Backup (emitted r)
  /\ exists msg, In (Logged ("Invalid Key or Phrase: " +:+ msg)) (emitted r).
Proof.
  intros Hp Hne Hin Hbad r. subst r. unfold Wallets.importWallet.
  rewrite run_emit_bind, run_get_bind.
  rewrite (run_done_bind _ _ _ _ _ _ (first_time_password st p Hp Hne)), after_nil.
  destruct Hbad as [[-> Hbad]|[-> Hbad]].
  - erewrite run_pick_bind; [|exact Hin|reflexivity].
    change (String.eqb "pk" "pk") with true. cbv iota.
    erewrite run_done_bind.
    2: { unfold try_catch.
         rewrite (run_line_bind _ _ (set_stdin st (Line entered :: rest)) entered rest eq_refl).
         rewrite Hbad, run_fmap, run_lift_none. reflexivity. }
    simpl. split; [reflexivity|]. split; [reflexivity|]. split.
    + intros [Hc|[Hc|[Hc|[Hc|[]]]]]; discriminate.
    + eexists. do 3 right. left. reflexivity.
  - erewrite run_pick_bind; [|exact Hin|reflexivity].
    change (String.eqb "mnemonic" "pk") with false. cbv iota.
    erewrite run_done_bind.
    2: { unfold try_catch.
         rewrite (run_line_bind _ _ (set_stdin st (Line entered :: rest)) entered rest eq_refl).
         rewrite Hbad, run_fmap, run_lift_none. reflexivity. }
    simpl. split; [reflexivity|]. split; [reflexivity|]. split.
    + intros [Hc|[Hc|[Hc|[Hc|[]]]]]; discriminate.
    + eexists. do 3 right. left. reflexivity.
Qed.

(** X13: [importWallet] does not look whether the key is already in the
    vault.  With the session password at hand, a valid private key is saved
    as one more record and one more unlocked wallet, under the name typed or
    [Imported <n>], whatever the vault holds: importing a key a second time
    gives a second entry with the same address. *)
Theorem importWallet_appends_without_check (st : State) (p key typed : string)
    (w : Wallet) (rest : list input) :
  SESSION_PASSWORD st = Some p -> p <> "" ->
  stdin st = Pick 0 :: Line key :: Line typed :: rest ->
  new_Wallet key = Some w ->
  let name := if truthy typed then typed
              else "Imported " +:+ decimal (length (DECRYPTED_WALLETS st) + 1) in
  let same_address := fun e : Entry => String.eqb (address (wallet e)) (address w) in
  let r := Wallets.importWallet fromPhrase st in
  outcome r = Done tt
  /\ DECRYPTED_WALLETS (final r) = DECRYPTED_WALLETS st ++ [mkEntry name w]
  /\ WALLETS_FILE (final r)
     = Some (default [] (WALLETS_FILE st) ++ [mkRaw name (Some (encrypt w p)) None])
  /\ length (List.filter same_address (DECRYPTED_WALLETS (final r)))
     = S (length (List.filter same_address (DECRYPTED_WALLETS st))).
Proof.
  intros Hp Hne Hin Hkey name same_address r. subst r. unfold Wallets.importWallet.
  rewrite run_emit_bind, run_get_bind.
  rewrite (run_done_bind _ _ _ _ _ _ (first_time_password st p Hp Hne)), after_nil.
  erewrite run_pick_bind; [|exact Hin|reflexivity].
  change (String.eqb "pk" "pk") with true. cbv iota.
  erewrite run_done_bind.
  2: { unfold try_catch.
       rewrite (run_line_bind _ _ (set_stdin st (Line key :: Line typed :: rest)) key
                  (Line typed :: rest) eq_refl).
       rewrite Hkey, run_fmap, run_lift_some. reflexivity. }
  cbv beta iota. rewrite run_emit_bind, run_get_bind. unfold input_default.
  rewrite run_bind_assoc.
  erewrite run_line_bind; [|reflexivity]. rewrite run_mret_bind.
  erewrite (saveEncryptedWallet_cached _ w _ p); [|exact Hp|exact Hne].
  simpl. fold name. split; [reflexivity|]. split; [reflexivity|]. split; [reflexivity|].
  rewrite List.filter_app, length_app. simpl.
  subst same_address. simpl. rewrite String.eqb_refl. simpl. lia.
Qed.

End ImportKey.

(** Witness of X12: a key that is not one. *)
Lemma importWallet_invalid_saves_nothing_witness :
  final (@Wallets.importWallet demo (fun _ => None) (single [Pick 0; Line "nonsense"]))
  = single [].
Proof.
  exact (proj1 (proj2
           (@importWallet_invalid_saves_nothing demo (fun _ => None)
              (single [Pick 0; Line "nonsense"]) "p1" "nonsense" [] 0
              eq_refl ltac:(discriminate) eq_refl (or_introl (conj eq_refl eq_refl))))).
Defined.

(** Witness of X13: the key of [A] imported while [A] is unlocked. *)
Lemma importWallet_appends_without_check_witness :
  DECRYPTED_WALLETS
    (final (@Wallets.importWallet demo (fun _ => None)
              (single [Pick 0; Line "keyA"; Line ""])))
  = [entryA; mkEntry "Imported 2" walletA].
Proof.
  exact (proj1 (proj2
           (@importWallet_appends_without_check demo (fun _ => None)
              (single [Pick 0; Line "keyA"; Line ""]) "p1" "keyA" "" walletA []
              eq_refl ltac:(discriminate) eq_refl eq_refl))).
Defined.

Lemma rename_first_lookup (ws : list Entry) (k : nat) (e : Entry) (newName : string) :
  ws !! k = Some e ->
  exists renamed,
    rename_first ws (address (wallet e)) newName = Some renamed
    /\ map wallet renamed = map wallet ws.
Proof.
  revert k. induction ws as [|w ws IH]; intros [|k] Hk; try discriminate; simpl.
  - injection Hk as ->. rewrite String.eqb_refl. eexists. split; reflexivity.
  - destruct (String.eqb (address (wallet w)) (address (wallet e))).
    + eexists. split; reflexivity.
    + destruct (IH k Hk) as (renamed & -> & Hmap). eexists. split; [reflexivity|].
      simpl. rewrite Hmap. reflexivity.
Qed.

Lemma rename_first_at (ws : list Entry) (k : nat) (e : Entry) (newName : string) :
  ws !! k = Some e ->
  (forall j w, j < k -> ws !! j = Some w -> address (wallet w) <> address (wallet e)) ->
  rename_first ws (address (wallet e)) newName = Some (<[k := mkEntry newName (wallet e)]> ws).
Proof.
  revert k. induction ws as [|w ws IH]; intros [|k] Hk Hbefore; try discriminate; simpl.
  - injection Hk as ->. rewrite String.eqb_refl. reflexivity.
  - assert (String.eqb (address (wallet w)) (address (wallet e)) = false) as ->.
    { apply String.eqb_neq. apply (Hbefore 0); [lia|reflexivity]. }
    rewrite (IH k Hk); [reflexivity|].
    intros j w' Hj Hw'. apply (Hbefore (S j)); [lia|assumption].
Qed.

Section Rename.
Context `{Collaborators}.

Lemma newRawStore_opens (es : list Entry) (p : string) :
  (forall w, In w es -> fromEncryptedJson (encrypt (wallet w) p) p = Some (wallet w)) ->
  opened_prefix false (Wallets.newRawStore es p) p = (es, true).
Proof.
  induction es as [|e es IH]; intros Hround; [reflexivity|].
  simpl. unfold opens_record. simpl. rewrite (Hround e); [|left; reflexivity].
  simpl. rewrite IH; [|intros w Hw; apply Hround; right; assumption].
  destruct e. reflexivity.
Qed.

Lemma newRawStore_record (es : list Entry) (p : string) (r : RawWallet) :
  In r (Wallets.newRawStore es p) ->
  exists w, In w es /\ rw_data r = Some (encrypt (wallet w) p).
Proof.
  unfold Wallets.newRawStore. intros Hr. apply in_map_iff in Hr.
  destruct Hr as (w & <- & Hw). eauto.
Qed.

(** The run of [renameWallet] with the session password at hand. *)
Lemma renameWallet_run (st : State) (k : nat) (e : Entry) (newName p : string)
    (rest : list input) (renamed : list Entry) :
  stdin st = Pick k :: Line newName :: rest ->
  DECRYPTED_WALLETS st !! k = Some e ->
  SESSION_PASSWORD st = Some p -> p <> "" ->
  rename_first (DECRYPTED_WALLETS st) (address (wallet e)) newName = Some renamed ->
  Wallets.renameWallet st
  = mkResult (Done tt)
      [Picked "Select wallet to rename:" (map name (DECRYPTED_WALLETS st)) (name e);
       Entered "Enter new name/tag:" newName;
       Logged "Re-saving wallet names...";
       Logged "Wallet renamed.";
       Backup]
      (set_wallets_file (set_wallets (set_stdin st rest) renamed)
                        (Some (Wallets.newRawStore renamed p))).
Proof.
  intros Hin Hk Hp Hne Hren. unfold Wallets.renameWallet.
  rewrite run_get_bind.
  destruct (DECRYPTED_WALLETS st) as [|w0 ws0] eqn:Hws; [discriminate|].
  erewrite run_pick_bind; [|exact Hin|rewrite list_lookup_fmap, Hk; reflexivity].
  erewrite run_line_bind; [|reflexivity].
  rewrite run_get_bind. simpl DECRYPTED_WALLETS. rewrite Hws, Hren.
  rewrite run_lift_some, run_put_bind.
  erewrite run_done_bind; [|apply (getPassword_cached false _ p); [exact Hp|exact Hne]].
  rewrite after_nil, run_emit_bind, run_get_bind, run_put_bind.
  rewrite !after_after. simpl. rewrite map_map. reflexivity.
Qed.

(** X14: [renameWallet] writes [my_wallets.json] anew from the memory.
    The first unlocked wallet with the picked address gets the new name; no
    key and no address changes.  The file then holds one record per unlocked
    wallet, in the order of the memory, each encrypted under the session
    password, whatever records it held before.  When the library opens what
    it encrypts, the vault is consistent afterwards. *)
Theorem renameWallet_rewrites_file (st : State) (k : nat) (e : Entry)
    (newName p : string) (rest : list input) :
  stdin st = Pick k :: Line newName :: rest ->
  DECRYPTED_WALLETS st !! k = Some e ->
  SESSION_PASSWORD st = Some p -> p <> "" ->
  let r := Wallets.renameWallet st in
  outcome r = Done tt
  /\ map wallet (DECRYPTED_WALLETS (final r)) = map wallet (DECRYPTED_WALLETS st)
  /\ WALLETS_FILE (final r) = Some (Wallets.newRawStore (DECRYPTED_WALLETS (final r)) p)
  /\ TRASH_FILE (final r) = TRASH_FILE st
  /\ ((forall j w, j < k -> DECRYPTED_WALLETS st !! j = Some w ->
                   address (wallet w) <> address (wallet e)) ->
      DECRYPTED_WALLETS (final r)
      = <[k := mkEntry newName (wallet e)]> (DECRYPTED_WALLETS st))
  /\ ((forall w, In w (DECRYPTED_WALLETS st) ->
                 fromEncryptedJson (encrypt (wallet w) p) p = Some (wallet w)) ->
      consistent p (final r)).
Proof.
  intros Hin Hk Hp Hne r. subst r.
  destruct (rename_first_lookup _ k e newName Hk) as (renamed & Hren & Hmap).
  rewrite (renameWallet_run st k e newName p rest renamed Hin Hk Hp Hne Hren). simpl.
  split; [reflexivity|]. split; [assumption|]. split; [reflexivity|].
  split; [reflexivity|]. split.
  - intros Hbefore. rewrite (rename_first_at _ k e newName Hk Hbefore) in Hren.
    congruence.
  - intros Hround. unfold consistent. simpl. apply newRawStore_opens.
    intros w Hw.
    assert (In (wallet w) (map wallet (DECRYPTED_WALLETS st))) as Hin'.
    { rewrite <- Hmap. apply in_map. assumption. }
    apply in_map_iff in Hin'. destruct Hin' as (w' & Heq & Hw'). rewrite <- Heq.
    apply Hround. assumption.
Qed.

(** X15: a record restored from the trash that the session password does
    not open is written to [my_wallets.json] but not unlocked, and a
    [renameWallet] in the same session, of any wallet, then writes the file
    from the memory: the restored record is no longer in the file, and it is
    no longer at its place in the trash. *)
Theorem rename_after_failed_restore_drops_record (st : State)
    (trash active : list RawWallet) (i k : nat) (restored : RawWallet) (e : Entry)
    (newName p : string) (rest : list input) :
  TRASH_FILE st = Some trash -> WALLETS_FILE st = Some active ->
  trash !! i = Some restored ->
  opens_record false restored p = None ->
  SESSION_PASSWORD st = Some p -> p <> "" ->
  stdin st = Pick i :: Pick k :: Line newName :: rest ->
  DECRYPTED_WALLETS st !! k = Some e ->
  (forall w, In w (DECRYPTED_WALLETS st) ->
             fromEncryptedJson (encrypt (wallet w) p) p = Some (wallet w)) ->
  let restore := Vault.restoreWallet st in
  let r := (Vault.restoreWallet;; Wallets.renameWallet) st in
  WALLETS_FILE (final restore) = Some (active ++ [restored])
  /\ outcome r = Done tt
  /\ TRASH_FILE (final r) = Some (delete i trash)
  /\ length (default [] (WALLETS_FILE (final r))) = length (DECRYPTED_WALLETS st)
  /\ ~ In restored (default [] (WALLETS_FILE (final r))).
Proof.
  intros Ht Ha Hi Hclosed Hp Hne Hin Hk Hround restore r. subst restore r.
  destruct (restoreWallet_cached st trash active i restored _ p Ht Ha Hi Hin Hp Hne)
    as (Ho & Htr & Hw & Hp' & Hin' & Hm).
  rewrite Hclosed, app_nil_r in Hm.
  split; [exact Hw|].
  rewrite run_bind. unfold bind.
  destruct (Vault.restoreWallet st) as [o evs st1]. simpl in *. subst o.
  rewrite outcome_after, final_after.
  rewrite <- Hm in Hk.
  destruct (renameWallet_rewrites_file st1 k e newName p rest Hin' Hk Hp' Hne)
    as (Ho' & Hmap & Hfile & Htrash & _ & _).
  rewrite Ho', Hfile, Htrash, Htr. simpl default.
  split; [reflexivity|]. split; [reflexivity|]. split.
  - unfold Wallets.newRawStore. rewrite length_map.
    rewrite <- (length_map wallet), Hmap, length_map, Hm. reflexivity.
  - intros Hr. apply newRawStore_record in Hr. destruct Hr as (w & Hw' & Hdata).
    assert (In (wallet w) (map wallet (DECRYPTED_WALLETS st))) as Hmem.
    { rewrite <- Hm, <- Hmap. apply in_map. assumption. }
    apply in_map_iff in Hmem. destruct Hmem as (w' & Heq & Hmem).
    unfold opens_record in Hclosed. simpl in Hclosed. rewrite Hdata in Hclosed.
    rewrite <- Heq, (Hround w' Hmem) in Hclosed. discriminate.
Qed.

End Rename.

(** Witness of X14: [Old] renamed while the file holds a record the
    memory does not. *)
Lemma renameWallet_rewrites_file_witness :
  WALLETS_FILE
    (final (@Wallets.renameWallet demo
              (mkState [Pick 0; Line "Savings"] [entryA] (Some "p1") (Some [rawA; rawB])
                       None "ethereum" "0" [])))
  = Some [mkRaw "Savings" (Some (@encrypt demo walletA "p1")) None].
Proof.
  exact (proj1 (proj2 (proj2
           (@renameWallet_rewrites_file demo
              (mkState [Pick 0; Line "Savings"] [entryA] (Some "p1") (Some [rawA; rawB])
                       None "ethereum" "0" [])
              0 entryA "Savings" "p1" [] eq_refl eq_refl eq_refl ltac:(discriminate))))).
Defined.

(** Witness of X15: [Old], which [p1] does not open, restored and then
    [Main] renamed. *)
Lemma rename_after_failed_restore_drops_record_witness :
  let st := mkState [Pick 0; Pick 0; Line "Savings"] [entryA] (Some "p1") (Some [rawA])
                    (Some [rawB]) "ethereum" "0" [] in
  let r := (@Vault.restoreWallet sealed;; @Wallets.renameWallet sealed) st in
  WALLETS_FILE (final (@Vault.restoreWallet sealed st)) = Some [rawA; rawB]
  /\ TRASH_FILE (final r) = Some []
  /\ ~ In rawB (default [] (WALLETS_FILE (final r))).
Proof.
  intros st r.
  destruct (@rename_after_failed_restore_drops_record sealed st [rawB] [rawA] 0 0 rawB
              entryA "Savings" "p1" [] eq_refl eq_refl eq_refl eq_refl eq_refl
              ltac:(discriminate) eq_refl eq_refl
              ltac:(intros w [<-|[]]; reflexivity))
    as (Hrestore & _ & Htrash & _ & Hgone).
  split; [exact Hrestore|]. split; [exact Htrash|exact Hgone].
Defined.

(** * The vault password and the migration *)

Lemma ask_twice_skips (skipped rest : list input) (p : string) :
  mismatched skipped = true ->
  exists evs, Vault.ask_twice (skipped ++ Line p :: Line p :: rest) = (Done p, evs, rest).
Proof.
  remember (length skipped) as n eqn:Hn. revert skipped Hn.
  induction n as [n IH] using lt_wf_ind. intros skipped Hn Hs.
  destruct skipped as [|[k|a] [|[k'|c] skipped']]; try discriminate.
  - simpl. rewrite String.eqb_refl. eauto.
  - simpl in Hs. apply andb_true_iff in Hs. destruct Hs as [Hac Hs].
    apply negb_true_iff in Hac. simpl. rewrite Hac.
    destruct (IH (length skipped') ltac:(simpl in Hn; lia) skipped' eq_refl Hs) as [evs ->].
    eauto.
Qed.

Lemma ask_twice_done (ins rest : list input) (p : string) (evs : list event) :
  Vault.ask_twice ins = (Done p, evs, rest) ->
  exists skipped, ins = skipped ++ Line p :: Line p :: rest /\ mismatched skipped = true.
Proof.
  remember (length ins) as n eqn:Hn. revert ins evs Hn.
  induction n as [n IH] using lt_wf_ind. intros ins evs Hn Hask.
  destruct ins as [|[k|a] [|[k'|c] ins']]; try discriminate.
  simpl in Hask. destruct (String.eqb a c) eqn:Hac.
  - injection Hask as <- _ <-. apply String.eqb_eq in Hac. subst c.
    exists []. split; reflexivity.
  - destruct (Vault.ask_twice ins') as [[o evs'] rest'] eqn:Hrec.
    injection Hask as -> _ ->.
    destruct (IH (length ins') ltac:(simpl in Hn; lia) ins' evs' eq_refl Hrec)
      as (skipped & -> & Hs).
    exists (Line a :: Line c :: skipped). split; [reflexivity|].
    simpl. rewrite Hac, Hs. reflexivity.
Qed.

(** X16: [getPassword(true)] only accepts a password that was typed twice
    in a row.  With no session password set, it returns [p] exactly when the
    entries are some pairs that do not agree followed by [p] and [p]; each
    such pair is asked again, and [p] becomes the session password. *)
Theorem getPassword_confirmed_entry (st : State) (p : string) :
  SESSION_PASSWORD st = None ->
  (outcome (Vault.getPassword true st) = Done p <->
   exists skipped rest,
     stdin st = skipped ++ Line p :: Line p :: rest /\ mismatched skipped = true)
  /\ (outcome (Vault.getPassword true st) = Done p ->
      SESSION_PASSWORD (final (Vault.getPassword true st)) = Some p).
Proof.
  intros Hpw.
  assert (forall evs rest, Vault.ask_twice (stdin st) = (Done p, evs, rest) ->
            Vault.getPassword true st
            = mkResult (Done p) evs (set_password (set_stdin st rest) (Some p))) as Hrun.
  { intros evs rest. apply getPassword_asks_twice. assumption. }
  assert (outcome (Vault.getPassword true st) = Done p ->
          exists evs rest, Vault.ask_twice (stdin st) = (Done p, evs, rest)) as Hinv.
  { unfold Vault.getPassword. rewrite run_get_bind, Hpw.
    unfold Vault.ask_password. rewrite run_bind. unfold bind at 1.
    destruct (Vault.ask_twice (stdin st)) as [[o evs] rest].
    destruct o as [q|msg|c|]; cbv beta iota zeta; try discriminate.
    rewrite outcome_after, run_get_bind, run_put_bind. simpl. intros [= ->]. eauto. }
  split; [split|].
  - intros Ho. destruct (Hinv Ho) as (evs & rest & Hask).
    destruct (ask_twice_done _ _ _ _ Hask) as (skipped & Hin & Hs). eauto.
  - intros (skipped & rest & Hin & Hs).
    destruct (ask_twice_skips skipped rest p Hs) as [evs Hask].
    rewrite <- Hin in Hask. rewrite (Hrun evs rest Hask). reflexivity.
  - intros Ho. destruct (Hinv Ho) as (evs & rest & Hask).
    rewrite (Hrun evs rest Hask). reflexivity.
Qed.

(** Witness of X16: a first pair that does not agree. *)
Lemma getPassword_confirmed_entry_witness :
  outcome (Vault.getPassword true (boot None None [Line "a"; Line "b"; Line "pw"; Line "pw"]))
  = Done "pw".
Proof.
  apply (proj1 (@getPassword_confirmed_entry
                  (boot None None [Line "a"; Line "b"; Line "pw"; Line "pw"]) "pw" eq_refl)).
  exists [Line "a"; Line "b"], []. split; reflexivity.
Defined.

Section Migration.
Context `{Collaborators}.

Lemma encrypt_all_run (raws : list RawWallet) (es : list Entry) (p : string) (st : State) :
  Forall2 plain_record raws es ->
  Vault.encrypt_all raws p st
  = mkResult (Done (Wallets.newRawStore es p))
      (map (fun w => Logged ("Encrypting " +:+ rw_name w +:+ "...")) raws)
      (set_wallets st (DECRYPTED_WALLETS st ++ es)).
Proof.
  intros Hall. revert st. induction Hall as [|w e raws es (key & Hk & Hw & Hn) Hall IH];
    intros st.
  - simpl. rewrite set_wallets_same. reflexivity.
  - simpl Vault.encrypt_all. rewrite run_emit_bind, Hk, Hw, run_lift_some.
    unfold push_wallet. rewrite run_bind_assoc, run_get_bind, run_put_bind.
    rewrite (run_done_bind _ _ _ _ _ _ (IH _)).
    simpl. rewrite app_nil_r, <- app_assoc, <- Hn. destruct e. reflexivity.
Qed.

Lemma encrypt_all_stops (good rest : list RawWallet) (bad : RawWallet) (es : list Entry)
    (p : string) (st : State) :
  Forall2 plain_record good es -> plain_key bad = None ->
  exists msg,
    Vault.encrypt_all (good ++ bad :: rest) p st
    = mkResult (Threw msg)
        (map (fun w => Logged ("Encrypting " +:+ rw_name w +:+ "...")) (good ++ [bad]))
        (set_wallets st (DECRYPTED_WALLETS st ++ es)).
Proof.
  intros Hall Hbad. revert st. induction Hall as [|w e raws es (key & Hk & Hw & Hn) Hall IH];
    intros st.
  - simpl Vault.encrypt_all. rewrite run_emit_bind. unfold plain_key in Hbad. rewrite Hbad.
    rewrite run_lift_none. rewrite set_wallets_same. eexists. reflexivity.
  - simpl Vault.encrypt_all. rewrite run_emit_bind, Hk, Hw, run_lift_some.
    unfold push_wallet. rewrite run_bind_assoc, run_get_bind, run_put_bind.
    destruct (IH (set_wallets st (DECRYPTED_WALLETS st ++ [mkEntry (rw_name w) (wallet e)])))
      as [msg Hrun].
    rewrite (run_threw_bind _ _ _ _ _ _ Hrun). exists msg.
    simpl. rewrite <- app_assoc, <- Hn. destruct e. reflexivity.
Qed.

Lemma initializeWallets_plain (st : State) (first : RawWallet) (others : list RawWallet) :
  WALLETS_FILE st = Some (first :: others) -> has_privateKey first = true ->
  Vault.initializeWallets st
  = after [Logged "Unencrypted wallets detected! Securing them now..."]
      ((password ← Vault.getPassword true;
        st0 ← get;
        put (set_wallets st0 []);;
        encryptedStore ← Vault.encrypt_all (first :: others) password;
        st' ← get;
        put (set_wallets_file st' (Some encryptedStore));;
        emit (Logged "All wallets encrypted and saved!");;
        emit Backup) st).
Proof.
  intros Hf Hp. unfold Vault.initializeWallets, Vault.loadWalletsRaw.
  rewrite run_bind_assoc, run_get_bind, run_mret_bind, Hf.
  change (default [] (Some (first :: others))) with (first :: others).
  cbv beta iota. rewrite Hp. rewrite run_emit_bind. reflexivity.
Qed.

Lemma newRawStore_names (raws : list RawWallet) (es : list Entry) (p : string) :
  Forall2 plain_record raws es -> map rw_name (Wallets.newRawStore es p) = map rw_name raws.
Proof.
  intros Hall. unfold Wallets.newRawStore. rewrite map_map. simpl.
  induction Hall as [|w e raws' es' (key & _ & _ & Hn) _ IH]; [reflexivity|].
  simpl. rewrite Hn. f_equal. exact IH.
Qed.

(** X17: the migration of [initializeWallets].  When the first record of
    the file carries a private key and the library accepts the key of every
    record, the password typed twice encrypts them all: the file is written
    with one encrypted record per wallet, under the same names and in the
    same order, and no private key is left in it; the wallets are unlocked,
    the password is the session password and a backup is triggered. *)
Theorem initializeWallets_migrates (st : State) (first : RawWallet)
    (others : list RawWallet) (es : list Entry) (p : string) (rest : list input) :
  WALLETS_FILE st = Some (first :: others) ->
  has_privateKey first = true ->
  SESSION_PASSWORD st = None ->
  stdin st = Line p :: Line p :: rest ->
  Forall2 plain_record (first :: others) es ->
  let r := Vault.initializeWallets st in
  outcome r = Done tt
  /\ DECRYPTED_WALLETS (final r) = es
  /\ SESSION_PASSWORD (final r) = Some p
  /\ WALLETS_FILE (final r) = Some (Wallets.newRawStore es p)
  /\ map rw_name (Wallets.newRawStore es p) = map rw_name (first :: others)
  /\ Forall (fun w => rw_privateKey w = None) (Wallets.newRawStore es p)
  /\ In Backup (emitted r).
Proof.
  intros Hf Hp Hpw Hin Hall r. subst r.
  rewrite (initializeWallets_plain st first others Hf Hp).
  rewrite outcome_after, final_after, emitted_after.
  erewrite run_done_bind.
  2: { apply (getPassword_asks_twice st p _ rest Hpw). rewrite Hin. simpl.
       rewrite String.eqb_refl. reflexivity. }
  rewrite run_get_bind, run_put_bind.
  rewrite (run_done_bind _ _ _ _ _ _ (encrypt_all_run _ es p _ Hall)).
  rewrite run_get_bind, run_put_bind.
  rewrite !outcome_after, !final_after, !emitted_after. simpl.
  split; [reflexivity|]. split; [reflexivity|]. split; [reflexivity|].
  split; [reflexivity|]. split; [|split].
  - exact (newRawStore_names (first :: others) es p Hall).
  - unfold Wallets.newRawStore. apply List.Forall_forall. intros w Hw.
    apply in_map_iff in Hw. destruct Hw as (e & <- & _). reflexivity.
  - do 4 right. apply in_or_app. right. right. left. reflexivity.
Qed.

(** X18: the migration writes the file only after every key was accepted.
    When the library refuses the key of one record (or the record has none),
    [initializeWallets] throws at that record: the file is left as it was,
    still in plain text, no backup is triggered, and the memory holds the
    wallets of the records before it. *)
Theorem migration_stops_at_bad_key (st : State) (good rest : list RawWallet)
    (bad : RawWallet) (es : list Entry) (p : string) (ins : list input) :
  WALLETS_FILE st = Some (good ++ bad :: rest) ->
  (exists first, head (good ++ bad :: rest) = Some first /\ has_privateKey first = true) ->
  SESSION_PASSWORD st = None ->
  stdin st = Line p :: Line p :: ins ->
  Forall2 plain_record good es ->
  plain_key bad = None ->
  let r := Vault.initializeWallets st in
  (exists msg, outcome r = Threw msg)
  /\ WALLETS_FILE (final r) = WALLETS_FILE st
  /\ DECRYPTED_WALLETS (final r) = es
  /\ ~ In Backup (emitted r).
Proof.
  intros Hf (first & Hhead & Hp) Hpw Hin Hall Hbad r. subst r.
  destruct (good ++ bad :: rest) as [|first' others] eqn:Hraws; [discriminate|].
  injection Hhead as ->.
  rewrite (initializeWallets_plain st first others Hf Hp).
  rewrite outcome_after, final_after, emitted_after.
  erewrite run_done_bind.
  2: { apply (getPassword_asks_twice st p _ ins Hpw). rewrite Hin. simpl.
       rewrite String.eqb_refl. reflexivity. }
  rewrite run_get_bind, run_put_bind. rewrite <- Hraws.
  match goal with
  | |- context [(Vault.encrypt_all _ _ ≫= _) ?s] =>
      destruct (encrypt_all_stops good rest bad es p s Hall Hbad) as [msg Hrun]
  end.
  rewrite (run_threw_bind _ _ _ _ _ _ Hrun).
  rewrite !outcome_after, !final_after, !emitted_after. simpl.
  split; [eauto|]. split; [reflexivity|]. split; [reflexivity|].
  intros [Hc|[Hc|[Hc|Hc]]]; try discriminate.
  apply in_map_iff in Hc. destruct Hc as (w & Hc & _). discriminate.
Qed.

End Migration.

(** Witness of X17: two plain-text records, the password [pw] typed twice. *)
Lemma initializeWallets_migrates_witness :
  WALLETS_FILE (final (@Vault.initializeWallets demo
                         (boot (Some [plainA; plainB]) None [Line "pw"; Line "pw"])))
  = Some [mkRaw "Main" (Some (@encrypt demo walletA "pw")) None;
          mkRaw "Old" (Some (@encrypt demo walletB "pw")) None].
Proof.
  assert (Forall2 (@plain_record demo) [plainA; plainB] [entryA; entryB]) as Hall.
  { constructor; [exists "keyA"; repeat split|].
    constructor; [exists "keyB"; repeat split|constructor]. }
  exact (proj1 (proj2 (proj2 (proj2
           (@initializeWallets_migrates demo
              (boot (Some [plainA; plainB]) None [Line "pw"; Line "pw"])
              plainA [plainB] [entryA; entryB] "pw" [] eq_refl eq_refl eq_refl eq_refl
              Hall))))).
Defined.

(** Witness of X18: the second record has a key that is not one. *)
Lemma migration_stops_at_bad_key_witness :
  WALLETS_FILE (final (@Vault.initializeWallets demo
                         (boot (Some [plainA; plainBad; plainB]) None
                               [Line "pw"; Line "pw"])))
  = Some [plainA; plainBad; plainB]
  /\ DECRYPTED_WALLETS (final (@Vault.initializeWallets demo
                                 (boot (Some [plainA; plainBad; plainB]) None
                                       [Line "pw"; Line "pw"])))
     = [entryA].
Proof.
  assert (Forall2 (@plain_record demo) [plainA] [entryA]) as Hall.
  { constructor; [exists "keyA"; repeat split|constructor]. }
  destruct (@migration_stops_at_bad_key demo
              (boot (Some [plainA; plainBad; plainB]) None [Line "pw"; Line "pw"])
              [plainA] [plainB] plainBad [entryA] "pw" [] eq_refl
              (ex_intro _ plainA (conj eq_refl eq_refl)) eq_refl eq_refl Hall eq_refl)
    as (_ & Hfile & Hmem & _).
  split; [exact Hfile|exact Hmem].
Defined.

Section Lockout.
Context `{Collaborators}.

Lemma initializeWallets_locked (st : State) (raws : list RawWallet)
    (p1 p2 p3 : string) (rest : list input) :
  WALLETS_FILE st = Some raws -> raws <> [] ->
  Forall (fun w => has_privateKey w = false) raws ->
  SESSION_PASSWORD st = None ->
  stdin st = Line p1 :: Line p2 :: Line p3 :: rest ->
  (forall q, snd (opened_prefix false raws q) = false) ->
  outcome (Vault.initializeWallets st) = Exited 1.
Proof.
  intros Hf Hne Hplain Hpw Hin Hclosed.
  destruct raws as [|first others]; [congruence|].
  rewrite (initializeWallets_encrypted st first others Hf);
    [|inversion Hplain; assumption].
  rewrite outcome_after, run_bind. unfold bind, Vault.ATTEMPTS.
  rewrite (attempt_loop_wrong _ _ p1 st _ Hpw Hin (Hclosed p1)).
  rewrite (attempt_loop_wrong _ _ p2 _ (Line p3 :: rest));
    [|reflexivity|reflexivity|exact (Hclosed p2)].
  rewrite (attempt_loop_wrong _ _ p3 _ rest); [|reflexivity|reflexivity|exact (Hclosed p3)].
  reflexivity.
Qed.

(** X19: [restoreWallet] puts a record back without looking whether the
    vault password opens it.  When no single password opens both the active
    records and the restored one, the vault cannot be unlocked any more: at
    the next start of the program whatever three passwords are typed are
    counted as wrong and the process exits with code 1. *)
Theorem restored_foreign_record_locks_vault (st : State) (trash active : list RawWallet)
    (i : nat) (restored : RawWallet) (ins : list input) :
  TRASH_FILE st = Some trash -> WALLETS_FILE st = Some active ->
  trash !! i = Some restored -> stdin st = Pick i :: ins ->
  Forall (fun w => has_privateKey w = false) (active ++ [restored]) ->
  (forall q, snd (opened_prefix false (active ++ [restored]) q) = false) ->
  let st1 := final (Vault.restoreWallet st) in
  WALLETS_FILE st1 = Some (active ++ [restored])
  /\ forall p1 p2 p3 rest,
       outcome (Vault.initializeWallets
                  (boot (WALLETS_FILE st1) (TRASH_FILE st1)
                        (Line p1 :: Line p2 :: Line p3 :: rest)))
       = Exited 1.
Proof.
  intros Ht Ha Hi Hin Hplain Hclosed st1. subst st1.
  destruct (restoreWallet_moves st trash active i restored ins Ht Ha Hi Hin) as [Htr Hw].
  split; [exact Hw|]. intros p1 p2 p3 rest. rewrite Hw.
  apply (initializeWallets_locked _ (active ++ [restored]) p1 p2 p3 rest);
    try reflexivity; try assumption.
  destruct active; discriminate.
Qed.

End Lockout.

(** Witness of X19: [Old], under [p2], restored beside [Main], under
    [p1]. *)
Lemma restored_foreign_record_locks_vault_witness :
  outcome (@Vault.initializeWallets demo
             (boot (Some [rawA; rawB]) (Some []) [Line "p1"; Line "p2"; Line "p1"]))
  = Exited 1.
Proof.
  assert (forall q, snd (@opened_prefix demo false ([rawA] ++ [rawB]) q) = false) as Hclosed.
  { intros q. simpl. unfold opens_record. simpl.
    destruct (String.eqb_spec q "p1") as [->|Hq]; [reflexivity|].
    simpl. reflexivity. }
  exact (proj2 (@restored_foreign_record_locks_vault demo
                  (mkState [Pick 0; Line "p1"] [entryA] None (Some [rawA]) (Some [rawB])
                           "ethereum" "0" [])
                  [rawB] [rawA] 0 rawB [Line "p1"] eq_refl eq_refl eq_refl eq_refl
                  ltac:(repeat constructor) Hclosed)
               "p1" "p2" "p1" []).
Defined.

(** * Local transfers and swaps: what is sent *)

Ltac once_step :=
  lazymatch goal with
  | |- at_most 1 _ (_ ≫= _) =>
      first [ apply (at_most_bind 0 1); [solve [quiet]|intros]
            | apply (at_most_bind 1 0); [apply at_most_emit_one|solve [quiet]]
            | apply (at_most_bind 1 0); [|solve [quiet]] ]
  | |- at_most 1 _ (try_catch _ _) => apply (at_most_try_catch 1 0); [|solve [quiet]]
  | |- at_most 1 _ (if ?b then _ else _) => destruct b
  | |- at_most 1 _ (match ?x with _ => _ end) => destruct x
  | |- at_most 1 _ _ => apply (at_most_weaken 0); [solve [quiet]|lia]
  end.

Ltac single_call := repeat once_step.

Section Calls.
Context `{Collaborators}.

Lemma transferAsset_once : at_most 1 moves_funds Funds.transferAsset.
Proof.
  unfold Funds.transferAsset, Funds.transfer_from, Funds.ask_recipient, Funds.send_asset,
    Funds.send_native, Funds.send_token, Funds.selectNetwork, Cli.listWallets.
  single_call.
Qed.

Lemma swapToken_one_approve : at_most 1 is_approve Funds.swapToken.
Proof.
  unfold Funds.swapToken, Funds.swap_from, Funds.execute_swap, Funds.selectNetwork,
    Cli.listWallets, yes_no.
  single_call.
Qed.

Lemma swapToken_one_swap : at_most 1 is_swap Funds.swapToken.
Proof.
  unfold Funds.swapToken, Funds.swap_from, Funds.execute_swap, Funds.selectNetwork,
    Cli.listWallets, yes_no.
  single_call.
Qed.

Lemma swapToken_no_transfer : at_most 0 is_transfer Funds.swapToken.
Proof.
  unfold Funds.swapToken, Funds.swap_from, Funds.execute_swap, Funds.selectNetwork,
    Cli.listWallets, yes_no.
  quiet.
Qed.


(** X20: one call of [transferAsset] makes at most one call on chain, a
    token transfer or a native transfer; one call of [swapToken] makes at
    most one [approve] and at most one router swap, and no transfer. *)
Theorem local_calls_bounded (st : State) :
  count_events moves_funds (emitted (Funds.transferAsset st)) <= 1
  /\ count_events is_approve (emitted (Funds.swapToken st)) <= 1
  /\ count_events is_swap (emitted (Funds.swapToken st)) <= 1
  /\ count_events is_transfer (emitted (Funds.swapToken st)) = 0.
Proof.
  split; [apply transferAsset_once|]. split; [apply swapToken_one_approve|].
  split; [apply swapToken_one_swap|].
  pose proof (swapToken_no_transfer st). lia.
Qed.


End Calls.


Section Networks.
Context `{Collaborators}.

Lemma selectNetwork_unknown (includeBack : bool) (st : State) :
  defaultNetwork st <> "" ->
  lookup_key NETWORKS (defaultNetwork st) = None ->
  Funds.selectNetwork includeBack st
  = mkResult (Threw "Cannot read properties of undefined (reading 'name')") [] st.
Proof.
  intros Hne Hunknown. unfold Funds.selectNetwork. rewrite run_get_bind.
  unfold truthy. apply String.eqb_neq in Hne. rewrite Hne. simpl negb. cbv iota.
  rewrite Hunknown. reflexivity.
Qed.

(** X22: [selectNetwork] reads the name of the default network before it
    asks anything.  When the [defaultNetwork] setting is not empty and is
    none of the keys of [NETWORKS] (nor a property every object inherits),
    it throws without a prompt, and so do [transferAsset] and [swapToken]
    once the wallet is picked: no call on chain is made. *)
Theorem unknown_default_network_blocks (st : State) :
  defaultNetwork st <> "" ->
  lookup_key NETWORKS (defaultNetwork st) = None ->
  ~ In (defaultNetwork st) inherited_properties ->
  (forall includeBack,
      Funds.selectNetwork includeBack st
      = mkResult (Threw "Cannot read properties of undefined (reading 'name')") [] st)
  /\ count_events moves_funds (emitted (Funds.transferAsset st)) = 0
  /\ count_events moves_funds (emitted (Funds.swapToken st)) = 0
  /\ (forall k e rest,
        stdin st = Pick k :: rest -> DECRYPTED_WALLETS st !! k = Some e ->
        address (wallet e) <> BACK ->
        outcome (Funds.transferAsset st)
        = Threw "Cannot read properties of undefined (reading 'name')"
        /\ outcome (Funds.swapToken st)
           = Threw "Cannot read properties of undefined (reading 'name')").
Proof.
  intros Hne Hunknown _.
  assert (forall b ins, Funds.selectNetwork b (set_stdin st ins)
            = mkResult (Threw "Cannot read properties of undefined (reading 'name')") []
                       (set_stdin st ins)) as Hsel.
  { intros b ins. apply selectNetwork_unknown; assumption. }
  split; [intros b; apply selectNetwork_unknown; assumption|].
  split; [|split].
  - unfold Funds.transferAsset, Cli.listWallets.
    rewrite run_bind_assoc, run_get_bind.
    destruct (DECRYPTED_WALLETS st) as [|w0 ws0] eqn:Hws.
    { rewrite run_bind_assoc, run_emit_bind, run_mret_bind. reflexivity. }
    rewrite run_mret_bind.
    match goal with
    | |- context [(rawlist ?m ?c ≫= ?kont) ?s] =>
        destruct (rawlist_cases m c kont s)
          as [(k & rest & label & v & Hin & Hk & ->)| ->]; [|reflexivity]
    end.
    rewrite emitted_after, count_events_app.
    destruct (String.eqb v BACK); [reflexivity|].
    rewrite run_get_bind.
    destruct (Cli.find_wallet _ v) as [sender|]; [|reflexivity].
    rewrite run_lift_some, (run_threw_bind _ _ _ _ _ _ (Hsel true rest)). reflexivity.
  - unfold Funds.swapToken, Cli.listWallets.
    rewrite !run_emit_bind, !emitted_after, !count_events_app.
    rewrite run_bind_assoc, run_get_bind.
    destruct (DECRYPTED_WALLETS st) as [|w0 ws0] eqn:Hws.
    { rewrite run_bind_assoc, run_emit_bind, run_mret_bind. reflexivity. }
    rewrite run_mret_bind.
    match goal with
    | |- context [(rawlist ?m ?c ≫= ?kont) ?s] =>
        destruct (rawlist_cases m c kont s)
          as [(k & rest & label & v & Hin & Hk & ->)| ->]; [|reflexivity]
    end.
    rewrite emitted_after, count_events_app.
    destruct (String.eqb v BACK); [reflexivity|].
    rewrite run_get_bind.
    destruct (Cli.find_wallet _ v) as [sender|]; [|reflexivity].
    rewrite run_lift_some, (run_threw_bind _ _ _ _ _ _ (Hsel true rest)). reflexivity.
  - intros k e rest Hin Hk Hback.
    assert (Cli.wallet_choices (DECRYPTED_WALLETS st) !! k
            = Some (name e +:+ " (" +:+ address (wallet e) +:+ ")", address (wallet e)))
      as Hchoice.
    { unfold Cli.wallet_choices. rewrite lookup_app_l.
      - rewrite list_lookup_fmap, Hk. reflexivity.
      - rewrite length_map. eapply lookup_lt_Some. eassumption. }
    destruct (find_wallet_lookup _ _ _ Hk) as (target & Hfind & _).
    apply String.eqb_neq in Hback.
    split.
    + unfold Funds.transferAsset, Cli.listWallets.
      rewrite run_bind_assoc, run_get_bind.
      destruct (DECRYPTED_WALLETS st) as [|w0 ws0] eqn:Hws; [discriminate|].
      rewrite run_mret_bind.
      rewrite (run_pick_bind _ _ _ _ k rest _ _ Hin Hchoice), outcome_after, Hback.
      rewrite run_get_bind. simpl DECRYPTED_WALLETS. rewrite Hws, Hfind, run_lift_some.
      rewrite (run_threw_bind _ _ _ _ _ _ (Hsel true rest)). reflexivity.
    + unfold Funds.swapToken, Cli.listWallets.
      rewrite !run_emit_bind, !outcome_after.
      rewrite run_bind_assoc, run_get_bind.
      destruct (DECRYPTED_WALLETS st) as [|w0 ws0] eqn:Hws; [discriminate|].
      rewrite run_mret_bind.
      rewrite (run_pick_bind _ _ _ _ k rest _ _ Hin Hchoice), outcome_after, Hback.
      rewrite run_get_bind. simpl DECRYPTED_WALLETS. rewrite Hws, Hfind, run_lift_some.
      rewrite (run_threw_bind _ _ _ _ _ _ (Hsel true rest)). reflexivity.
Qed.

End Networks.

(** Witness of X22: the default network [arbitrum] is not in the table. *)
Lemma unknown_default_network_blocks_witness :
  outcome (@Funds.transferAsset demo
             (mkState [Pick 0] [entryA] (Some "p1") (Some [rawA]) None "arbitrum" "0" []))
  = Threw "Cannot read properties of undefined (reading 'name')".
Proof.
  exact (proj1 (proj2 (proj2 (proj2
           (@unknown_default_network_blocks demo
              (mkState [Pick 0] [entryA] (Some "p1") (Some [rawA]) None "arbitrum" "0" [])
              ltac:(discriminate) eq_refl
              ltac:(intros Hin; repeat (destruct Hin as [Hin|Hin]; [discriminate|]);
                    exact Hin)))) 0 entryA [] eq_refl eq_refl
           ltac:(discriminate))).
Defined.

Section NativeTransfer.
Context `{Collaborators}.

Lemma network_lookup (n : nat) (key : string) (net : Network) :
  NETWORKS !! n = Some (key, net) ->
  lookup_key NETWORKS key = Some net
  /\ String.eqb key BACK = false
  /\ network_key net = Some key
  /\ (map (fun kv => (net_name (snd kv), fst kv)) NETWORKS) !! n = Some (net_name net, key).
Proof.
  destruct n as [|[|[|[|n]]]]; intros Hn; try discriminate;
    injection Hn as <- <-; repeat split.
Qed.

Lemma selectNetwork_picks (includeBack : bool) (st : State) (n : nat) (key : string)
    (net : Network) (rest : list input) :
  stdin st = Pick n :: rest -> NETWORKS !! n = Some (key, net) ->
  default_network_known st = true ->
  exists msg labels,
    Funds.selectNetwork includeBack st
    = mkResult (Done (Some net)) [Picked msg labels (net_name net)] (set_stdin st rest).
Proof.
  intros Hin Hn Hknown. destruct (network_lookup n key net Hn) as (Hkey & Hback & _ & Hchoice).
  unfold Funds.selectNetwork. rewrite run_get_bind.
  unfold default_network_known in Hknown.
  destruct (lookup_key NETWORKS _) as [defaultEntry|]; [|discriminate].
  rewrite run_lift_some.
  erewrite run_pick_bind; [|exact Hin|].
  2: { rewrite lookup_app_l; [exact Hchoice|].
       rewrite length_map. eapply lookup_lt_Some. eassumption. }
  rewrite Hback, run_fmap, Hkey, run_lift_some. eexists _, _. reflexivity.
Qed.

Lemma ask_recipient_manual (sender : Entry) (st : State) (to : string) (rest : list input) :
  stdin st = manual_entry st sender ++ Line to :: rest ->
  exists evs,
    Funds.ask_recipient sender st = mkResult (Done to) evs (set_stdin st rest)
    /\ count_events moves_funds evs = 0.
Proof.
  unfold manual_entry, Funds.ask_recipient. rewrite run_get_bind.
  destruct (List.filter _ (DECRYPTED_WALLETS st)) as [|o others]; simpl app; intros Hin.
  - rewrite run_mret_bind. change (String.eqb "manual" "My Other Wallets") with false.
    cbv iota. unfold input_line. rewrite Hin. eexists. split; reflexivity.
  - erewrite run_pick_bind; [|exact Hin|reflexivity].
    change (String.eqb "Manual Address Entry" "My Other Wallets") with false. cbv iota.
    unfold input_line, after. simpl stdin. eexists. split; reflexivity.
Qed.

(** The run of [transferAsset] up to the broadcast of a native transfer. *)
Lemma transferAsset_native (st : State) (k n : nat) (e sender : Entry) (key : string)
    (net : Network) (to amount : string) (rest : list input) :
  DECRYPTED_WALLETS st !! k = Some e ->
  address (wallet e) <> BACK ->
  Cli.find_wallet (DECRYPTED_WALLETS st) (address (wallet e)) = Some sender ->
  NETWORKS !! n = Some (key, net) ->
  default_network_known st = true ->
  stdin st = Pick k :: Pick n :: Pick 0 :: manual_entry st sender
             ++ Line to :: Line amount :: rest ->
  exists evs,
    Funds.transferAsset st
    = after evs (Funds.send_asset net (wallet sender) None 18 to amount (set_stdin st rest))
    /\ count_events moves_funds evs = 0.
Proof.
  intros Hk Hback Hfind Hn Hknown Hin.
  assert (Cli.wallet_choices (DECRYPTED_WALLETS st) !! k
          = Some (name e +:+ " (" +:+ address (wallet e) +:+ ")", address (wallet e)))
    as Hchoice.
  { unfold Cli.wallet_choices. rewrite lookup_app_l.
    - rewrite list_lookup_fmap, Hk. reflexivity.
    - rewrite length_map. eapply lookup_lt_Some. eassumption. }
  apply String.eqb_neq in Hback.
  unfold Funds.transferAsset, Cli.listWallets.
  rewrite run_bind_assoc, run_get_bind.
  destruct (DECRYPTED_WALLETS st) as [|w0 ws0] eqn:Hws; [discriminate|].
  rewrite run_mret_bind.
  rewrite (run_pick_bind _ _ _ _ k _ _ _ Hin Hchoice), Hback.
  rewrite run_get_bind. simpl DECRYPTED_WALLETS. rewrite Hws, Hfind, run_lift_some.
  edestruct (selectNetwork_picks true) as (msg & labels & Hsel);
    [| exact Hn | | erewrite (run_done_bind _ _ _ _ _ _ Hsel)];
    [reflexivity|exact Hknown|].
  destruct (network_lookup n key net Hn) as (_ & _ & Hnk & _).
  rewrite Hnk.
  erewrite run_pick_bind; [|reflexivity|reflexivity].
  unfold Funds.transfer_from.
  edestruct (ask_recipient_manual sender) as (evs & Hask & Hquiet);
    [|erewrite (run_done_bind _ _ _ _ _ _ Hask)].
  { simpl stdin. unfold manual_entry. simpl DECRYPTED_WALLETS. rewrite Hws. reflexivity. }
  erewrite run_line_bind; [|reflexivity].
  rewrite !run_emit_bind, !after_after. eexists. split; [reflexivity|].
  rewrite !count_events_app, Hquiet. reflexivity.
Qed.

(** X23: a native transfer of [transferAsset].  With a wallet, a network
    and [Native Coin] picked and a recipient and an amount typed, the
    transfer is sent through the RPC endpoint of the network picked, signed
    by the first unlocked wallet with the picked address, for the amount
    parsed with 18 decimals.  It carries no gas limit when the
    [gasLimitBuffer] setting is empty or ["0"], and the estimate plus the
    buffer otherwise; when the setting is not a number the transfer is not
    sent at all and the error is logged. *)
Theorem native_transfer_on_picked_network (st : State) (k n : nat) (e sender : Entry)
    (key : string) (net : Network) (to amount : string) (wei : Z) (rest : list input) :
  DECRYPTED_WALLETS st !! k = Some e ->
  address (wallet e) <> BACK ->
  Cli.find_wallet (DECRYPTED_WALLETS st) (address (wallet e)) = Some sender ->
  NETWORKS !! n = Some (key, net) ->
  default_network_known st = true ->
  stdin st = Pick k :: Pick n :: Pick 0 :: manual_entry st sender
             ++ Line to :: Line amount :: rest ->
  parseUnits amount 18 = Some wei ->
  let tr := emitted (Funds.transferAsset st) in
  (gas_buffer_set st = false ->
   In (NativeTransfer (rpc net) (address (wallet sender)) to wei None) tr)
  /\ (forall estimate buffer,
        gas_buffer_set st = true ->
        estimateGas (rpc net) (wallet sender) to wei = Some estimate ->
        BigInt (gasLimitBuffer st) = Some buffer ->
        In (NativeTransfer (rpc net) (address (wallet sender)) to wei
              (Some (estimate + buffer)%Z)) tr)
  /\ (gas_buffer_set st = true -> BigInt (gasLimitBuffer st) = None ->
      count_events moves_funds tr = 0
      /\ exists msg, In (Logged ("Transaction Failed: " +:+ msg)) tr).
Proof.
  intros Hk Hback Hfind Hn Hknown Hin Hwei tr. subst tr.
  destruct (transferAsset_native st k n e sender key net to amount rest
              Hk Hback Hfind Hn Hknown Hin) as (evs & -> & Hquiet).
  rewrite emitted_after.
  unfold Funds.send_asset, Funds.send_native, try_catch.
  rewrite run_bind_assoc, Hwei, run_lift_some, run_bind_assoc, run_get_bind.
  change (gasLimitBuffer (set_stdin st rest)) with (gasLimitBuffer st).
  fold (gas_buffer_set st).
  split; [|split].
  - intros ->. rewrite run_bind_assoc, run_mret_bind, run_bind_assoc, run_emit_bind.
    apply in_or_app. right.
    destruct (sendNative _ _ _ _ _); simpl; left; reflexivity.
  - intros estimate buffer -> Hest Hbuf.
    rewrite !run_bind_assoc, Hest, run_lift_some, !run_bind_assoc, Hbuf, run_lift_some.
    rewrite run_mret_bind, run_bind_assoc, run_emit_bind.
    apply in_or_app. right.
    destruct (sendNative _ _ _ _ _); simpl; left; reflexivity.
  - intros -> Hbuf. rewrite !run_bind_assoc.
    destruct (estimateGas (rpc net) (wallet sender) to wei) as [estimate|].
    + rewrite run_lift_some, !run_bind_assoc, Hbuf. simpl.
      rewrite count_events_app, Hquiet. split; [reflexivity|].
      eexists. apply in_or_app. right. left. reflexivity.
    + simpl. rewrite count_events_app, Hquiet. split; [reflexivity|].
      eexists. apply in_or_app. right. left. reflexivity.
Qed.

End NativeTransfer.

(** Witness of X23: [Main] sends 1.5 BNB on the second network of the
    table. *)
Lemma native_transfer_on_picked_network_witness :
  In (NativeTransfer "https://bsc-dataseed.binance.org" (address walletA)
        "0xCCcccccccccccccccccccccccccccccccccccccccc" 1500000000000000000 None)
     (emitted (@Funds.transferAsset demo
                 (single [Pick 0; Pick 1; Pick 0;
                          Line "0xCCcccccccccccccccccccccccccccccccccccccccc"; Line "1.5"]))).
Proof.
  exact (proj1
           (@native_transfer_on_picked_network demo
              (single [Pick 0; Pick 1; Pick 0;
                       Line "0xCCcccccccccccccccccccccccccccccccccccccccc"; Line "1.5"])
              0 1 entryA entryA "bsc"
              (mkNetwork "Binance Smart Chain" "https://bsc-dataseed.binance.org" 56 "BNB"
                         "binancecoin")
              "0xCCcccccccccccccccccccccccccccccccccccccccc" "1.5" 1500000000000000000 []
              ltac:(reflexivity) ltac:(discriminate) eq_refl eq_refl eq_refl eq_refl eq_refl)
           eq_refl).
Defined.

(** * [unlockWallets] of [core.js] *)

Section CoreUnlock.
Context `{Collaborators}.

Lemma unlock_loop_legacy (good rest : list RawWallet) (legacy : RawWallet)
    (es : list Entry) (password : string) (st : State) :
  Forall2 (fun w e => opens_record true w password = Some e) good es ->
  has_privateKey legacy = true ->
  Core.unlock_loop (good ++ legacy :: rest) password st
  = mkResult (Threw "Legacy plain-text wallets found. Please run CLI to migrate.") []
             (set_wallets st (DECRYPTED_WALLETS st ++ es)).
Proof.
  intros Hgood Hlegacy. revert st.
  induction Hgood as [|w e good es Hw _ IH]; intros st.
  - simpl Core.unlock_loop. rewrite Hlegacy. simpl. rewrite set_wallets_same. reflexivity.
  - simpl Core.unlock_loop.
    assert (has_privateKey w = false) as Hplain.
    { unfold opens_record in Hw. destruct (has_privateKey w); [discriminate|reflexivity]. }
    rewrite Hplain, run_mret_bind.
    pose proof (decrypt_opens true w password st (fun _ => Hplain)) as Hd.
    rewrite Hw in Hd. destruct Hd as [Hd He].
    rewrite (run_done_bind _ _ _ _ _ _ Hd), after_nil.
    unfold push_wallet. rewrite run_bind_assoc, run_get_bind, run_put_bind.
    rewrite IH. simpl. rewrite <- app_assoc, <- He. reflexivity.
Qed.

(** X24: the three ways [unlockWallets] of [core.js] ends besides a
    failed decryption.  Without a wallet file it returns the empty list and
    does not touch the wallets in memory; when the password opens every
    record it returns them all, in the order of the file, and the memory
    holds exactly them; and a record that carries a private key makes it
    throw [Legacy plain-text wallets found], whatever the password, with the
    records before it left in memory. *)
Theorem unlockWallets_outcomes (password : string) (st : State) :
  (WALLETS_FILE st = None -> Core.unlockWallets password st = mkResult (Done []) [] st)
  /\ (forall raws es,
        WALLETS_FILE st = Some raws ->
        Forall2 (fun w e => opens_record true w password = Some e) raws es ->
        outcome (Core.unlockWallets password st) = Done es
        /\ DECRYPTED_WALLETS (final (Core.unlockWallets password st)) = es)
  /\ (forall good legacy rest es,
        WALLETS_FILE st = Some (good ++ legacy :: rest) ->
        Forall2 (fun w e => opens_record true w password = Some e) good es ->
        has_privateKey legacy = true ->
        outcome (Core.unlockWallets password st)
        = Threw "Legacy plain-text wallets found. Please run CLI to migrate."
        /\ DECRYPTED_WALLETS (final (Core.unlockWallets password st)) = es).
Proof.
  split; [|split].
  - intros Hf. unfold Core.unlockWallets. rewrite run_get_bind, Hf. reflexivity.
  - intros raws es Hf Hall.
    destruct (unlockWallets_run password st raws Hf) as (Hm & Hok & _).
    rewrite (opened_prefix_all true raws password es Hall) in Hm, Hok.
    split; [apply Hok; reflexivity|exact Hm].
  - intros good legacy rest es Hf Hgood Hlegacy.
    unfold Core.unlockWallets. rewrite run_get_bind, Hf, run_put_bind.
    rewrite (run_threw_bind _ _ _ _ _ _
               (unlock_loop_legacy good rest legacy es password _ Hgood Hlegacy)).
    split; reflexivity.
Qed.

End CoreUnlock.

(** Witness of X24: a plain-text record after an encrypted one. *)
Lemma unlockWallets_outcomes_witness :
  outcome (@Core.unlockWallets demo "p1" (boot (Some [rawA; plainB]) None []))
  = Threw "Legacy plain-text wallets found. Please run CLI to migrate."
  /\ DECRYPTED_WALLETS (final (@Core.unlockWallets demo "p1"
                                 (boot (Some [rawA; plainB]) None []))) = [entryA].
Proof.
  apply (proj2 (proj2 (@unlockWallets_outcomes demo "p1"
                         (boot (Some [rawA; plainB]) None [])))
           [rawA] plainB [] [entryA] eq_refl); [|reflexivity].
  repeat constructor.
Defined.
